(** * Identity credential and session store of dex (etcd and MongoDB drivers)

    A shallow embedding of the repositories under [db/etcd] and
    [db/mongodb], and the properties the specification states about them.

    Conventions of the embedding.

    - A Go function returning [(T, error)] becomes a function into
      [result T]; one that returns only [error] returns [option error]
      ([None] is [nil]).  A method that writes to the backend returns the
      new backend state next to its result.
    - [time.Time] is an instant, counted in nanoseconds from the Unix
      epoch; [time.Duration] is a number of nanoseconds.  The reading of
      the repository clock ([r.clock.Now()]) is the argument [now] of
      every operation that consults it.
    - An etcd keyspace is a finite map from node paths to node values; a
      MongoDB collection is the list of its documents in natural order.
      The JSON or BSON text of a stored record is represented by the record
      it encodes.  The keyspace of the session keys records, with every
      node, the instant at which etcd lets it expire; the keyspace of the
      client identities holds, besides the identities, the admin flags and
      the directories, whose values are not the JSON of an identity.
    - The etcd server reads the same clock as the repository.  Removing
      the expired nodes is a step of the server ([expire]), which it takes
      at instants of its own choice.
    - A request that fails on its way to the backend is modelled where a
      property speaks of such failures: the failure is then the argument
      [fault] of the operation.
    - Values the code draws from outside (random payloads, bcrypt salts,
      fresh object ids, encryption nonces) are explicit arguments.
    - Packages that are not part of the two drivers (bcrypt, the cipher of
      [pkg/crypto], [encoding/json] on foreign types, [net/url], [x509],
      [user.ValidEmail]) are interfaces, given as type classes.

    The first part holds the model, the second part the lemmas. *)

From Stdlib Require Import ZArith NArith List String Ascii Strings.Byte Bool Lia.
From stdpp Require Import base option list gmap strings pretty.

Import ListNotations.
Local Open Scope string_scope.
Local Open Scope Z_scope.
Local Open Scope list_scope.

(** * Part I: the model *)

(** ** Errors *)

(** Codes of [etcdclient.Error] the repositories can meet. *)
Inductive etcd_code : Type :=
| ErrorCodeKeyNotFound   (* 100 *)
| ErrorCodeNotFile       (* 102 *)
| ErrorCodeNotDir        (* 104 *)
| ErrorCodeNodeExist.    (* 105 *)

(** What [bcrypt.CompareHashAndPassword] returns when it is not [nil]. *)
Inductive bcrypt_err : Type :=
| ErrMismatchedHashAndPassword
| ErrHashTooShort.

(** The error values of the program.  An error made on the spot by
    [errors.New] or [fmt.Errorf] is identified by its text, and so is an
    error of [json.Unmarshal]; [mgo_ErrDup] is the duplicate-key
    [*mgo.LastError]; [go_panic] is a run-time panic. *)
Inductive error : Type :=
| errors_New (msg : string)
| json_Error (msg : string)
| etcdclient_Error (code : etcd_code)
| mgo_ErrNotFound
| mgo_ErrDup
| bcrypt_Error (e : bcrypt_err)
| refresh_ErrorInvalidToken
| refresh_ErrorInvalidUserID
| refresh_ErrorInvalidClientID
| key_ErrorNoKeys
| db_ErrorCannotDecryptKeys
| client_ErrorNotFound
| user_ErrorNotFound
| user_ErrorInvalidID
| user_ErrorInvalidEmail
| user_ErrorDuplicateID
| user_ErrorDuplicateEmail
| go_panic (msg : string).

Inductive result (A : Type) : Type :=
| Ok (a : A)
| Err (e : error).
Arguments Ok {A} a.
Arguments Err {A} e.

(** The error texts of the session repositories. *)
Definition InvalidSessionKey : error := errors_New "invalid session key".
Definition SessionDoesNotExist : error := errors_New "session does not exist".
Definition FailedToPop : error := errors_New "failed to pop entity".

Definition is_ok {A} (r : result A) : bool :=
  match r with Ok _ => true | Err _ => false end.

(** A request to the backend: it is answered, or it fails on its way (the
    server is not reached, the context ends) with the error [fault]. *)
Definition request {A} (fault : option error) (answer : result A) : result A :=
  match fault with
  | Some e => Err e
  | None => answer
  end.

(** ** Time *)

Definition Time : Type := Z.
Definition Duration : Type := Z.

Definition Second : Z := 1000000000.
Definition Millisecond : Z := 1000000.

(** [time.Time{}], January 1 of year 1, 00:00 UTC. *)
Definition zeroTime : Time := -62135596800 * Second.

Definition Time_IsZero (t : Time) : bool := t =? zeroTime.
Definition Time_Before (t u : Time) : bool := t <? u.
Definition Time_Add (t : Time) (d : Duration) : Time := t + d.
Definition Time_UTC (t : Time) : Time := t.
(** [t.Unix()]: whole seconds since the epoch, rounded down. *)
Definition Time_Unix (t : Time) : Z := t / Second.
(** [time.Unix(sec, 0)]. *)
Definition time_Unix (sec : Z) : Time := sec * Second.

(** The integer nearest to [a / b], for [0 <= a] and [0 < b]; of two
    nearest integers the even one. *)
Definition div_nearest_even (a b : Z) : Z :=
  let q := a / b in
  let r := a mod b in
  if 2 * r <? b then q
  else if b <? 2 * r then q + 1
  else if Z.even q then q else q + 1.

(** [n / (d * 2 ^ e)] as a fraction of integers. *)
Definition shift_fraction (n d e : Z) : Z * Z :=
  if 0 <=? e then (n, d * 2 ^ e) else (n * 2 ^ (- e), d).

(** The [float64] nearest to the fraction [n / d], for [0 <= n] and
    [0 < d], in the range of the normal numbers: the pair [(m, e)] stands
    for [m * 2 ^ e], with [m] from [2 ^ 52] to [2 ^ 53]. *)
Definition float64_of_fraction (n d : Z) : Z * Z :=
  if n <=? 0 then (0, 0)
  else
    let l := Z.log2 n - Z.log2 d in
    let '(a, b) := shift_fraction n d l in
    let e := (if b <=? a then l else l - 1) - 52 in
    let '(a, b) := shift_fraction n d e in
    (div_nearest_even a b, e).

(** [d.Seconds()] of a duration of [sec] seconds and [nsec] nanoseconds,
    neither negative: [float64(sec) + float64(nsec)/1e9], where the
    quotient and the sum are each rounded to a [float64]. *)
Definition float64_seconds (sec nsec : Z) : Z * Z :=
  let '(m, e) := float64_of_fraction nsec Second in
  let '(n, d) := shift_fraction m 1 (- e) in
  float64_of_fraction (sec * d + n) d.

(** The whole part of a [float64] that is not negative. *)
Definition float64_trunc (f : Z * Z) : Z :=
  let '(m, e) := f in
  if 0 <=? e then m * 2 ^ e else m / 2 ^ (- e).

(** [int64(d.Seconds())].  [Seconds] splits the duration with [/] and [%],
    which round towards zero, so that the seconds and the nanoseconds of a
    negative duration are both negative; the sum of the two floats is
    rounded to the nearest [float64], and the conversion to [int64] cuts
    the fraction off.  A duration that ends shortly before a whole second
    can so count as that second. *)
Definition Duration_Seconds (d : Duration) : Z :=
  let a := Z.abs d in
  Z.sgn d * float64_trunc (float64_seconds (a / Second) (a mod Second)).

(** Two's complement wrap-around of [int64] arithmetic. *)
Definition wrap64 (z : Z) : Z := (z + 2 ^ 63) mod 2 ^ 64 - 2 ^ 63.

(** A [time.Time] after a trip through BSON, which keeps milliseconds. *)
Definition bson_Time (t : Time) : Time := t / Millisecond * Millisecond.

(** ** Byte slices *)

Definition bytes : Type := list byte.

#[global] Instance byte_eq_dec : EqDecision byte := Byte.byte_eq_dec.
#[global] Instance etcd_code_eq_dec : EqDecision etcd_code.
Proof. solve_decision. Defined.
#[global] Instance bcrypt_err_eq_dec : EqDecision bcrypt_err.
Proof. solve_decision. Defined.
#[global] Instance error_eq_dec : EqDecision error.
Proof. solve_decision. Defined.

(** ** [path.Join] *)

Definition slash : ascii := "/"%char.

Fixpoint split_slash (s acc : string) : list string :=
  match s with
  | EmptyString => [acc]
  | String c s' =>
      if Ascii.eqb c slash then acc :: split_slash s' EmptyString
      else split_slash s' (String.append acc (String c EmptyString))
  end.

(** One component of [path.Clean], on the stack of components kept so far
    (innermost first). *)
Definition clean_step (rooted : bool) (st : list string) (c : string) : list string :=
  if String.eqb c "" || String.eqb c "." then st
  else if String.eqb c ".." then
    match st with
    | top :: rest => if String.eqb top ".." then c :: st else rest
    | [] => if rooted then [] else [c]
    end
  else c :: st.

Definition path_Clean (p : string) : string :=
  match p with
  | EmptyString => "."
  | String c _ =>
      let rooted := Ascii.eqb c slash in
      let body := String.concat "/" (rev (fold_left (clean_step rooted) (split_slash p "") [])) in
      if rooted then String slash body
      else if String.eqb body "" then "." else body
  end.

Fixpoint drop_empty (elem : list string) : list string :=
  match elem with
  | [] => []
  | e :: rest => if String.eqb e "" then drop_empty rest else elem
  end.

Definition path_Join (elem : list string) : string :=
  match drop_empty elem with
  | [] => ""
  | es => path_Clean (String.concat "/" es)
  end.

(** ** [strings.SplitN(s, sep, 2)], for a separator that is not empty *)

Fixpoint strip_prefix (sep s : string) : option string :=
  match sep, s with
  | EmptyString, _ => Some s
  | String a sep', String b s' => if Ascii.eqb a b then strip_prefix sep' s' else None
  | String _ _, EmptyString => None
  end.

(** The text before and after the first occurrence of [sep]. *)
Fixpoint strings_Cut (s sep : string) : option (string * string) :=
  match strip_prefix sep s with
  | Some after => Some (EmptyString, after)
  | None =>
      match s with
      | EmptyString => None
      | String c s' =>
          match strings_Cut s' sep with
          | Some (before, after) => Some (String c before, after)
          | None => None
          end
      end
  end.

Definition strings_SplitN2 (s sep : string) : list string :=
  match strings_Cut s sep with
  | Some (before, after) => [before; after]
  | None => [s]
  end.

(** ** [base64.URLEncoding] *)

Definition b64_alphabet : string :=
  "ABCDEFGHIJKLMNOPQRSTUVWXYZabcdefghijklmnopqrstuvwxyz0123456789-_".

Definition b64_pad : ascii := "="%char.

Definition b64_char (n : N) : ascii :=
  default b64_pad (String.get (N.to_nat n) b64_alphabet).

Definition b64_value (c : ascii) : option N :=
  let n := N_of_ascii c in
  (if (65 <=? n) && (n <=? 90) then Some (n - 65)
   else if (97 <=? n) && (n <=? 122) then Some (n - 97 + 26)
   else if (48 <=? n) && (n <=? 57) then Some (n - 48 + 52)
   else if n =? 45 then Some 62
   else if n =? 95 then Some 63
   else None)%N.

Definition byte_of_N (n : N) : byte := default x00 (Byte.of_N (n mod 256)%N).

Fixpoint b64_encode (b : bytes) : list ascii :=
  match b with
  | [] => []
  | [x] =>
      let n := Byte.to_N x in
      [b64_char (n / 4); b64_char (n mod 4 * 16); b64_pad; b64_pad]%N
  | [x; y] =>
      let n := Byte.to_N x in
      let m := Byte.to_N y in
      [b64_char (n / 4); b64_char (n mod 4 * 16 + m / 16);
       b64_char (m mod 16 * 4); b64_pad]%N
  | x :: y :: z :: rest =>
      let n := Byte.to_N x in
      let m := Byte.to_N y in
      let k := Byte.to_N z in
      ([b64_char (n / 4); b64_char (n mod 4 * 16 + m / 16);
        b64_char (m mod 16 * 4 + k / 64); b64_char (k mod 64)]%N
       ++ b64_encode rest)%list
  end.

(** The decoder is the lenient one: the bits of the last character that
    fall outside the last byte are not checked. *)
Fixpoint b64_decode (cs : list ascii) : option bytes :=
  match cs with
  | [] => Some []
  | c1 :: c2 :: c3 :: c4 :: rest =>
      match b64_value c1, b64_value c2 with
      | Some v1, Some v2 =>
          let b1 := byte_of_N (v1 * 4 + v2 / 16) in
          if Ascii.eqb c3 b64_pad then
            if Ascii.eqb c4 b64_pad then
              match rest with [] => Some [b1] | _ :: _ => None end
            else None
          else
            match b64_value c3 with
            | None => None
            | Some v3 =>
                let b2 := byte_of_N (v2 mod 16 * 16 + v3 / 4) in
                if Ascii.eqb c4 b64_pad then
                  match rest with [] => Some [b1; b2] | _ :: _ => None end
                else
                  match b64_value c4 with
                  | None => None
                  | Some v4 =>
                      let b3 := byte_of_N (v3 mod 4 * 64 + v4) in
                      match b64_decode rest with
                      | Some tl => Some (b1 :: b2 :: b3 :: tl)
                      | None => None
                      end
                  end
            end
      | _, _ => None
      end
  | _ => None
  end.

(** Line breaks are skipped by the decoder wherever they stand. *)
Definition is_newline (c : ascii) : bool :=
  Ascii.eqb c "010"%char || Ascii.eqb c "013"%char.

Definition base64_EncodeToString (b : bytes) : string :=
  string_of_list_ascii (b64_encode b).

Definition base64_DecodeString (s : string) : option bytes :=
  b64_decode (List.filter (fun c => negb (is_newline c)) (list_ascii_of_string s)).

(** ** The etcd keys API *)

Inductive PrevExistType : Type := PrevIgnore | PrevExist | PrevNoExist.

(** [etcdclient.Response], as far as the repositories look at it. *)
Record Response (V : Type) : Type := { Node : option V }.
Arguments Node {V} _.

Section KeysAPI.
Context {V : Type}.

Definition kAPI_Get (ks : gmap string V) (key : string) : result (Response V) :=
  match ks !! key with
  | Some v => Ok {| Node := Some v |}
  | None => Err (etcdclient_Error ErrorCodeKeyNotFound)
  end.

Definition kAPI_Set (ks : gmap string V) (key : string) (value : V)
    (prev : PrevExistType) : option error * gmap string V :=
  match prev, ks !! key with
  | PrevNoExist, Some _ => (Some (etcdclient_Error ErrorCodeNodeExist), ks)
  | PrevExist, None => (Some (etcdclient_Error ErrorCodeKeyNotFound), ks)
  | _, _ => (None, <[key := value]> ks)
  end.

(** [Create] is [Set] with [PrevExist: PrevNoExist]. *)
Definition kAPI_Create (ks : gmap string V) (key : string) (value : V)
    : option error * gmap string V :=
  kAPI_Set ks key value PrevNoExist.

Definition kAPI_Delete (ks : gmap string V) (key : string)
    : option error * gmap string V :=
  match ks !! key with
  | Some _ => (None, delete key ks)
  | None => (Some (etcdclient_Error ErrorCodeKeyNotFound), ks)
  end.

End KeysAPI.

(** [SetOptions{TTL: ttl}].  The client sends a positive TTL in whole
    seconds ([uint64(TTL.Seconds())]) and the server, serving the request
    at the instant [now], lets the node expire that many seconds later.
    Another TTL is not sent, and the node does not expire. *)
Definition ttl_Expiration (now : Time) (ttl : Duration) : option Time :=
  if 0 <? ttl then Some (now + Duration_Seconds ttl * Second) else None.

(** The directories above a node: the prefixes of its path that end before
    a slash, the root apart. *)
Fixpoint dirs_above (s acc : string) : list string :=
  match s with
  | EmptyString => []
  | String c s' =>
      (if Ascii.eqb c slash && negb (String.eqb acc "") then [acc] else [])
      ++ dirs_above s' (String.append acc (String c EmptyString))
  end.

(** A keyspace with its directories.  [is_dir] tells the directories among
    the nodes, [dir] is a directory. *)
Section KeysTree.
Context {V : Type} (is_dir : V -> bool) (dir : V).

(** A node that is not a directory stands at the path [p]. *)
Definition is_file (ks : gmap string V) (p : string) : bool :=
  match ks !! p with
  | Some v => negb (is_dir v)
  | None => false
  end.

(** [Set] of a value: the directories above the node are made where they
    are missing; the request is refused when a value stands where a
    directory is needed (code 104) and when the node is a directory
    (code 102). *)
Definition kAPI_Set_in_tree (ks : gmap string V) (key : string) (value : V)
    (prev : PrevExistType) : option error * gmap string V :=
  if existsb (is_file ks) (dirs_above key "")
  then (Some (etcdclient_Error ErrorCodeNotDir), ks)
  else
    match prev, ks !! key with
    | PrevNoExist, Some _ => (Some (etcdclient_Error ErrorCodeNodeExist), ks)
    | PrevExist, None => (Some (etcdclient_Error ErrorCodeKeyNotFound), ks)
    | _, Some v =>
        if is_dir v then (Some (etcdclient_Error ErrorCodeNotFile), ks)
        else (None, <[key := value]> ks)
    | _, None =>
        (None, <[key := value]> (foldr (fun p m => <[p := dir]> m) ks (dirs_above key "")))
    end.

End KeysTree.

(** [EtcdDriver]: the root directory and the keyspace behind [kAPI], seen at
    the nodes of one repository, whose values have type [V]. *)
Record EtcdDriver (V : Type) : Type := {
  directory : string;
  kAPI : gmap string V
}.
Arguments directory {V} _.
Arguments kAPI {V} _.

Definition with_kAPI {V} (d : EtcdDriver V) (ks : gmap string V) : EtcdDriver V :=
  {| directory := directory d; kAPI := ks |}.

(** ** MongoDB collections *)

Section Collection.
Context {D : Type}.

(** [c.Find(sel).One(&d)]: the first document the selector matches. *)
Fixpoint find_one (sel : D -> bool) (c : list D) : result D :=
  match c with
  | [] => Err mgo_ErrNotFound
  | d :: rest => if sel d then Ok d else find_one sel rest
  end.

(** [c.Update(sel, doc)] with a plain document, one without [$] operators:
    the first document the selector matches is replaced by [doc], which
    receives the old document for the [_id] that MongoDB keeps. *)
Fixpoint update_one (sel : D -> bool) (doc : D -> D) (c : list D)
    : option error * list D :=
  match c with
  | [] => (Some mgo_ErrNotFound, [])
  | d :: rest =>
      if sel d then (None, doc d :: rest)
      else let '(e, rest') := update_one sel doc rest in (e, d :: rest')
  end.

(** [c.Remove(sel)]: the first matching document is deleted. *)
Fixpoint remove_one (sel : D -> bool) (c : list D) : option error * list D :=
  match c with
  | [] => (Some mgo_ErrNotFound, [])
  | d :: rest =>
      if sel d then (None, rest)
      else let '(e, rest') := remove_one sel rest in (e, d :: rest')
  end.

(** [c.Insert(d)] into a collection whose documents carry an [_id] of the
    caller's choice: MongoDB refuses a second document with the same
    [_id]. *)
Definition insert_one {I : Type} `{EqDecision I} (id : D -> I) (d : D) (c : list D)
    : option error * list D :=
  match find_one (fun d' => bool_decide (id d' = id d)) c with
  | Ok _ => (Some mgo_ErrDup, c)
  | Err _ => (None, (c ++ [d])%list)
  end.

End Collection.

(** ** Interfaces of the packages outside the drivers *)

(** [golang.org/x/crypto/bcrypt].  The salt that [GenerateFromPassword]
    draws is its first argument. *)
Class Bcrypt : Type := {
  bcrypt_GenerateFromPassword : bytes -> bytes -> Z -> result bytes;
  bcrypt_CompareHashAndPassword : bytes -> bytes -> option bcrypt_err
}.

Definition bcrypt_DefaultCost : Z := 10.

(** [pkg/crypto]: the two ciphers of the key store.  The nonce or
    initialisation vector that encryption draws is its first argument. *)
Class Pcrypto : Type := {
  pcrypto_Encrypt : bytes -> bytes -> bytes -> result bytes;
  pcrypto_Decrypt : bytes -> bytes -> result bytes;
  pcrypto_AESEncrypt : bytes -> bytes -> bytes -> result bytes;
  pcrypto_AESDecrypt : bytes -> bytes -> result bytes
}.

(** [net/url] and [encoding/json] on [oidc.Identity], for the session
    store. *)
Class SessionCodec : Type := {
  url_URL : Type;
  url_Parse : string -> result url_URL;
  url_String : url_URL -> string;
  oidc_Identity : Type;
  Identity_ExpiresAt : oidc_Identity -> Time;
  Identity_with_ExpiresAt : oidc_Identity -> Time -> oidc_Identity;
  json_Marshal_Identity : oidc_Identity -> result string;
  json_Unmarshal_Identity : string -> result oidc_Identity
}.

(** [refresh.TokenDelimer], and [bson.ObjectId] with its hexadecimal form. *)
Class TokenFormat : Type := {
  refresh_TokenDelimer : string;
  ObjectId : Type;
  ObjectId_eq_dec :: EqDecision ObjectId;
  ObjectId_Hex : ObjectId -> string;
  bson_IsObjectIdHex : string -> bool;
  bson_ObjectIdHex : string -> ObjectId
}.

(** The persisted form of a key set; [db/etcd/key.go] and the MongoDB key
    file declare it in the same words. *)
Module keymodel.

Record privateKeyModel : Type := {
  ID : string;
  PKCS1 : bytes
}.

Record privateKeySetModel : Type := {
  Keys : list privateKeyModel;
  ExpiresAt : Time
}.

End keymodel.

(** [rsa.PrivateKey] with [x509], [key.PrivateKeySet] of go-oidc with its
    accessors and constructor, and [encoding/json] on the persisted form.
    [pks_Keys] lists, per key, [ID()] and the RSA key. *)
Class KeyPkg : Type := {
  rsa_PrivateKey : Type;
  key_PrivateKeySet : Type;
  pks_Keys : key_PrivateKeySet -> list (string * rsa_PrivateKey);
  pks_ExpiresAt : key_PrivateKeySet -> Time;
  key_NewPrivateKeySet : list (string * rsa_PrivateKey) -> Time -> key_PrivateKeySet;
  x509_MarshalPKCS1PrivateKey : rsa_PrivateKey -> bytes;
  x509_ParsePKCS1PrivateKey : bytes -> result rsa_PrivateKey;
  json_Marshal_privateKeySetModel : keymodel.privateKeySetModel -> result bytes;
  json_Unmarshal_privateKeySetModel : bytes -> result keymodel.privateKeySetModel
}.

(** [user.ValidEmail]. *)
Class UserPkg : Type := {
  user_ValidEmail : string -> bool
}.

(** * Session keys ([Push], [Pop]) *)

(** Package [session]: the two domain types of the session stores. *)
Module session.

Record SessionKey : Type := { Key : string; SessionID : string }.

Section WithCodec.
Context {SC : SessionCodec}.

Record Session : Type := {
  ID : string;
  State : string;
  CreatedAt : Time;
  ExpiresAt : Time;
  ClientID : string;
  ClientState : string;
  RedirectURL : url_URL;
  Identity : oidc_Identity;
  ConnectorID : string;
  UserID : string;
  Register : bool;
  Nonce : string;
  Scope : list string
}.

End WithCodec.

End session.

(** ** etcd: [db/etcd/session.go], [sessionKeyRepo] *)

Module EtcdSessionKey.

Definition SessionKeyDirectory : string := "session_key".

Record sessionKeyModel : Type := {
  Key : string;
  SessionID : string;
  ExpiresAt : Z;
  Stale : bool
}.

(** A node of a session key: the record whose JSON is its value, and the
    instant at which etcd lets the node expire, if it does.  The keyspace
    is seen at these nodes; the directory that holds them is not among
    them. *)
Record node : Type := {
  Value : sessionKeyModel;
  Expiration : option Time
}.

Definition sessionKeyRepo : Type := EtcdDriver node.

Definition key (r : sessionKeyRepo) (id : string) : string :=
  path_Join [directory r; SessionKeyDirectory; id].

Definition get (r : sessionKeyRepo) (k : string) : result sessionKeyModel :=
  match kAPI_Get (kAPI r) (key r k) with
  | Err e => Err e
  | Ok resp =>
      match Node resp with
      | None => Err SessionDoesNotExist
      | Some n => Ok (Value n)
      end
  end.

(** First half of [Pop]: the read of the node and the two checks.  It
    yields the record with [Stale] set, ready to be written back. *)
Definition Pop_read (r : sessionKeyRepo) (now : Time) (k : string)
    : result sessionKeyModel :=
  match get r k with
  | Err e => Err e
  | Ok skm =>
      if Stale skm || (ExpiresAt skm <? Time_Unix now)
      then Err InvalidSessionKey
      else Ok {| Key := Key skm; SessionID := SessionID skm;
                 ExpiresAt := ExpiresAt skm; Stale := true |}
  end.

(** Second half of [Pop]: the write, which asks only that the node
    exists.  It names no TTL: the node written does not expire. *)
Definition Pop_write (r : sessionKeyRepo) (skm : sessionKeyModel)
    : result string * sessionKeyRepo :=
  match kAPI_Set (kAPI r) (key r (Key skm))
          {| Value := skm; Expiration := None |} PrevExist with
  | (Some e, ks) => (Err e, with_kAPI r ks)
  | (None, ks) => (Ok (SessionID skm), with_kAPI r ks)
  end.

Definition Pop (r : sessionKeyRepo) (now : Time) (k : string)
    : result string * sessionKeyRepo :=
  match Pop_read r now k with
  | Err e => (Err e, r)
  | Ok skm => Pop_write r skm
  end.

Definition Push (r : sessionKeyRepo) (now : Time) (sk : session.SessionKey) (exp : Duration)
    : option error * sessionKeyRepo :=
  let skm := {| Key := session.Key sk; SessionID := session.SessionID sk;
                ExpiresAt := wrap64 (Time_Unix now + Duration_Seconds exp);
                Stale := false |} in
  let '(e, ks) := kAPI_Set (kAPI r) (key r (Key skm))
                    {| Value := skm; Expiration := ttl_Expiration now exp |}
                    PrevNoExist in
  (e, with_kAPI r ks).

(** The node is still there when the server has removed what had expired
    at the instant [t]. *)
Definition alive (t : Time) (n : node) : bool :=
  match Expiration n with
  | Some e => t <? e
  | None => true
  end.

(** The step of the server at the instant [t] of its clock: the nodes whose
    expiration is not after [t] are removed. *)
Definition expire (t : Time) (r : sessionKeyRepo) : sessionKeyRepo :=
  with_kAPI r (filter (fun kn : string * node => alive t (snd kn) = true) (kAPI r)).

End EtcdSessionKey.

(** ** MongoDB: [sessionKeyRepo] *)

Module MongoSessionKey.

(** A document of the [SessionKey] collection, on the four fields of the
    model; a field the document does not carry is [None].  The collection
    is what [Push] and [Pop] make of it; [newSessionKeyRepo] declares an
    index on [expires_at], and what the server does on account of it is
    not part of the two operations. *)
Record document : Type := {
  d_key : option string;
  d_session_id : option string;
  d_expires_at : option Time;
  d_stale : option bool
}.

Record sessionKeyModel : Type := {
  Key : string;
  SessionID : string;
  ExpiresAt : Time;
  Stale : bool
}.

(** BSON encoding of the model, and decoding of a document into it: a
    missing field leaves the zero value of its type. *)
Definition marshal (m : sessionKeyModel) : document :=
  {| d_key := Some (Key m); d_session_id := Some (SessionID m);
     d_expires_at := Some (bson_Time (ExpiresAt m)); d_stale := Some (Stale m) |}.

Definition unmarshal (d : document) : sessionKeyModel :=
  {| Key := default "" (d_key d);
     SessionID := default "" (d_session_id d);
     ExpiresAt := default zeroTime (d_expires_at d);
     Stale := default false (d_stale d) |}.

Definition sessionKeyRepo : Type := list document.

(** [bson.M{"key": key}]. *)
Definition sel_key (k : string) (d : document) : bool :=
  bool_decide (d_key d = Some k).

(** [bson.M{"stale": false, "key": key}]. *)
Definition sel_fresh_key (k : string) (d : document) : bool :=
  bool_decide (d_stale d = Some false) && bool_decide (d_key d = Some k).

(** [bson.M{"stale": true}] used as the update document: it has no [$set],
    so it stands for the whole new document. *)
Definition doc_stale (_ : document) : document :=
  {| d_key := None; d_session_id := None; d_expires_at := None; d_stale := Some true |}.

(** First half of [Pop]: the query and the two checks. *)
Definition Pop_read (r : sessionKeyRepo) (now : Time) (k : string)
    : result sessionKeyModel :=
  match find_one (sel_key k) r with
  | Err e => Err e
  | Ok d =>
      let skm := unmarshal d in
      if Stale skm || Time_Before (ExpiresAt skm) now
      then Err InvalidSessionKey
      else Ok skm
  end.

(** Second half of [Pop]: the update, whose selector asks for a document
    that is not stale. *)
Definition Pop_write (r : sessionKeyRepo) (k : string) (skm : sessionKeyModel)
    : result string * sessionKeyRepo :=
  match update_one (sel_fresh_key k) doc_stale r with
  | (Some _, r') => (Err FailedToPop, r')
  | (None, r') => (Ok (SessionID skm), r')
  end.

Definition Pop (r : sessionKeyRepo) (now : Time) (k : string)
    : result string * sessionKeyRepo :=
  match Pop_read r now k with
  | Err e => (Err e, r)
  | Ok skm => Pop_write r k skm
  end.

(** The model has no [_id] field, so every [Insert] gets a fresh one and
    succeeds. *)
Definition Push (r : sessionKeyRepo) (now : Time) (sk : session.SessionKey) (exp : Duration)
    : option error * sessionKeyRepo :=
  let skm := {| Key := session.Key sk; SessionID := session.SessionID sk;
                ExpiresAt := Time_Add now exp; Stale := false |} in
  (None, (r ++ [marshal skm])%list).

End MongoSessionKey.

(** * Sessions ([Create], [Update], [Get]) *)

(** ** etcd: [db/etcd/session.go], [sessionRepo] *)

Module EtcdSession.

Definition SessionDirectory : string := "session".

Record sessionModel : Type := {
  ID : string;
  State : string;
  CreatedAt : Z;
  ExpiresAt : Z;
  ClientID : string;
  ClientState : string;
  RedirectURL : string;
  Identity : string;
  ConnectorID : string;
  UserID : string;
  Register : bool;
  Nonce : string;
  Scope : list string
}.

Definition sessionRepo : Type := EtcdDriver sessionModel.

Definition key (r : sessionRepo) (id : string) : string :=
  path_Join [directory r; SessionDirectory; id].

Section WithCodec.
Context {SC : SessionCodec}.

(** The method [session()] of [sessionModel]. *)
Definition sessionModel_session (s : sessionModel) : result session.Session :=
  match url_Parse (RedirectURL s) with
  | Err e => Err e
  | Ok ru =>
      match json_Unmarshal_Identity (Identity s) with
      | Err e => Err e
      | Ok ident =>
          let ident :=
            if Time_IsZero (Identity_ExpiresAt ident)
            then Identity_with_ExpiresAt ident zeroTime else ident in
          Ok {| session.ID := ID s;
                session.State := State s;
                session.CreatedAt :=
                  if negb (CreatedAt s =? 0) then Time_UTC (time_Unix (CreatedAt s))
                  else zeroTime;
                session.ExpiresAt :=
                  if negb (ExpiresAt s =? 0) then Time_UTC (time_Unix (ExpiresAt s))
                  else zeroTime;
                session.ClientID := ClientID s;
                session.ClientState := ClientState s;
                session.RedirectURL := ru;
                session.Identity := ident;
                session.ConnectorID := ConnectorID s;
                session.UserID := UserID s;
                session.Register := Register s;
                session.Nonce := Nonce s;
                session.Scope := Scope s |}
      end
  end.

Definition newSessionModel (s : session.Session) : result sessionModel :=
  match json_Marshal_Identity (session.Identity s) with
  | Err e => Err e
  | Ok b =>
      Ok {| ID := session.ID s;
            State := session.State s;
            CreatedAt :=
              if negb (Time_IsZero (session.CreatedAt s)) then Time_Unix (session.CreatedAt s)
              else 0;
            ExpiresAt :=
              if negb (Time_IsZero (session.ExpiresAt s)) then Time_Unix (session.ExpiresAt s)
              else 0;
            ClientID := session.ClientID s;
            ClientState := session.ClientState s;
            RedirectURL := url_String (session.RedirectURL s);
            Identity := b;
            ConnectorID := session.ConnectorID s;
            UserID := session.UserID s;
            Register := session.Register s;
            Nonce := session.Nonce s;
            Scope := session.Scope s |}
  end.

Definition get (r : sessionRepo) (id : string) : result sessionModel :=
  match kAPI_Get (kAPI r) (key r id) with
  | Err e => Err e
  | Ok resp =>
      match Node resp with
      | None => Err SessionDoesNotExist
      | Some c => Ok c
      end
  end.

Definition insert (r : sessionRepo) (sm : sessionModel) : option error * sessionRepo :=
  let '(e, ks) := kAPI_Create (kAPI r) (key r (ID sm)) sm in
  (e, with_kAPI r ks).

Definition Get (r : sessionRepo) (now : Time) (sessionID : string)
    : result session.Session :=
  match get r sessionID with
  | Err e => Err e
  | Ok sm =>
      match sessionModel_session sm with
      | Err e => Err e
      | Ok ses =>
          if Time_Before (session.ExpiresAt ses) now then Err SessionDoesNotExist
          else Ok ses
      end
  end.

Definition Create (r : sessionRepo) (s : session.Session) : option error * sessionRepo :=
  match newSessionModel s with
  | Err e => (Some e, r)
  | Ok sm => insert r sm
  end.

Definition Update (r : sessionRepo) (s : session.Session) : option error * sessionRepo :=
  match newSessionModel s with
  | Err e => (Some e, r)
  | Ok sm => insert r sm
  end.

End WithCodec.

End EtcdSession.

(** ** MongoDB: [sessionRepo] *)

Module MongoSession.

Record sessionModel : Type := {
  ID : string;
  State : string;
  CreatedAt : Time;
  ExpiresAt : Time;
  ClientID : string;
  ClientState : string;
  RedirectURL : string;
  Identity : string;
  ConnectorID : string;
  UserID : string;
  Register : bool;
  Nonce : string;
  Scope : list string
}.

(** The document a model becomes in the collection: BSON keeps the two
    times to the millisecond. *)
Definition marshal (sm : sessionModel) : sessionModel :=
  {| ID := ID sm; State := State sm;
     CreatedAt := bson_Time (CreatedAt sm);
     ExpiresAt := bson_Time (ExpiresAt sm);
     ClientID := ClientID sm; ClientState := ClientState sm;
     RedirectURL := RedirectURL sm; Identity := Identity sm;
     ConnectorID := ConnectorID sm; UserID := UserID sm;
     Register := Register sm; Nonce := Nonce sm; Scope := Scope sm |}.

Definition sessionRepo : Type := list sessionModel.

(** The selector of [FindId(id)] and [UpdateId(id, _)]. *)
Definition sel_id (id : string) (d : sessionModel) : bool :=
  bool_decide (ID d = id).

Section WithCodec.
Context {SC : SessionCodec}.

(** The method [session()] of [sessionModel]. *)
Definition sessionModel_session (s : sessionModel) : result session.Session :=
  match url_Parse (RedirectURL s) with
  | Err e => Err e
  | Ok ru =>
      match json_Unmarshal_Identity (Identity s) with
      | Err e => Err e
      | Ok ident =>
          let ident :=
            if Time_IsZero (Identity_ExpiresAt ident)
            then Identity_with_ExpiresAt ident zeroTime else ident in
          Ok {| session.ID := ID s;
                session.State := State s;
                session.CreatedAt :=
                  if negb (Time_IsZero (CreatedAt s)) then Time_UTC (CreatedAt s)
                  else zeroTime;
                session.ExpiresAt :=
                  if negb (Time_IsZero (ExpiresAt s)) then Time_UTC (ExpiresAt s)
                  else zeroTime;
                session.ClientID := ClientID s;
                session.ClientState := ClientState s;
                session.RedirectURL := ru;
                session.Identity := ident;
                session.ConnectorID := ConnectorID s;
                session.UserID := UserID s;
                session.Register := Register s;
                session.Nonce := Nonce s;
                session.Scope := Scope s |}
      end
  end.

Definition newSessionModel (s : session.Session) : result sessionModel :=
  match json_Marshal_Identity (session.Identity s) with
  | Err e => Err e
  | Ok b =>
      Ok {| ID := session.ID s;
            State := session.State s;
            CreatedAt :=
              if negb (Time_IsZero (session.CreatedAt s)) then Time_UTC (session.CreatedAt s)
              else zeroTime;
            ExpiresAt :=
              if negb (Time_IsZero (session.ExpiresAt s)) then Time_UTC (session.ExpiresAt s)
              else zeroTime;
            ClientID := session.ClientID s;
            ClientState := session.ClientState s;
            RedirectURL := url_String (session.RedirectURL s);
            Identity := b;
            ConnectorID := session.ConnectorID s;
            UserID := session.UserID s;
            Register := session.Register s;
            Nonce := session.Nonce s;
            Scope := session.Scope s |}
  end.

Definition Get (r : sessionRepo) (now : Time) (sessionID : string)
    : result session.Session :=
  match find_one (sel_id sessionID) r with
  | Err e => Err e
  | Ok sm =>
      match sessionModel_session sm with
      | Err e => Err e
      | Ok ses =>
          if Time_Before (session.ExpiresAt ses) now then Err SessionDoesNotExist
          else Ok ses
      end
  end.

Definition Create (r : sessionRepo) (s : session.Session) : option error * sessionRepo :=
  match newSessionModel s with
  | Err e => (Some e, r)
  | Ok sm => insert_one ID (marshal sm) r
  end.

Definition Update (r : sessionRepo) (s : session.Session) : option error * sessionRepo :=
  match newSessionModel s with
  | Err e => (Some e, r)
  | Ok sm => update_one (sel_id (session.ID s)) (fun _ => marshal sm) r
  end.

End WithCodec.

End MongoSession.

(** * Refresh tokens ([Create], [Verify], [Revoke]) *)

(** ** etcd: [db/etcd/refresh.go] *)

Module EtcdRefresh.

Definition RefreshTokenDirectory : string := "refresh_token".

Record refreshTokenModel : Type := {
  ID : string;
  PayloadHash : bytes;
  UserID : string;
  ClientID : string
}.

Definition refreshTokenRepo : Type := EtcdDriver refreshTokenModel.

Definition key (r : refreshTokenRepo) (id : string) : string :=
  path_Join [directory r; RefreshTokenDirectory; id].

Section WithPackages.
Context {B : Bcrypt} {TF : TokenFormat}.

Definition buildToken (tokenID : string) (tokenPayload : bytes) : string :=
  tokenID +:+ refresh_TokenDelimer +:+ base64_EncodeToString tokenPayload.

Definition parseToken (token : string) : result (string * bytes) :=
  match strings_SplitN2 token refresh_TokenDelimer with
  | [id; enc] =>
      match base64_DecodeString enc with
      | Some tokenPayload => Ok (id, tokenPayload)
      | None => Err refresh_ErrorInvalidToken
      end
  | _ => Err refresh_ErrorInvalidToken
  end.

Definition checkTokenPayload (payloadHash payload : bytes) : option error :=
  match bcrypt_CompareHashAndPassword payloadHash payload with
  | None => None
  | Some ErrMismatchedHashAndPassword => Some refresh_ErrorInvalidToken
  | Some e => Some (bcrypt_Error e)
  end.

Definition get (r : refreshTokenRepo) (id : string) : result refreshTokenModel :=
  match kAPI_Get (kAPI r) (key r id) with
  | Err (etcdclient_Error ErrorCodeKeyNotFound) => Err refresh_ErrorInvalidToken
  | Err e => Err e
  | Ok resp =>
      match Node resp with
      | None => Err refresh_ErrorInvalidToken
      | Some c => Ok c
      end
  end.

Definition insert (r : refreshTokenRepo) (rtm : refreshTokenModel)
    : option error * refreshTokenRepo :=
  let '(e, ks) := kAPI_Create (kAPI r) (key r (ID rtm)) rtm in
  (e, with_kAPI r ks).

(** [generated] is what [r.tokenGenerator.Generate()] returns, [salt] the
    salt bcrypt draws, [newID] the value of [NewRefreshTokenId()]. *)
Definition Create (r : refreshTokenRepo) (userID clientID : string)
    (generated : result bytes) (salt : bytes) (newID : string)
    : result string * refreshTokenRepo :=
  if String.eqb userID "" then (Err refresh_ErrorInvalidUserID, r)
  else if String.eqb clientID "" then (Err refresh_ErrorInvalidClientID, r)
  else
    match generated with
    | Err e => (Err e, r)
    | Ok tokenPayload =>
        match bcrypt_GenerateFromPassword salt tokenPayload bcrypt_DefaultCost with
        | Err e => (Err e, r)
        | Ok payloadHash =>
            let record := {| ID := newID; PayloadHash := payloadHash;
                             UserID := userID; ClientID := clientID |} in
            match insert r record with
            | (Some e, r') => (Err e, r')
            | (None, r') => (Ok (buildToken (ID record) tokenPayload), r')
            end
        end
    end.

Definition Verify (r : refreshTokenRepo) (clientID token : string) : result string :=
  match parseToken token with
  | Err e => Err e
  | Ok (tokenID, tokenPayload) =>
      match get r tokenID with
      | Err e => Err e
      | Ok record =>
          if negb (String.eqb (ClientID record) clientID)
          then Err refresh_ErrorInvalidClientID
          else
            match checkTokenPayload (PayloadHash record) tokenPayload with
            | Some e => Err e
            | None => Ok (UserID record)
            end
      end
  end.

Definition Revoke (r : refreshTokenRepo) (userID token : string)
    : option error * refreshTokenRepo :=
  match parseToken token with
  | Err e => (Some e, r)
  | Ok (tokenID, tokenPayload) =>
      match get r tokenID with
      | Err e => (Some e, r)
      | Ok record =>
          if negb (String.eqb (UserID record) userID)
          then (Some refresh_ErrorInvalidUserID, r)
          else
            match checkTokenPayload (PayloadHash record) tokenPayload with
            | Some e => (Some e, r)
            | None =>
                let '(e, ks) := kAPI_Delete (kAPI r) (key r (ID record)) in
                (e, with_kAPI r ks)
            end
      end
  end.

End WithPackages.

End EtcdRefresh.

(** ** MongoDB: [refreshTokenRepo] *)

Module MongoRefresh.

Section WithPackages.
Context {B : Bcrypt} {TF : TokenFormat}.

Record refreshTokenModel : Type := {
  ID : ObjectId;
  PayloadHash : bytes;
  UserID : string;
  ClientID : string
}.

Definition refreshTokenRepo : Type := list refreshTokenModel.

(** The selector of [FindId(id)] and [RemoveId(id)]. *)
Definition sel_id (id : ObjectId) (d : refreshTokenModel) : bool :=
  bool_decide (ID d = id).

Definition buildToken (tokenID : ObjectId) (tokenPayload : bytes) : string :=
  ObjectId_Hex tokenID +:+ refresh_TokenDelimer +:+ base64_EncodeToString tokenPayload.

Definition parseToken (token : string) : result (ObjectId * bytes) :=
  match strings_SplitN2 token refresh_TokenDelimer with
  | [id; enc] =>
      if negb (bson_IsObjectIdHex id) then Err refresh_ErrorInvalidToken
      else
        match base64_DecodeString enc with
        | Some tokenPayload => Ok (bson_ObjectIdHex id, tokenPayload)
        | None => Err refresh_ErrorInvalidToken
        end
  | _ => Err refresh_ErrorInvalidToken
  end.

Definition checkTokenPayload (payloadHash payload : bytes) : option error :=
  match bcrypt_CompareHashAndPassword payloadHash payload with
  | None => None
  | Some ErrMismatchedHashAndPassword => Some refresh_ErrorInvalidToken
  | Some e => Some (bcrypt_Error e)
  end.

(** [generated] is what [r.tokenGenerator.Generate()] returns, [salt] the
    salt bcrypt draws, [newID] the value of [bson.NewObjectId()].  When
    [Insert] fails the function returns the empty token and no error. *)
Definition Create (r : refreshTokenRepo) (userID clientID : string)
    (generated : result bytes) (salt : bytes) (newID : ObjectId)
    : result string * refreshTokenRepo :=
  if String.eqb userID "" then (Err refresh_ErrorInvalidUserID, r)
  else if String.eqb clientID "" then (Err refresh_ErrorInvalidClientID, r)
  else
    match generated with
    | Err e => (Err e, r)
    | Ok tokenPayload =>
        match bcrypt_GenerateFromPassword salt tokenPayload bcrypt_DefaultCost with
        | Err e => (Err e, r)
        | Ok payloadHash =>
            let rtoken := {| ID := newID; PayloadHash := payloadHash;
                             UserID := userID; ClientID := clientID |} in
            match insert_one ID rtoken r with
            | (Some _, r') => (Ok "", r')
            | (None, r') => (Ok (buildToken newID tokenPayload), r')
            end
        end
    end.

Definition Verify (r : refreshTokenRepo) (clientID token : string) : result string :=
  match parseToken token with
  | Err e => Err e
  | Ok (tokenID, tokenPayload) =>
      match find_one (sel_id tokenID) r with
      | Err _ => Err refresh_ErrorInvalidToken
      | Ok record =>
          if negb (String.eqb (ClientID record) clientID)
          then Err refresh_ErrorInvalidClientID
          else
            match checkTokenPayload (PayloadHash record) tokenPayload with
            | Some e => Err e
            | None => Ok (UserID record)
            end
      end
  end.

Definition Revoke (r : refreshTokenRepo) (userID token : string)
    : option error * refreshTokenRepo :=
  match parseToken token with
  | Err e => (Some e, r)
  | Ok (tokenID, tokenPayload) =>
      match find_one (sel_id tokenID) r with
      | Err _ => (Some refresh_ErrorInvalidToken, r)
      | Ok record =>
          if negb (String.eqb (UserID record) userID)
          then (Some refresh_ErrorInvalidUserID, r)
          else
            match checkTokenPayload (PayloadHash record) tokenPayload with
            | Some e => (Some e, r)
            | None => remove_one (sel_id (ID record)) r
            end
      end
  end.

End WithPackages.

End MongoRefresh.

(** * Client identities ([Authenticate]) *)

(** [oidc.ClientCredentials]. *)
Module oidc.

Record ClientCredentials : Type := { ID : string; Secret : string }.

End oidc.

(** Blowfish, the algorithm underlying bcrypt, has a maximum password
    length of 72; both drivers check it themselves. *)
Definition maxSecretLength : nat := 72.

(** ** etcd: [db/etcd/client.go] *)

Module EtcdClient.

Definition ClientIdentityDirectory : string := "client_identity".

Record clientIdentityModel : Type := {
  ID : string;
  Secret : bytes;
  Metadata : string
}.

(** The nodes the repository keeps under its directory: below [identity]
    the JSON of an identity, below [admin] the flag of a client, and the
    directories above them.  An [identity_node] stands for every value
    that [json.Unmarshal] decodes, by the record it decodes to. *)
Inductive node : Type :=
| identity_node (cim : clientIdentityModel)
| admin_node (isAdmin : bool)
| dir_node.

Definition is_dir (n : node) : bool :=
  match n with
  | dir_node => true
  | _ => false
  end.

(** [resp.Node.Value] of an admin flag, as [SetDexAdmin] writes it. *)
Definition admin_Value (isAdmin : bool) : string := if isAdmin then "1" else "0".

(** [json.Unmarshal([]byte(resp.Node.Value), &c)] into a
    [clientIdentityModel]: the value of a flag is a JSON number, the value
    of a directory is empty. *)
Definition json_Unmarshal (n : node) : result clientIdentityModel :=
  match n with
  | identity_node cim => Ok cim
  | admin_node _ =>
      Err (json_Error
             "json: cannot unmarshal number into Go value of type etcd.clientIdentityModel")
  | dir_node => Err (json_Error "unexpected end of JSON input")
  end.

Definition clientIdentityRepo : Type := EtcdDriver node.

Definition key (r : clientIdentityRepo) (id : string) : string :=
  path_Join [directory r; ClientIdentityDirectory; "identity"; id].

Definition admin (r : clientIdentityRepo) (id : string) : string :=
  path_Join [directory r; ClientIdentityDirectory; "admin"; id].

Definition get (r : clientIdentityRepo) (fault : option error) (id : string)
    : result clientIdentityModel :=
  match request fault (kAPI_Get (kAPI r) (key r id)) with
  | Err (etcdclient_Error ErrorCodeKeyNotFound) => Err client_ErrorNotFound
  | Err e => Err e
  | Ok resp =>
      match Node resp with
      | None => Err client_ErrorNotFound
      | Some n => json_Unmarshal n
      end
  end.

(** [Create] is [Set] with [PrevExist: PrevNoExist]. *)
Definition insert (r : clientIdentityRepo) (cim : clientIdentityModel)
    : option error * clientIdentityRepo :=
  let '(e, ks) := kAPI_Set_in_tree is_dir dir_node (kAPI r) (key r (ID cim))
                    (identity_node cim) PrevNoExist in
  (e, with_kAPI r ks).

Definition SetDexAdmin (r : clientIdentityRepo) (clientID : string) (isAdmin : bool)
    : option error * clientIdentityRepo :=
  let '(e, ks) := kAPI_Set_in_tree is_dir dir_node (kAPI r) (admin r clientID)
                    (admin_node isAdmin) PrevIgnore in
  (e, with_kAPI r ks).

Section WithPackages.
Context {B : Bcrypt}.

Definition Authenticate (r : clientIdentityRepo) (fault : option error)
    (creds : oidc.ClientCredentials) : bool * option error :=
  match get r fault (oidc.ID creds) with
  | Err client_ErrorNotFound => (false, None)
  | Err e => (false, Some e)
  | Ok cim =>
      match base64_DecodeString (oidc.Secret creds) with
      | None => (false, None)
      | Some dec =>
          if (maxSecretLength <? length dec)%nat then (false, None)
          else
            (bool_decide (bcrypt_CompareHashAndPassword (Secret cim) dec = None), None)
      end
  end.

End WithPackages.

End EtcdClient.

(** ** MongoDB: [clientIdentityRepo] *)

Module MongoClient.

Record clientIdentityModel : Type := {
  ID : string;
  Secret : bytes;
  Metadata : string;
  DexAdmin : bool
}.

Definition clientIdentityRepo : Type := list clientIdentityModel.

Definition sel_id (id : string) (d : clientIdentityModel) : bool :=
  bool_decide (ID d = id).

Section WithPackages.
Context {B : Bcrypt}.

Definition Authenticate (r : clientIdentityRepo) (fault : option error)
    (creds : oidc.ClientCredentials) : bool * option error :=
  match request fault (find_one (sel_id (oidc.ID creds)) r) with
  | Err mgo_ErrNotFound => (false, None)
  | Err e => (false, Some e)
  | Ok cim =>
      match base64_DecodeString (oidc.Secret creds) with
      | None => (false, None)
      | Some dec =>
          if (maxSecretLength <? length dec)%nat then (false, None)
          else
            (bool_decide (bcrypt_CompareHashAndPassword (Secret cim) dec = None), None)
      end
  end.

End WithPackages.

End MongoClient.

(** * Private key sets ([NewPrivateKeySetRepo], [Set], [Get]) *)

(** [key.KeySet] is an interface: a value of it is a [*key.PrivateKeySet],
    which may be the nil pointer, or a value of some other type. *)
Inductive KeySet {K : KeyPkg} : Type :=
| KeySet_Private (pks : option key_PrivateKeySet)
| KeySet_Other.

(** The part of the two key files that is the same text in both. *)
Section KeyStore.
Context {K : KeyPkg} {P : Pcrypto}.

Definition newPrivateKeySetModel (pks : key_PrivateKeySet) : keymodel.privateKeySetModel :=
  {| keymodel.Keys :=
       map (fun pkey => {| keymodel.ID := fst pkey;
                           keymodel.PKCS1 := x509_MarshalPKCS1PrivateKey (snd pkey) |})
           (pks_Keys pks);
     keymodel.ExpiresAt := pks_ExpiresAt pks |}.

(** The method [PrivateKey()] of [privateKeyModel]. *)
Definition privateKeyModel_PrivateKey (m : keymodel.privateKeyModel)
    : result (string * rsa_PrivateKey) :=
  match x509_ParsePKCS1PrivateKey (keymodel.PKCS1 m) with
  | Err e => Err e
  | Ok d => Ok (keymodel.ID m, d)
  end.

Fixpoint parse_keys (ms : list keymodel.privateKeyModel)
    : result (list (string * rsa_PrivateKey)) :=
  match ms with
  | [] => Ok []
  | pkm :: rest =>
      match privateKeyModel_PrivateKey pkm with
      | Err e => Err e
      | Ok pk =>
          match parse_keys rest with
          | Err e => Err e
          | Ok pks => Ok (pk :: pks)
          end
      end
  end.

(** The method [PrivateKeySet()] of [privateKeySetModel]. *)
Definition privateKeySetModel_PrivateKeySet (m : keymodel.privateKeySetModel)
    : result key_PrivateKeySet :=
  match parse_keys (keymodel.Keys m) with
  | Err e => Err e
  | Ok keys => Ok (key_NewPrivateKeySet keys (keymodel.ExpiresAt m))
  end.

(** [r.active()], that is [r.secrets[0]]. *)
Definition active (secrets : list bytes) : result bytes :=
  match secrets with
  | s :: _ => Ok s
  | [] => Err (go_panic "index out of range")
  end.

(** The loop of [Get] over [r.secrets].  [pks] and [err] are the two
    variables of that name; the result is their value when the loop is
    left. *)
Fixpoint Get_loop (useOldFormat : bool) (value : bytes) (secrets : list bytes)
    (pks : option key_PrivateKeySet) (err : option error)
    : option key_PrivateKeySet * option error :=
  match secrets with
  | [] => (pks, err)
  | secret :: rest =>
      match (if useOldFormat then pcrypto_AESDecrypt value secret
             else pcrypto_Decrypt value secret) with
      | Err e => Get_loop useOldFormat value rest pks (Some e)
      | Ok j =>
          match json_Unmarshal_privateKeySetModel j with
          | Err e => Get_loop useOldFormat value rest pks (Some e)
          | Ok m =>
              match privateKeySetModel_PrivateKeySet m with
              | Err e => Get_loop useOldFormat value rest None (Some e)
              | Ok p => (Some p, None)
              end
          end
      end
  end.

(** The loop of the two constructors over the secrets, from index [i]. *)
Fixpoint check_secrets (i : nat) (secrets : list bytes) : option error :=
  match secrets with
  | [] => None
  | secret :: rest =>
      if negb (length secret =? 32)%nat
      then Some (errors_New ("key secret " +:+ pretty i +:+ ": expected 32-byte secret"))
      else check_secrets (S i) rest
  end.

End KeyStore.

(** ** etcd: [db/etcd/key.go] *)

Module EtcdKey.

Definition KeyFile : string := "key".

Record PrivateKeySetRepo : Type := {
  driver : EtcdDriver bytes;
  useOldFormat : bool;
  secrets : list bytes
}.

Definition with_driver (r : PrivateKeySetRepo) (ks : gmap string bytes) : PrivateKeySetRepo :=
  {| driver := with_kAPI (driver r) ks;
     useOldFormat := useOldFormat r;
     secrets := secrets r |}.

Definition NewPrivateKeySetRepo (d : EtcdDriver bytes) (useOldFormat : bool)
    (secrets : list bytes) : result PrivateKeySetRepo :=
  if (length secrets =? 0)%nat
  then Err (errors_New "must provide at least one key secret")
  else
    match check_secrets 0 secrets with
    | Some e => Err e
    | None => Ok {| driver := d; useOldFormat := useOldFormat; secrets := secrets |}
    end.

Definition path (r : PrivateKeySetRepo) : string :=
  path_Join [directory (driver r); KeyFile].

Section WithPackages.
Context {K : KeyPkg} {P : Pcrypto}.

(** [nonce] is the randomness the cipher draws. *)
Definition Set_ (r : PrivateKeySetRepo) (nonce : bytes) (ks : KeySet)
    : option error * PrivateKeySetRepo :=
  let r := with_driver r (snd (kAPI_Delete (kAPI (driver r)) (path r))) in
  match ks with
  | KeySet_Other => (Some (errors_New "unable to cast to PrivateKeySet"), r)
  | KeySet_Private None => (Some (go_panic "nil pointer dereference"), r)
  | KeySet_Private (Some pks) =>
      match json_Marshal_privateKeySetModel (newPrivateKeySetModel pks) with
      | Err e => (Some e, r)
      | Ok j =>
          match active (secrets r) with
          | Err e => (Some e, r)
          | Ok secret =>
              match (if useOldFormat r then pcrypto_AESEncrypt nonce j secret
                     else pcrypto_Encrypt nonce j secret) with
              | Err e => (Some e, r)
              | Ok v =>
                  let '(e, ks') := kAPI_Set (kAPI (driver r)) (path r) v PrevIgnore in
                  (e, with_driver r ks')
              end
          end
      end
  end.

Definition Get (r : PrivateKeySetRepo) : result KeySet :=
  match kAPI_Get (kAPI (driver r)) (path r) with
  | Err (etcdclient_Error ErrorCodeKeyNotFound) => Err key_ErrorNoKeys
  | Err e => Err e
  | Ok resp =>
      match Node resp with
      | None => Err key_ErrorNoKeys
      | Some value =>
          match Get_loop (useOldFormat r) value (secrets r) None None with
          | (_, Some _) => Err db_ErrorCannotDecryptKeys
          | (pks, None) => Ok (KeySet_Private pks)
          end
      end
  end.

End WithPackages.

End EtcdKey.

(** ** MongoDB: [mongoPrivateKeySetRepo] and the constructor of
    [db/mongodb/mongodb.go] *)

Module MongoKey.

Record privateKeySetBlob : Type := { Value : bytes }.

Record mongoPrivateKeySetRepo : Type := {
  driver : list privateKeySetBlob;
  useOldFormat : bool;
  secrets : list bytes
}.

Definition with_driver (r : mongoPrivateKeySetRepo) (c : list privateKeySetBlob)
    : mongoPrivateKeySetRepo :=
  {| driver := c; useOldFormat := useOldFormat r; secrets := secrets r |}.

(** The constructor leaves [useOldFormat] at its zero value. *)
Definition NewPrivateKeySetRepo (d : list privateKeySetBlob)
    (useOldFormatKeySecrets : bool) (secrets : list bytes)
    : result mongoPrivateKeySetRepo :=
  match check_secrets 0 secrets with
  | Some e => Err e
  | None => Ok {| driver := d; useOldFormat := false; secrets := secrets |}
  end.

Section WithPackages.
Context {K : KeyPkg} {P : Pcrypto}.

(** [nonce] is the randomness the cipher draws.  [DropCollection] empties
    the collection; the blob has no [_id] of its own, so [Insert]
    succeeds. *)
Definition Set_ (r : mongoPrivateKeySetRepo) (nonce : bytes) (ks : KeySet)
    : option error * mongoPrivateKeySetRepo :=
  let r := with_driver r [] in
  match ks with
  | KeySet_Other => (Some (errors_New "unable to cast to PrivateKeySet"), r)
  | KeySet_Private None => (Some (go_panic "nil pointer dereference"), r)
  | KeySet_Private (Some pks) =>
      match json_Marshal_privateKeySetModel (newPrivateKeySetModel pks) with
      | Err e => (Some e, r)
      | Ok j =>
          match active (secrets r) with
          | Err e => (Some e, r)
          | Ok secret =>
              match (if useOldFormat r then pcrypto_AESEncrypt nonce j secret
                     else pcrypto_Encrypt nonce j secret) with
              | Err e => (Some e, r)
              | Ok v => (None, with_driver r (driver r ++ [{| Value := v |}])%list)
              end
          end
      end
  end.

Definition Get (r : mongoPrivateKeySetRepo) : result KeySet :=
  match driver r with
  | [] => Err key_ErrorNoKeys
  | b :: _ =>
      match Get_loop (useOldFormat r) (Value b) (secrets r) None None with
      | (_, Some _) => Err db_ErrorCannotDecryptKeys
      | (pks, None) => Ok (KeySet_Private pks)
      end
  end.

End WithPackages.

End MongoKey.

(** * Users ([Create], [Update]) *)

(** Package [user]: the domain type. *)
Module user.

Record User : Type := {
  ID : string;
  DisplayName : string;
  Email : string;
  EmailVerified : bool;
  Admin : bool;
  Disabled : bool;
  CreatedAt : Time
}.

End user.

(** ** MongoDB: [db/mongodb/user.go] *)

Module MongoUser.

Record remoteIdentity : Type := {
  ConnectorID : string;
  RemoteID : string
}.

Record userModel : Type := {
  ID : string;
  Email : string;
  EmailVerified : bool;
  DisplayName : string;
  Disabled : bool;
  Admin : bool;
  CreatedAt : Time;
  RemoteIdentities : list remoteIdentity
}.

(** The method [user()] of [userModel]. *)
Definition userModel_user (u : userModel) : user.User :=
  {| user.ID := ID u;
     user.DisplayName := DisplayName u;
     user.Email := Email u;
     user.EmailVerified := EmailVerified u;
     user.Admin := Admin u;
     user.Disabled := Disabled u;
     user.CreatedAt :=
       if negb (Time_IsZero (CreatedAt u)) then Time_UTC (CreatedAt u) else zeroTime |}.

Definition newUserModel (u : user.User) : userModel :=
  {| ID := user.ID u;
     DisplayName := user.DisplayName u;
     Email := user.Email u;
     EmailVerified := user.EmailVerified u;
     Admin := user.Admin u;
     Disabled := user.Disabled u;
     CreatedAt :=
       if negb (Time_IsZero (user.CreatedAt u)) then user.CreatedAt u else zeroTime;
     RemoteIdentities := [] |}.

(** The document a model becomes in the collection: BSON keeps the time to
    the millisecond. *)
Definition marshal (um : userModel) : userModel :=
  {| ID := ID um; Email := Email um; EmailVerified := EmailVerified um;
     DisplayName := DisplayName um; Disabled := Disabled um; Admin := Admin um;
     CreatedAt := bson_Time (CreatedAt um);
     RemoteIdentities := RemoteIdentities um |}.

(** The [User] collection; its documents are those that [Create] and
    [Update] write, with every field of the model present. *)
Definition userRepo : Type := list userModel.

(** The selector of [FindId(id)] and [UpdateId(id, _)]. *)
Definition sel_id (id : string) (d : userModel) : bool :=
  bool_decide (ID d = id).

(** [bson.M{"email": email}]. *)
Definition sel_email (email : string) (d : userModel) : bool :=
  bool_decide (Email d = email).

Definition Get (m : userRepo) (userID : string) : result user.User :=
  match find_one (sel_id userID) m with
  | Err mgo_ErrNotFound => Err user_ErrorNotFound
  | Err e => Err e
  | Ok um => Ok (userModel_user um)
  end.

Definition GetByEmail (m : userRepo) (email : string) : result user.User :=
  match find_one (sel_email email) m with
  | Err mgo_ErrNotFound => Err user_ErrorNotFound
  | Err e => Err e
  | Ok usr => Ok (userModel_user usr)
  end.

Section WithPackages.
Context {U : UserPkg}.

Definition Create (m : userRepo) (usr : user.User) : option error * userRepo :=
  if String.eqb (user.ID usr) "" then (Some user_ErrorInvalidID, m)
  else
    match find_one (sel_id (user.ID usr)) m with
    | Ok _ => (Some user_ErrorDuplicateID, m)
    | Err mgo_ErrNotFound =>
        if negb (user_ValidEmail (user.Email usr)) then (Some user_ErrorInvalidEmail, m)
        else
          match GetByEmail m (user.Email usr) with
          | Ok _ => (Some user_ErrorDuplicateEmail, m)
          | Err user_ErrorNotFound => insert_one ID (marshal (newUserModel usr)) m
          | Err e => (Some e, m)
          end
    | Err e => (Some e, m)
    end.

Definition Update (m : userRepo) (usr : user.User) : option error * userRepo :=
  if String.eqb (user.ID usr) "" then (Some user_ErrorInvalidID, m)
  else if negb (user_ValidEmail (user.Email usr)) then (Some user_ErrorInvalidEmail, m)
  else
    match find_one (sel_id (user.ID usr)) m with
    | Err mgo_ErrNotFound => (Some user_ErrorNotFound, m)
    | Err e => (Some e, m)
    | Ok usrOther =>
        match find_one (sel_email (user.Email usr)) m with
        | Err mgo_ErrNotFound =>
            update_one (sel_id (user.ID usr)) (fun _ => marshal (newUserModel usr)) m
        | Err e => (Some e, m)
        | Ok usrOther2 =>
            if negb (String.eqb (ID usrOther2) (user.ID usr))
            then (Some user_ErrorDuplicateEmail, m)
            else update_one (sel_id (user.ID usr)) (fun _ => marshal (newUserModel usr)) m
        end
    end.

End WithPackages.

End MongoUser.

(** * Concurrent callers of [Pop]

    A call of [Pop] performs two backend operations, the read and the
    write; between them other callers may run.  A schedule names, step by
    step, the caller whose next operation the backend serves. *)

Section Schedule.
Context {R C : Type} (step : R -> C -> C * R).

Fixpoint run (sched : list nat) (r : R) (calls : list C) : list C * R :=
  match sched with
  | [] => (calls, r)
  | i :: rest =>
      match calls !! i with
      | None => run rest r calls
      | Some c => let '(c', r') := step r c in run rest r' (<[i := c']> calls)
      end
  end.

End Schedule.

(** The progress of one call of [Pop]; [M] is the model type of the
    driver. *)
Inductive pop_call (M : Type) : Type :=
| Called (now : Time) (k : string)
| HasRead (k : string) (skm : M)
| Returned (res : result string).
Arguments Called {M} now k.
Arguments HasRead {M} k skm.
Arguments Returned {M} res.

Definition succeeded {M} (c : pop_call M) : bool :=
  match c with Returned (Ok _) => true | _ => false end.

Definition etcd_pop_step (r : EtcdSessionKey.sessionKeyRepo)
    (c : pop_call EtcdSessionKey.sessionKeyModel)
    : pop_call EtcdSessionKey.sessionKeyModel * EtcdSessionKey.sessionKeyRepo :=
  match c with
  | Called now k =>
      match EtcdSessionKey.Pop_read r now k with
      | Err e => (Returned (Err e), r)
      | Ok skm => (HasRead k skm, r)
      end
  | HasRead _ skm =>
      let '(res, r') := EtcdSessionKey.Pop_write r skm in (Returned res, r')
  | Returned res => (Returned res, r)
  end.

Definition mongo_pop_step (r : MongoSessionKey.sessionKeyRepo)
    (c : pop_call MongoSessionKey.sessionKeyModel)
    : pop_call MongoSessionKey.sessionKeyModel * MongoSessionKey.sessionKeyRepo :=
  match c with
  | Called now k =>
      match MongoSessionKey.Pop_read r now k with
      | Err e => (Returned (Err e), r)
      | Ok skm => (HasRead k skm, r)
      end
  | HasRead k skm =>
      let '(res, r') := MongoSessionKey.Pop_write r k skm in (Returned res, r')
  | Returned res => (Returned res, r)
  end.

(** The documents of a session-key collection that [Pop] can still
    consume for the key [k]. *)
Definition fresh_count (k : string) (r : MongoSessionKey.sessionKeyRepo) : nat :=
  length (List.filter (MongoSessionKey.sel_fresh_key k) r).

Definition successes {M} (calls : list (pop_call M)) : nat :=
  length (List.filter succeeded calls).

(** What one call adds to the count of successes. *)
Definition won {M} (c : pop_call M) : nat := if succeeded c then 1%nat else 0%nat.

(** The calls are calls of [Pop] on the key [k]. *)
Definition call_on {M} (k : string) (c : pop_call M) : Prop :=
  match c with
  | Called _ k' => k' = k
  | HasRead k' _ => k' = k
  | Returned _ => True
  end.

(** * What the specification says, in its own words *)

(** "attempts decryption under each configured secret in order, returning
    the first success": one attempt, and the first success of a list. *)
Section FirstSuccess.
Context {K : KeyPkg} {P : Pcrypto}.

Definition attempt (useOldFormat : bool) (value secret : bytes) : result key_PrivateKeySet :=
  match (if useOldFormat then pcrypto_AESDecrypt value secret
         else pcrypto_Decrypt value secret) with
  | Err e => Err e
  | Ok j =>
      match json_Unmarshal_privateKeySetModel j with
      | Err e => Err e
      | Ok m => privateKeySetModel_PrivateKeySet m
      end
  end.

Fixpoint first_success (useOldFormat : bool) (value : bytes) (secrets : list bytes)
    : option key_PrivateKeySet :=
  match secrets with
  | [] => None
  | secret :: rest =>
      match attempt useOldFormat value secret with
      | Ok p => Some p
      | Err _ => first_success useOldFormat value rest
      end
  end.

End FirstSuccess.

(** What the key store relies on from its packages.  [seal] is the
    encryption [Set] performs, in the format of the repository. *)
Section KeyStoreAssumptions.
Context {K : KeyPkg} {P : Pcrypto}.

Definition seal (useOldFormat : bool) (nonce j secret : bytes) : result bytes :=
  if useOldFormat then pcrypto_AESEncrypt nonce j secret
  else pcrypto_Encrypt nonce j secret.

(** Decryption under the secret of encryption gives the plaintext back. *)
Definition cipher_sound : Prop :=
  forall useOldFormat nonce j secret v,
    seal useOldFormat nonce j secret = Ok v ->
    (if useOldFormat then pcrypto_AESDecrypt v secret else pcrypto_Decrypt v secret) = Ok j.

(** Under another 32-byte secret the attempt on the blob fails. *)
Definition cipher_authentic : Prop :=
  forall useOldFormat nonce j secret secret' v,
    length secret = 32%nat -> length secret' = 32%nat -> secret' <> secret ->
    seal useOldFormat nonce j secret = Ok v ->
    exists e, attempt useOldFormat v secret' = Err e.

(** The key set is one that its persisted form gives back. *)
Definition survives_serialization (pks : key_PrivateKeySet) : Prop :=
  forall j,
    json_Marshal_privateKeySetModel (newPrivateKeySetModel pks) = Ok j ->
    exists m, json_Unmarshal_privateKeySetModel j = Ok m /\
              privateKeySetModel_PrivateKeySet m = Ok pks.

End KeyStoreAssumptions.

(** What the token store relies on from bcrypt: a hash matches the password
    it was made from, and no other password of at most 72 bytes. *)
Section BcryptAssumptions.
Context {B : Bcrypt}.

Definition bcrypt_sound : Prop :=
  forall salt password cost hash,
    bcrypt_GenerateFromPassword salt password cost = Ok hash ->
    bcrypt_CompareHashAndPassword hash password = None.

Definition bcrypt_binding : Prop :=
  forall salt password cost hash password',
    bcrypt_GenerateFromPassword salt password cost = Ok hash ->
    (length password <= 72)%nat -> (length password' <= 72)%nat ->
    password' <> password ->
    bcrypt_CompareHashAndPassword hash password' = Some ErrMismatchedHashAndPassword.

End BcryptAssumptions.

(** A secret [Authenticate] cannot use: it does not decode from base64url,
    or it decodes to more than 72 bytes. *)
Definition unusable_secret (creds : oidc.ClientCredentials) : Prop :=
  base64_DecodeString (oidc.Secret creds) = None \/
  exists dec, base64_DecodeString (oidc.Secret creds) = Some dec /\
              (maxSecretLength < length dec)%nat.

(** A token ID in which the delimiter, one character, does not occur. *)
Definition delimiter_free {TF : TokenFormat} (id : string) : Prop :=
  exists d, refresh_TokenDelimer = String d EmptyString /\
            ~ In d (list_ascii_of_string id).

(** A payload part that does not stand for the payload: it does not
    decode, or it decodes to other bytes, 72 at most. *)
Definition foreign_payload (payload : bytes) (enc : string) : Prop :=
  match base64_DecodeString enc with
  | None => True
  | Some payload' => payload' <> payload /\ (length payload' <= 72)%nat
  end.

(** What the session store relies on for a session to be read back as it
    was written: its URL and identity come back from their text, and its
    times are ones the backend keeps (etcd keeps whole seconds and takes
    the second 0 for "no time"; BSON keeps milliseconds). *)
Section SessionAssumptions.
Context {SC : SessionCodec}.

Definition survives_text (s : session.Session) : Prop :=
  url_Parse (url_String (session.RedirectURL s)) = Ok (session.RedirectURL s) /\
  (forall b, json_Marshal_Identity (session.Identity s) = Ok b ->
             json_Unmarshal_Identity b = Ok (session.Identity s)) /\
  (Time_IsZero (Identity_ExpiresAt (session.Identity s)) = true ->
   Identity_with_ExpiresAt (session.Identity s) zeroTime = session.Identity s).

Definition whole_seconds (t : Time) : Prop :=
  t = zeroTime \/ (t mod Second = 0 /\ t / Second <> 0).

Definition whole_milliseconds (t : Time) : Prop := t mod Millisecond = 0.

End SessionAssumptions.

(** The uniqueness the user store is to preserve: no two documents share an
    ID, no two share an email. *)
Definition unique_ids (m : MongoUser.userRepo) : Prop :=
  NoDup (map MongoUser.ID m).

Definition unique_emails (m : MongoUser.userRepo) : Prop :=
  NoDup (map MongoUser.Email m).

(** * Sample data

    Concrete repositories and inputs, on which the examples run. *)

Definition etcd_empty {V : Type} : EtcdDriver V := {| directory := "/dex"; kAPI := ∅ |}.

Definition sample_key : session.SessionKey :=
  {| session.Key := "k1"; session.SessionID := "s1" |}.

(** A clock reading, and a time to live of one minute. *)
Definition t0 : Time := 1000 * Second.
Definition one_minute : Duration := 60 * Second.

Definition etcd_pushed : EtcdSessionKey.sessionKeyRepo :=
  snd (EtcdSessionKey.Push etcd_empty t0 sample_key one_minute).

Definition mongo_pushed : MongoSessionKey.sessionKeyRepo :=
  snd (MongoSessionKey.Push [] t0 sample_key one_minute).

(** A stand-in for [net/url] and for [encoding/json] on identities:
    URLs and identities are kept as their text, and an identity has no
    expiry of its own. *)
Definition text_codec : SessionCodec := {|
  url_URL := string;
  url_Parse := Ok;
  url_String := fun u => u;
  oidc_Identity := string;
  Identity_ExpiresAt := fun _ => zeroTime;
  Identity_with_ExpiresAt := fun i _ => i;
  json_Marshal_Identity := Ok;
  json_Unmarshal_Identity := Ok
|}.

(** A session that expires one minute after [t0], and the same session
    after the login has moved on. *)
Definition sample_session : @session.Session text_codec :=
  @session.Build_Session text_codec
    "sess1" "NEW" t0 (t0 + one_minute) "client1" "xyz"
    "http://client.example.com/callback" "{}" "" "" false "n1" ["openid"].

Definition sample_session_identified : @session.Session text_codec :=
  @session.Build_Session text_codec
    "sess1" "IDENTIFIED" t0 (t0 + one_minute) "client1" "xyz"
    "http://client.example.com/callback" "{}" "local" "u1" false "n1" ["openid"].

Definition etcd_created : EtcdSession.sessionRepo :=
  snd (@EtcdSession.Create text_codec etcd_empty sample_session).

Definition mongo_created : MongoSession.sessionRepo :=
  snd (@MongoSession.Create text_codec [] sample_session).

(** What the two drivers store for [sample_session]. *)
Definition etcd_sample_model : EtcdSession.sessionModel :=
  {| EtcdSession.ID := "sess1";
     EtcdSession.State := "NEW";
     EtcdSession.CreatedAt := 1000;
     EtcdSession.ExpiresAt := 1060;
     EtcdSession.ClientID := "client1";
     EtcdSession.ClientState := "xyz";
     EtcdSession.RedirectURL := "http://client.example.com/callback";
     EtcdSession.Identity := "{}";
     EtcdSession.ConnectorID := "";
     EtcdSession.UserID := "";
     EtcdSession.Register := false;
     EtcdSession.Nonce := "n1";
     EtcdSession.Scope := ["openid"] |}.

Definition mongo_sample_model : MongoSession.sessionModel :=
  {| MongoSession.ID := "sess1";
     MongoSession.State := "NEW";
     MongoSession.CreatedAt := t0;
     MongoSession.ExpiresAt := t0 + one_minute;
     MongoSession.ClientID := "client1";
     MongoSession.ClientState := "xyz";
     MongoSession.RedirectURL := "http://client.example.com/callback";
     MongoSession.Identity := "{}";
     MongoSession.ConnectorID := "";
     MongoSession.UserID := "";
     MongoSession.Register := false;
     MongoSession.Nonce := "n1";
     MongoSession.Scope := ["openid"] |}.

(** A stand-in for bcrypt that shares its one property the drivers guard
    against: only the first 72 bytes of a password count.  The hash is
    those bytes; salt and cost are ignored. *)
Definition clear_bcrypt : Bcrypt := {|
  bcrypt_GenerateFromPassword := fun _ password _ => Ok (take 72 password);
  bcrypt_CompareHashAndPassword := fun hash password =>
    if bool_decide (hash = take 72 password) then None
    else Some ErrMismatchedHashAndPassword
|}.

(** A client secret of 72 bytes, and the same secret with one byte more. *)
Definition sample_secret : bytes := repeat "a"%byte 72.
Definition long_secret : bytes := sample_secret ++ ["b"%byte].

Definition sample_creds : oidc.ClientCredentials :=
  {| oidc.ID := "client1"; oidc.Secret := base64_EncodeToString sample_secret |}.

Definition long_creds : oidc.ClientCredentials :=
  {| oidc.ID := "client1"; oidc.Secret := base64_EncodeToString long_secret |}.

Definition sample_identity : EtcdClient.clientIdentityModel :=
  {| EtcdClient.ID := "client1";
     EtcdClient.Secret := take 72 sample_secret;
     EtcdClient.Metadata := "{}" |}.

Definition etcd_clients : EtcdClient.clientIdentityRepo :=
  snd (EtcdClient.insert etcd_empty sample_identity).

Definition sample_document : MongoClient.clientIdentityModel :=
  {| MongoClient.ID := "client1";
     MongoClient.Secret := take 72 sample_secret;
     MongoClient.Metadata := "{}";
     MongoClient.DexAdmin := false |}.

Definition mongo_clients : MongoClient.clientIdentityRepo := [sample_document].

(** A keyspace in which [client1] has been made an admin, and credentials
    whose ID leads to that flag, and to the directory of the identities. *)
Definition etcd_admins : EtcdClient.clientIdentityRepo :=
  snd (EtcdClient.SetDexAdmin etcd_empty "client1" true).

Definition admin_path_creds : oidc.ClientCredentials :=
  {| oidc.ID := "../admin/client1"; oidc.Secret := base64_EncodeToString long_secret |}.

Definition dir_path_creds : oidc.ClientCredentials :=
  {| oidc.ID := ""; oidc.Secret := base64_EncodeToString long_secret |}.

(** What a query returns when the MongoDB servers are not reached. *)
Definition no_reachable_servers : error := errors_New "no reachable servers".

(** A stand-in for [user.ValidEmail]: an address has an at sign. *)
Definition at_sign_email : UserPkg := {|
  user_ValidEmail := fun email => existsb (Ascii.eqb "@"%char) (list_ascii_of_string email)
|}.

Definition alice : user.User :=
  {| user.ID := "u1"; user.DisplayName := "Alice"; user.Email := "alice@example.com";
     user.EmailVerified := true; user.Admin := false; user.Disabled := false;
     user.CreatedAt := t0 |}.

(** A second account that claims the address of the first. *)
Definition mallory : user.User :=
  {| user.ID := "u2"; user.DisplayName := "Mallory"; user.Email := "alice@example.com";
     user.EmailVerified := false; user.Admin := false; user.Disabled := false;
     user.CreatedAt := t0 |}.

Definition bob : user.User :=
  {| user.ID := "u3"; user.DisplayName := "Bob"; user.Email := "bob@example.com";
     user.EmailVerified := false; user.Admin := false; user.Disabled := false;
     user.CreatedAt := t0 |}.

Definition mongo_users : MongoUser.userRepo :=
  snd (@MongoUser.Create at_sign_email
         (snd (@MongoUser.Create at_sign_email [] alice)) bob).

(** A stand-in for the cipher of [pkg/crypto]: the ciphertext is the
    plaintext behind the secret, and opens under that secret only. *)
Definition envelope_open (ciphertext secret : bytes) : result bytes :=
  if bool_decide (take (length secret) ciphertext = secret)
  then Ok (drop (length secret) ciphertext)
  else Err (errors_New "cipher: message authentication failed").

Definition envelope_cipher : Pcrypto := {|
  pcrypto_Encrypt := fun _ plaintext secret => Ok (secret ++ plaintext);
  pcrypto_Decrypt := envelope_open;
  pcrypto_AESEncrypt := fun _ plaintext secret => Ok (secret ++ plaintext);
  pcrypto_AESDecrypt := envelope_open
|}.

(** A stand-in for [encoding/json] on the persisted key set: twelve bytes
    of expiry, then each key as two length-prefixed fields. *)
Definition frame (b : bytes) : bytes := byte_of_N (N.of_nat (length b)) :: b.

Definition unframe (b : bytes) : option (bytes * bytes) :=
  match b with
  | [] => None
  | n :: rest =>
      let k := N.to_nat (Byte.to_N n) in
      if (k <=? length rest)%nat then Some (take k rest, drop k rest) else None
  end.

Definition time_bytes (t : Time) : bytes :=
  map (fun i => byte_of_N (Z.to_N (t - zeroTime) / 256 ^ N.of_nat i)) (seq 0 12).

Definition bytes_time (b : bytes) : Time :=
  zeroTime + Z.of_N (fold_right (fun x acc => Byte.to_N x + 256 * acc)%N 0%N b).

Definition framed_Marshal (m : keymodel.privateKeySetModel) : result bytes :=
  if forallb (fun k => (String.length (keymodel.ID k) <? 256)%nat
                       && (length (keymodel.PKCS1 k) <? 256)%nat) (keymodel.Keys m)
     && (zeroTime <=? keymodel.ExpiresAt m)
     && (keymodel.ExpiresAt m - zeroTime <? 256 ^ 12)
  then Ok (time_bytes (keymodel.ExpiresAt m)
           ++ concat (map (fun k => frame (list_byte_of_string (keymodel.ID k))
                                    ++ frame (keymodel.PKCS1 k)) (keymodel.Keys m)))
  else Err (errors_New "json: unsupported value").

Fixpoint unframe_keys (fuel : nat) (b : bytes) : option (list keymodel.privateKeyModel) :=
  match b, fuel with
  | [], _ => Some []
  | _ :: _, O => None
  | _ :: _, S fuel' =>
      match unframe b with
      | None => None
      | Some (id, rest) =>
          match unframe rest with
          | None => None
          | Some (pk, rest') =>
              match unframe_keys fuel' rest' with
              | None => None
              | Some ks =>
                  Some ({| keymodel.ID := string_of_list_byte id;
                           keymodel.PKCS1 := pk |} :: ks)
              end
          end
      end
  end.

Definition framed_Unmarshal (b : bytes) : result keymodel.privateKeySetModel :=
  if (length b <? 12)%nat then Err (errors_New "unexpected end of JSON input")
  else
    match unframe_keys (length b) (drop 12 b) with
    | None => Err (errors_New "invalid character")
    | Some ks => Ok {| keymodel.Keys := ks; keymodel.ExpiresAt := bytes_time (take 12 b) |}
    end.

(** A stand-in for the key packages: an RSA key is kept as its PKCS1
    bytes, a key set as its keys and its expiry. *)
Definition framed_keys : KeyPkg := {|
  rsa_PrivateKey := bytes;
  key_PrivateKeySet := list (string * bytes) * Time;
  pks_Keys := fst;
  pks_ExpiresAt := snd;
  key_NewPrivateKeySet := pair;
  x509_MarshalPKCS1PrivateKey := fun d => d;
  x509_ParsePKCS1PrivateKey := Ok;
  json_Marshal_privateKeySetModel := framed_Marshal;
  json_Unmarshal_privateKeySetModel := framed_Unmarshal
|}.

(** Three secrets of 32 bytes, a key set of two keys that expires in an
    hour, and a nonce. *)
Definition secret_A : bytes := repeat "A"%byte 32.
Definition secret_B : bytes := repeat "B"%byte 32.
Definition secret_C : bytes := repeat "C"%byte 32.

Definition sample_pks : @key_PrivateKeySet framed_keys :=
  ([("key1", list_byte_of_string "pkcs1-of-key1");
    ("key2", list_byte_of_string "pkcs1-of-key2")], t0 + 60 * one_minute).

Definition sample_nonce : bytes := repeat "n"%byte 12.

Definition etcd_keys_A : EtcdKey.PrivateKeySetRepo :=
  {| EtcdKey.driver := etcd_empty; EtcdKey.useOldFormat := false;
     EtcdKey.secrets := [secret_A] |}.

Definition mongo_keys_A : MongoKey.mongoPrivateKeySetRepo :=
  {| MongoKey.driver := []; MongoKey.useOldFormat := false;
     MongoKey.secrets := [secret_A] |}.

Definition etcd_keys_set : EtcdKey.PrivateKeySetRepo :=
  snd (@EtcdKey.Set_ framed_keys envelope_cipher etcd_keys_A sample_nonce
         (KeySet_Private (Some sample_pks))).

Definition mongo_keys_set : MongoKey.mongoPrivateKeySetRepo :=
  snd (@MongoKey.Set_ framed_keys envelope_cipher mongo_keys_A sample_nonce
         (KeySet_Private (Some sample_pks))).

(** A stand-in for the token format: the delimiter is a slash, and an
    object ID is kept as its 24 hexadecimal digits. *)
Definition is_hex_digit (c : ascii) : bool :=
  let n := N_of_ascii c in
  ((48 <=? n) && (n <=? 57) || (97 <=? n) && (n <=? 102) || (65 <=? n) && (n <=? 70))%N.

Definition hex_tokens : TokenFormat := {|
  refresh_TokenDelimer := "/";
  ObjectId := string;
  ObjectId_Hex := fun id => id;
  bson_IsObjectIdHex := fun s =>
    (String.length s =? 24)%nat && forallb is_hex_digit (list_ascii_of_string s);
  bson_ObjectIdHex := fun s => s
|}.

(** A token payload, a salt, and an object ID; a collection that already
    holds a token of that ID, and the same on etcd. *)
Definition sample_payload : bytes := list_byte_of_string "0123456789abcdef".
Definition sample_salt : bytes := list_byte_of_string "salt".
Definition sample_token_id : string := "56a1f3d2e4b0c9a8d7e6f5a4".

Definition mongo_tokens : @MongoRefresh.refreshTokenRepo hex_tokens :=
  snd (@MongoRefresh.Create clear_bcrypt hex_tokens [] "u0" "client0"
         (Ok (list_byte_of_string "fedcba9876543210")) sample_salt sample_token_id).

Definition etcd_tokens : EtcdRefresh.refreshTokenRepo :=
  snd (@EtcdRefresh.Create clear_bcrypt hex_tokens etcd_empty "u0" "client0"
         (Ok (list_byte_of_string "fedcba9876543210")) sample_salt sample_token_id).

(** * Part II: lemmas *)

(** ** Collections *)

Section CollectionFacts.
Context {D : Type}.
Implicit Types (sel : D -> bool) (c : list D).

Lemma find_one_Ok sel c d :
  find_one sel c = Ok d -> sel d = true /\ In d c.
Proof.
  induction c as [|x c IH]; simpl; [discriminate|].
  destruct (sel x) eqn:Hx.
  - intros [= <-]. auto.
  - intros H. destruct (IH H). auto.
Qed.

Lemma find_one_Err sel c e :
  find_one sel c = Err e -> e = mgo_ErrNotFound /\ forall d, In d c -> sel d = false.
Proof.
  induction c as [|x c IH]; simpl.
  - intros [= <-]. split; [reflexivity | contradiction].
  - destruct (sel x) eqn:Hx; [discriminate|].
    intros H. destruct (IH H) as [-> Hall]. split; [reflexivity|].
    intros d [<- | Hd]; auto.
Qed.

Lemma find_one_none sel c :
  (forall d, In d c -> sel d = false) -> find_one sel c = Err mgo_ErrNotFound.
Proof.
  induction c as [|x c IH]; simpl; intros H; [reflexivity|].
  rewrite (H x) by auto. apply IH. auto.
Qed.

Lemma find_one_app_miss sel c d :
  find_one sel c = Err mgo_ErrNotFound ->
  find_one sel (c ++ [d]) = (if sel d then Ok d else Err mgo_ErrNotFound).
Proof.
  induction c as [|x c IH]; simpl; [reflexivity|].
  destruct (sel x); [discriminate | exact IH].
Qed.

Lemma find_one_app_hit sel c c' d :
  find_one sel c = Ok d -> find_one sel (c ++ c') = Ok d.
Proof.
  induction c as [|x c IH]; simpl; [discriminate|].
  destruct (sel x); auto.
Qed.

Lemma update_one_app_miss sel doc c d :
  find_one sel c = Err mgo_ErrNotFound ->
  update_one sel doc (c ++ [d])
  = (if sel d then (None, c ++ [doc d]) else (Some mgo_ErrNotFound, c ++ [d])).
Proof.
  induction c as [|x c IH]; simpl.
  - intros _. destruct (sel d); reflexivity.
  - destruct (sel x); [discriminate|]. intros H. rewrite (IH H).
    destruct (sel d); reflexivity.
Qed.

Lemma update_one_miss sel doc c :
  find_one sel c = Err mgo_ErrNotFound -> update_one sel doc c = (Some mgo_ErrNotFound, c).
Proof.
  induction c as [|x c IH]; simpl; [reflexivity|].
  destruct (sel x); [discriminate|]. intros H. rewrite (IH H). reflexivity.
Qed.

Lemma update_one_hit sel doc c d :
  find_one sel c = Ok d -> exists c', update_one sel doc c = (None, c').
Proof.
  induction c as [|x c IH]; simpl; [discriminate|].
  destruct (sel x).
  - intros _. eauto.
  - intros H. destruct (IH H) as [c' ->]. eauto.
Qed.

End CollectionFacts.

(** ** Durations in seconds *)

(** [int64(d.Seconds())] on whole seconds, on a fraction of either sign,
    and on 2^24 seconds and 999999999 nanoseconds, where the sum of the
    two floats is rounded to the next second. *)
Lemma Duration_Seconds_examples :
  Duration_Seconds one_minute = 60 /\
  Duration_Seconds (1500 * Millisecond) = 1 /\
  Duration_Seconds (- 1500 * Millisecond) = - 1 /\
  Duration_Seconds (2 ^ 24 * Second + 999999999) = 2 ^ 24 + 1 /\
  Z.quot (2 ^ 24 * Second + 999999999) Second = 2 ^ 24.
Proof. repeat split; vm_compute; reflexivity. Qed.

(** ** Session keys on etcd *)

Lemma etcd_with_kAPI_key (r : EtcdSessionKey.sessionKeyRepo) ks k :
  EtcdSessionKey.key (with_kAPI r ks) k = EtcdSessionKey.key r k.
Proof. reflexivity. Qed.

(** What the step of the server leaves: the nodes that had not expired. *)
Lemma etcd_expire_lookup (r : EtcdSessionKey.sessionKeyRepo) t p n :
  kAPI (EtcdSessionKey.expire t r) !! p = Some n <->
  kAPI r !! p = Some n /\ EtcdSessionKey.alive t n = true.
Proof.
  unfold EtcdSessionKey.expire. cbn [kAPI with_kAPI].
  rewrite map_lookup_filter_Some. reflexivity.
Qed.

Lemma etcd_expire_lookup_gone (r : EtcdSessionKey.sessionKeyRepo) t p n :
  kAPI r !! p = Some n -> EtcdSessionKey.alive t n = false ->
  kAPI (EtcdSessionKey.expire t r) !! p = None.
Proof.
  intros Hp Hdead.
  destruct (kAPI (EtcdSessionKey.expire t r) !! p) as [n'|] eqn:Hn'; [|reflexivity].
  apply etcd_expire_lookup in Hn'. destruct Hn' as [Hp' Halive]. congruence.
Qed.

Lemma ttl_Expiration_alive now exp t v :
  (forall e, ttl_Expiration now exp = Some e -> t < e) ->
  EtcdSessionKey.alive t
    {| EtcdSessionKey.Value := v; EtcdSessionKey.Expiration := ttl_Expiration now exp |} = true.
Proof.
  intros H. unfold EtcdSessionKey.alive. cbn [EtcdSessionKey.Expiration].
  destruct (ttl_Expiration now exp) as [e|]; [|reflexivity].
  apply Z.ltb_lt. apply H. reflexivity.
Qed.

(** A node that has not expired carries an expiry that has not passed:
    the TTL of [Push] runs out no later than the second [ExpiresAt]. *)
Lemma ttl_Expiration_Unix now exp e now1 :
  ttl_Expiration now exp = Some e -> now1 < e ->
  Time_Unix now1 <= Time_Unix now + Duration_Seconds exp.
Proof.
  unfold ttl_Expiration. destruct (0 <? exp); [|discriminate].
  intros [= <-] Hlt. unfold Time_Unix.
  rewrite <- (Z.div_add now (Duration_Seconds exp) Second) by (unfold Second; lia).
  apply Z.div_le_mono; [unfold Second; lia | lia].
Qed.

Lemma etcd_Pop_absent (r : EtcdSessionKey.sessionKeyRepo) now k :
  kAPI r !! EtcdSessionKey.key r k = None ->
  EtcdSessionKey.Pop r now k = (Err (etcdclient_Error ErrorCodeKeyNotFound), r).
Proof.
  intros H. unfold EtcdSessionKey.Pop, EtcdSessionKey.Pop_read, EtcdSessionKey.get, kAPI_Get.
  rewrite H. reflexivity.
Qed.

Lemma etcd_Pop_rejects (r : EtcdSessionKey.sessionKeyRepo) now k n :
  kAPI r !! EtcdSessionKey.key r k = Some n ->
  EtcdSessionKey.Stale (EtcdSessionKey.Value n) = true \/
  EtcdSessionKey.ExpiresAt (EtcdSessionKey.Value n) < Time_Unix now ->
  EtcdSessionKey.Pop r now k = (Err InvalidSessionKey, r).
Proof.
  intros H Hbad. unfold EtcdSessionKey.Pop, EtcdSessionKey.Pop_read, EtcdSessionKey.get, kAPI_Get.
  rewrite H. cbn [Node].
  replace (EtcdSessionKey.Stale (EtcdSessionKey.Value n)
           || (EtcdSessionKey.ExpiresAt (EtcdSessionKey.Value n) <? Time_Unix now)) with true;
    [reflexivity|].
  symmetry. apply orb_true_iff. destruct Hbad as [-> | Hlt]; [auto|].
  right. apply Z.ltb_lt. exact Hlt.
Qed.

Lemma etcd_Push_stores (r r1 : EtcdSessionKey.sessionKeyRepo) now sk exp :
  EtcdSessionKey.Push r now sk exp = (None, r1) ->
  kAPI r !! EtcdSessionKey.key r (session.Key sk) = None /\
  r1 = with_kAPI r
         (<[EtcdSessionKey.key r (session.Key sk) :=
              {| EtcdSessionKey.Value :=
                   {| EtcdSessionKey.Key := session.Key sk;
                      EtcdSessionKey.SessionID := session.SessionID sk;
                      EtcdSessionKey.ExpiresAt :=
                        wrap64 (Time_Unix now + Duration_Seconds exp);
                      EtcdSessionKey.Stale := false |};
                 EtcdSessionKey.Expiration := ttl_Expiration now exp |}]> (kAPI r)).
Proof.
  unfold EtcdSessionKey.Push, kAPI_Set. cbn [EtcdSessionKey.Key].
  destruct (kAPI r !! EtcdSessionKey.key r (session.Key sk)) eqn:Hk.
  - intros [= ].
  - intros [= <-]. auto.
Qed.

Lemma etcd_Pop_fresh (r : EtcdSessionKey.sessionKeyRepo) now k sid e x :
  kAPI r !! EtcdSessionKey.key r k
    = Some {| EtcdSessionKey.Value :=
                {| EtcdSessionKey.Key := k; EtcdSessionKey.SessionID := sid;
                   EtcdSessionKey.ExpiresAt := e; EtcdSessionKey.Stale := false |};
              EtcdSessionKey.Expiration := x |} ->
  Time_Unix now <= e ->
  EtcdSessionKey.Pop r now k
  = (Ok sid,
     with_kAPI r
       (<[EtcdSessionKey.key r k :=
            {| EtcdSessionKey.Value :=
                 {| EtcdSessionKey.Key := k; EtcdSessionKey.SessionID := sid;
                    EtcdSessionKey.ExpiresAt := e; EtcdSessionKey.Stale := true |};
               EtcdSessionKey.Expiration := None |}]> (kAPI r))).
Proof.
  intros H Hle.
  unfold EtcdSessionKey.Pop, EtcdSessionKey.Pop_read, EtcdSessionKey.get, kAPI_Get.
  rewrite H. cbn [Node EtcdSessionKey.Value EtcdSessionKey.Stale EtcdSessionKey.ExpiresAt
                  EtcdSessionKey.Key EtcdSessionKey.SessionID orb].
  replace (e <? Time_Unix now) with false by (symmetry; apply Z.ltb_ge; exact Hle).
  unfold EtcdSessionKey.Pop_write, kAPI_Set.
  cbn [EtcdSessionKey.Key EtcdSessionKey.SessionID]. rewrite H. reflexivity.
Qed.

(** A key pushed on etcd is redeemed once.  Whatever the server has removed
    at the instant [t], as long as the node of the key had not expired
    then: the first [Pop] before the expiry of the record returns the
    session and leaves the record stale, in a node that does not expire;
    every later one is refused, whenever the server removes expired
    nodes. *)
Lemma etcd_Push_Pop_once (r r1 : EtcdSessionKey.sessionKeyRepo) now sk exp t now1 :
  EtcdSessionKey.Push r now sk exp = (None, r1) ->
  (forall e, ttl_Expiration now exp = Some e -> t < e) ->
  Time_Unix now1 <= wrap64 (Time_Unix now + Duration_Seconds exp) ->
  exists r2,
    EtcdSessionKey.Pop (EtcdSessionKey.expire t r1) now1 (session.Key sk)
      = (Ok (session.SessionID sk), r2) /\
    kAPI r2 !! EtcdSessionKey.key r2 (session.Key sk)
      = Some {| EtcdSessionKey.Value :=
                  {| EtcdSessionKey.Key := session.Key sk;
                     EtcdSessionKey.SessionID := session.SessionID sk;
                     EtcdSessionKey.ExpiresAt :=
                       wrap64 (Time_Unix now + Duration_Seconds exp);
                     EtcdSessionKey.Stale := true |};
                EtcdSessionKey.Expiration := None |} /\
    forall t2 now2,
      EtcdSessionKey.Pop (EtcdSessionKey.expire t2 r2) now2 (session.Key sk)
      = (Err InvalidSessionKey, EtcdSessionKey.expire t2 r2).
Proof.
  intros HPush Halive Hle. destruct (etcd_Push_stores _ _ _ _ _ HPush) as [_ ->].
  eexists. split; [|split].
  - apply etcd_Pop_fresh with (x := ttl_Expiration now exp); [|exact Hle].
    apply etcd_expire_lookup. split.
    + cbn [kAPI with_kAPI]. apply lookup_insert_eq.
    + apply ttl_Expiration_alive. exact Halive.
  - cbn [kAPI with_kAPI]. apply lookup_insert_eq.
  - intros t2 now2. eapply etcd_Pop_rejects.
    + apply etcd_expire_lookup. split.
      * cbn [kAPI with_kAPI]. apply lookup_insert_eq.
      * reflexivity.
    + left. reflexivity.
Qed.

(** Where the time to live is positive and the seconds do not overflow,
    the record outlives the node: a [Pop] before the node expires is a
    [Pop] before the expiry of the record. *)
Lemma wrap64_small z : - 2 ^ 63 <= z < 2 ^ 63 -> wrap64 z = z.
Proof.
  intros H. unfold wrap64. rewrite Z.mod_small; lia.
Qed.

Lemma etcd_Push_Pop_before_TTL (r r1 : EtcdSessionKey.sessionKeyRepo)
    now sk exp e t now1 :
  EtcdSessionKey.Push r now sk exp = (None, r1) ->
  ttl_Expiration now exp = Some e -> t < e -> now1 < e ->
  - 2 ^ 63 <= Time_Unix now + Duration_Seconds exp < 2 ^ 63 ->
  exists r2,
    EtcdSessionKey.Pop (EtcdSessionKey.expire t r1) now1 (session.Key sk)
      = (Ok (session.SessionID sk), r2) /\
    forall t2 now2,
      EtcdSessionKey.Pop (EtcdSessionKey.expire t2 r2) now2 (session.Key sk)
      = (Err InvalidSessionKey, EtcdSessionKey.expire t2 r2).
Proof.
  intros HPush He Ht Hnow1 Hfit.
  destruct (etcd_Push_Pop_once r r1 now sk exp t now1 HPush) as (r2 & H1 & _ & H2).
  - intros e' He'. rewrite He in He'. injection He' as <-. exact Ht.
  - rewrite (wrap64_small _ Hfit). eapply ttl_Expiration_Unix; eassumption.
  - exists r2. split; assumption.
Qed.

(** Once the server has removed the nodes that had expired at an instant
    not before the end of the TTL, the key is absent, whatever its record
    said. *)
Lemma etcd_Pop_after_TTL (r r1 : EtcdSessionKey.sessionKeyRepo) now sk exp e t now1 :
  EtcdSessionKey.Push r now sk exp = (None, r1) ->
  ttl_Expiration now exp = Some e -> e <= t ->
  EtcdSessionKey.Pop (EtcdSessionKey.expire t r1) now1 (session.Key sk)
  = (Err (etcdclient_Error ErrorCodeKeyNotFound), EtcdSessionKey.expire t r1).
Proof.
  intros HPush He Hle. destruct (etcd_Push_stores _ _ _ _ _ HPush) as [_ ->].
  apply etcd_Pop_absent. eapply etcd_expire_lookup_gone.
  - cbn [kAPI with_kAPI]. apply lookup_insert_eq.
  - unfold EtcdSessionKey.alive. cbn [EtcdSessionKey.Expiration]. rewrite He.
    apply Z.ltb_ge. exact Hle.
Qed.

(** ** Session keys on MongoDB *)

Lemma mongo_Pop_absent (r : MongoSessionKey.sessionKeyRepo) now k :
  find_one (MongoSessionKey.sel_key k) r = Err mgo_ErrNotFound ->
  MongoSessionKey.Pop r now k = (Err mgo_ErrNotFound, r).
Proof.
  intros H. unfold MongoSessionKey.Pop, MongoSessionKey.Pop_read. rewrite H. reflexivity.
Qed.

Lemma mongo_Pop_rejects (r : MongoSessionKey.sessionKeyRepo) now k d :
  find_one (MongoSessionKey.sel_key k) r = Ok d ->
  MongoSessionKey.Stale (MongoSessionKey.unmarshal d) = true \/
  MongoSessionKey.ExpiresAt (MongoSessionKey.unmarshal d) < now ->
  MongoSessionKey.Pop r now k = (Err InvalidSessionKey, r).
Proof.
  intros H Hbad. unfold MongoSessionKey.Pop, MongoSessionKey.Pop_read. rewrite H.
  cbv zeta. unfold Time_Before.
  replace (MongoSessionKey.Stale (MongoSessionKey.unmarshal d)
           || (MongoSessionKey.ExpiresAt (MongoSessionKey.unmarshal d) <? now)) with true;
    [reflexivity|].
  symmetry. apply orb_true_iff. destruct Hbad as [-> | Hlt]; [auto|].
  right. apply Z.ltb_lt. exact Hlt.
Qed.

Lemma mongo_unmarshal_marshal m :
  MongoSessionKey.unmarshal (MongoSessionKey.marshal m)
  = {| MongoSessionKey.Key := MongoSessionKey.Key m;
       MongoSessionKey.SessionID := MongoSessionKey.SessionID m;
       MongoSessionKey.ExpiresAt := bson_Time (MongoSessionKey.ExpiresAt m);
       MongoSessionKey.Stale := MongoSessionKey.Stale m |}.
Proof. reflexivity. Qed.

Lemma sel_fresh_key_sel_key k d :
  MongoSessionKey.sel_key k d = false -> MongoSessionKey.sel_fresh_key k d = false.
Proof.
  unfold MongoSessionKey.sel_fresh_key, MongoSessionKey.sel_key.
  intros ->. apply andb_false_r.
Qed.

Lemma mongo_no_key_no_fresh (r : MongoSessionKey.sessionKeyRepo) k :
  find_one (MongoSessionKey.sel_key k) r = Err mgo_ErrNotFound ->
  find_one (MongoSessionKey.sel_fresh_key k) r = Err mgo_ErrNotFound.
Proof.
  intros H. apply find_one_none. intros d Hd.
  apply sel_fresh_key_sel_key. destruct (find_one_Err _ _ _ H) as [_ Hall]. auto.
Qed.

(** A key pushed on MongoDB, where no document had that key, is redeemed
    once: the first [Pop] before its expiry returns the session, every
    later one fails, the document having lost its [key] field. *)
Lemma mongo_Push_Pop_once (r r1 : MongoSessionKey.sessionKeyRepo) now sk exp now1 :
  find_one (MongoSessionKey.sel_key (session.Key sk)) r = Err mgo_ErrNotFound ->
  MongoSessionKey.Push r now sk exp = (None, r1) ->
  now1 <= bson_Time (Time_Add now exp) ->
  exists r2,
    MongoSessionKey.Pop r1 now1 (session.Key sk) = (Ok (session.SessionID sk), r2) /\
    forall now2, MongoSessionKey.Pop r2 now2 (session.Key sk) = (Err mgo_ErrNotFound, r2).
Proof.
  intros Hfree [= <-] Hle.
  set (d := MongoSessionKey.marshal _).
  assert (Hk : MongoSessionKey.sel_key (session.Key sk) d = true)
    by (apply bool_decide_eq_true; reflexivity).
  assert (Hf : MongoSessionKey.sel_fresh_key (session.Key sk) d = true).
  { unfold MongoSessionKey.sel_fresh_key. apply andb_true_iff.
    split; apply bool_decide_eq_true; reflexivity. }
  exists (r ++ [MongoSessionKey.doc_stale d]). split.
  - unfold MongoSessionKey.Pop, MongoSessionKey.Pop_read.
    rewrite (find_one_app_miss _ _ d Hfree), Hk. cbv zeta.
    unfold Time_Before. subst d. rewrite mongo_unmarshal_marshal.
    cbn [MongoSessionKey.Stale MongoSessionKey.ExpiresAt MongoSessionKey.SessionID orb].
    replace (bson_Time (Time_Add now exp) <? now1) with false
      by (symmetry; apply Z.ltb_ge; exact Hle).
    unfold MongoSessionKey.Pop_write.
    rewrite (update_one_app_miss _ _ _ _ (mongo_no_key_no_fresh _ _ Hfree)), Hf.
    reflexivity.
  - intros now2. apply mongo_Pop_absent.
    rewrite (find_one_app_miss _ _ _ Hfree). reflexivity.
Qed.

(** ** Claim C1 *)

(** C1, as the specification states it, fails on an absent key: [Pop] on a
    store that does not hold the key returns the not-found error of the
    backend, which is not the error "invalid session key". *)
Lemma Pop_absent_is_not_InvalidSessionKey :
  EtcdSessionKey.Pop etcd_empty t0 "k1"
    = (Err (etcdclient_Error ErrorCodeKeyNotFound), etcd_empty) /\
  MongoSessionKey.Pop [] t0 "k1" = (Err mgo_ErrNotFound, []) /\
  etcdclient_Error ErrorCodeKeyNotFound <> InvalidSessionKey /\
  mgo_ErrNotFound <> InvalidSessionKey.
Proof.
  split; [vm_compute; reflexivity|].
  split; [vm_compute; reflexivity|].
  split; discriminate.
Qed.

(** C1 (amended).  On etcd:
    - where no node stands at the path of the key, [Pop] fails with the
      not-found error of etcd;
    - a stored record that is stale, or whose expiry is earlier than the
      clock, is refused with "invalid session key";
    - a key pushed at [now] with time to live [exp], whose node had not
      expired at the instant [t] of the last removal by etcd, and whose
      expiry has not passed at [now1], is redeemed by [Pop]: the call
      returns the session ID bound by the push and leaves the record
      stale, and every later [Pop] of the key is refused with "invalid
      session key", whenever etcd removes expired nodes.
    On MongoDB:
    - where no document has the key, [Pop] fails with the not-found error
      of the driver;
    - a document found that is stale, or whose expiry is earlier than the
      clock, is refused with "invalid session key";
    - a key pushed at [now] with time to live [exp], where no document had
      that key, is redeemed by [Pop] at a time [now1] not later than the
      stored expiry: the call returns the session ID bound by the push,
      and every later [Pop] of the key fails.
    Each part stands on the hypotheses of its own backend only. *)
Theorem Pop_redeems_once :
  (forall (r : EtcdSessionKey.sessionKeyRepo) (now : Time) (k : string),
      kAPI r !! EtcdSessionKey.key r k = None ->
      EtcdSessionKey.Pop r now k = (Err (etcdclient_Error ErrorCodeKeyNotFound), r)) /\
  (forall (r : EtcdSessionKey.sessionKeyRepo) (now : Time) (k : string) n,
      kAPI r !! EtcdSessionKey.key r k = Some n ->
      EtcdSessionKey.Stale (EtcdSessionKey.Value n) = true \/
      EtcdSessionKey.ExpiresAt (EtcdSessionKey.Value n) < Time_Unix now ->
      EtcdSessionKey.Pop r now k = (Err InvalidSessionKey, r)) /\
  (forall (re re1 : EtcdSessionKey.sessionKeyRepo) (sk : session.SessionKey)
          (now : Time) (exp : Duration) (t now1 : Time),
      EtcdSessionKey.Push re now sk exp = (None, re1) ->
      (forall e, ttl_Expiration now exp = Some e -> t < e) ->
      Time_Unix now1 <= wrap64 (Time_Unix now + Duration_Seconds exp) ->
      exists re2,
        EtcdSessionKey.Pop (EtcdSessionKey.expire t re1) now1 (session.Key sk)
          = (Ok (session.SessionID sk), re2) /\
        kAPI re2 !! EtcdSessionKey.key re2 (session.Key sk)
          = Some {| EtcdSessionKey.Value :=
                      {| EtcdSessionKey.Key := session.Key sk;
                         EtcdSessionKey.SessionID := session.SessionID sk;
                         EtcdSessionKey.ExpiresAt :=
                           wrap64 (Time_Unix now + Duration_Seconds exp);
                         EtcdSessionKey.Stale := true |};
                    EtcdSessionKey.Expiration := None |} /\
        forall t2 now2,
          EtcdSessionKey.Pop (EtcdSessionKey.expire t2 re2) now2 (session.Key sk)
          = (Err InvalidSessionKey, EtcdSessionKey.expire t2 re2)) /\
  (forall (r : MongoSessionKey.sessionKeyRepo) (now : Time) (k : string),
      find_one (MongoSessionKey.sel_key k) r = Err mgo_ErrNotFound ->
      MongoSessionKey.Pop r now k = (Err mgo_ErrNotFound, r)) /\
  (forall (r : MongoSessionKey.sessionKeyRepo) (now : Time) (k : string) d,
      find_one (MongoSessionKey.sel_key k) r = Ok d ->
      MongoSessionKey.Stale (MongoSessionKey.unmarshal d) = true \/
      MongoSessionKey.ExpiresAt (MongoSessionKey.unmarshal d) < now ->
      MongoSessionKey.Pop r now k = (Err InvalidSessionKey, r)) /\
  (forall (rm rm1 : MongoSessionKey.sessionKeyRepo) (sk : session.SessionKey)
          (now : Time) (exp : Duration) (now1 : Time),
      find_one (MongoSessionKey.sel_key (session.Key sk)) rm = Err mgo_ErrNotFound ->
      MongoSessionKey.Push rm now sk exp = (None, rm1) ->
      now1 <= bson_Time (Time_Add now exp) ->
      exists rm2,
        MongoSessionKey.Pop rm1 now1 (session.Key sk) = (Ok (session.SessionID sk), rm2) /\
        forall now2, exists e,
          MongoSessionKey.Pop rm2 now2 (session.Key sk) = (Err e, rm2)).
Proof.
  split; [|split; [|split; [|split; [|split]]]].
  - intros r now k. apply etcd_Pop_absent.
  - intros r now k n. apply etcd_Pop_rejects.
  - intros re re1 sk now exp t now1. apply etcd_Push_Pop_once.
  - intros r now k. apply mongo_Pop_absent.
  - intros r now k d. apply mongo_Pop_rejects.
  - intros rm rm1 sk now exp now1 Hfree HPush Hle.
    destruct (mongo_Push_Pop_once _ _ _ _ _ _ Hfree HPush Hle) as (rm2 & H1 & H2).
    exists rm2. split; [exact H1|]. intros now2. eexists. apply H2.
Qed.

(** The theorem at the sample key, pushed at [t0] for one minute and
    popped ten seconds later, the server having just removed what had
    expired. *)
Lemma Pop_redeems_once_witness :
  EtcdSessionKey.Push etcd_empty t0 sample_key one_minute = (None, etcd_pushed) /\
  ttl_Expiration t0 one_minute = Some (t0 + one_minute) /\
  Time_Unix (t0 + 10 * Second) <= wrap64 (Time_Unix t0 + Duration_Seconds one_minute) /\
  find_one (MongoSessionKey.sel_key "k1") [] = Err mgo_ErrNotFound /\
  MongoSessionKey.Push [] t0 sample_key one_minute = (None, mongo_pushed) /\
  t0 + 10 * Second <= bson_Time (Time_Add t0 one_minute) /\
  (exists re2,
      EtcdSessionKey.Pop (EtcdSessionKey.expire (t0 + 10 * Second) etcd_pushed)
        (t0 + 10 * Second) "k1" = (Ok "s1", re2) /\
      forall t2 now2,
        EtcdSessionKey.Pop (EtcdSessionKey.expire t2 re2) now2 "k1"
        = (Err InvalidSessionKey, EtcdSessionKey.expire t2 re2)) /\
  (exists rm2,
      MongoSessionKey.Pop mongo_pushed (t0 + 10 * Second) "k1" = (Ok "s1", rm2) /\
      forall now2, exists e, MongoSessionKey.Pop rm2 now2 "k1" = (Err e, rm2)).
Proof.
  assert (H1 : EtcdSessionKey.Push etcd_empty t0 sample_key one_minute = (None, etcd_pushed))
    by (vm_compute; reflexivity).
  assert (H2 : ttl_Expiration t0 one_minute = Some (t0 + one_minute))
    by (vm_compute; reflexivity).
  assert (H3 : Time_Unix (t0 + 10 * Second)
               <= wrap64 (Time_Unix t0 + Duration_Seconds one_minute))
    by (vm_compute; discriminate).
  assert (H4 : find_one (MongoSessionKey.sel_key (session.Key sample_key)) []
               = Err mgo_ErrNotFound) by reflexivity.
  assert (H5 : MongoSessionKey.Push [] t0 sample_key one_minute = (None, mongo_pushed))
    by reflexivity.
  assert (H6 : t0 + 10 * Second <= bson_Time (Time_Add t0 one_minute))
    by (vm_compute; discriminate).
  assert (Ht : forall e, ttl_Expiration t0 one_minute = Some e -> t0 + 10 * Second < e).
  { intros e He. rewrite H2 in He. injection He as <-. vm_compute. reflexivity. }
  destruct Pop_redeems_once as (_ & _ & He & _ & _ & Hm).
  destruct (He _ _ _ _ _ _ _ H1 Ht H3) as (re2 & He1 & _ & He2).
  split; [exact H1|]. split; [exact H2|]. split; [exact H3|]. split; [exact H4|].
  split; [exact H5|]. split; [exact H6|]. split.
  - exists re2. split; [exact He1 | exact He2].
  - exact (Hm _ _ _ _ _ _ H4 H5 H6).
Defined.

(** ** Claim C2: concurrent callers of [Pop] *)

(** On MongoDB the write of [Pop] is conditional on the document being
    fresh: each success uses up one fresh document of the key. *)
Lemma mongo_doc_stale_not_fresh k d :
  MongoSessionKey.sel_fresh_key k (MongoSessionKey.doc_stale d) = false.
Proof. reflexivity. Qed.

Lemma mongo_update_fresh_count k (r r' : MongoSessionKey.sessionKeyRepo) e :
  update_one (MongoSessionKey.sel_fresh_key k) MongoSessionKey.doc_stale r = (e, r') ->
  match e with
  | None => (fresh_count k r' + 1 = fresh_count k r)%nat
  | Some _ => r' = r
  end.
Proof.
  revert r' e. induction r as [|d r IH]; intros r' e; simpl.
  - intros [= <- <-]. reflexivity.
  - destruct (MongoSessionKey.sel_fresh_key k d) eqn:Hd.
    + intros [= <- <-]. unfold fresh_count. cbn [List.filter].
      rewrite mongo_doc_stale_not_fresh, Hd. cbn [length]. lia.
    + destruct (update_one _ _ r) as [e0 r0] eqn:Hu. intros [= <- <-].
      specialize (IH _ _ eq_refl). destruct e0.
      * congruence.
      * unfold fresh_count in *. cbn [List.filter]. rewrite Hd. exact IH.
Qed.

Lemma successes_insert {M} (calls : list (pop_call M)) i c c' :
  calls !! i = Some c ->
  (successes (<[i := c']> calls) + won c = successes calls + won c')%nat.
Proof.
  revert i. induction calls as [|x calls IH]; intros i; [discriminate|].
  destruct i as [|i]; simpl.
  - intros [= ->]. unfold successes, won. simpl.
    destruct (succeeded c), (succeeded c'); simpl; lia.
  - intros H. specialize (IH _ H). unfold successes in *. simpl.
    destruct (succeeded x); simpl; lia.
Qed.

Lemma mongo_pop_step_conserves k r c c' r' :
  call_on k c ->
  mongo_pop_step r c = (c', r') ->
  call_on k c' /\ (won c' + fresh_count k r' = won c + fresh_count k r)%nat.
Proof.
  destruct c as [now k0 | k0 skm | res]; simpl.
  - intros ->. destruct (MongoSessionKey.Pop_read r now k);
      intros [= <- <-]; simpl; auto.
  - intros ->. unfold MongoSessionKey.Pop_write.
    destruct (update_one _ _ r) as [e r0] eqn:Hu.
    pose proof (mongo_update_fresh_count _ _ _ _ Hu) as Hc.
    destruct e; intros [= <- <-]; simpl; split; auto.
    + subst r0. reflexivity.
    + unfold won. simpl. lia.
  - intros _ [= <- <-]. split; [exact I | reflexivity].
Qed.

Lemma Forall_call_on_insert {M} k (calls : list (pop_call M)) i c :
  Forall (call_on k) calls -> call_on k c -> Forall (call_on k) (<[i := c]> calls).
Proof. intros H Hc. apply Forall_insert; assumption. Qed.

(** Under every schedule, the successes of the callers and the fresh
    documents left add up to what there was. *)
Lemma mongo_run_conserves k sched :
  forall r calls calls' r',
    Forall (call_on k) calls ->
    run mongo_pop_step sched r calls = (calls', r') ->
    (successes calls' + fresh_count k r' = successes calls + fresh_count k r)%nat.
Proof.
  induction sched as [|i sched IH]; intros r calls calls' r' Hon; simpl.
  - intros [= <- <-]. reflexivity.
  - destruct (calls !! i) as [c|] eqn:Hi; [|apply IH; exact Hon].
    destruct (mongo_pop_step r c) as [c1 r1] eqn:Hs. intros Hrun.
    assert (Hc : call_on k c).
    { eapply Forall_lookup_1; eassumption. }
    destruct (mongo_pop_step_conserves _ _ _ _ _ Hc Hs) as [Hc1 Hwon].
    specialize (IH _ _ _ _ (Forall_call_on_insert _ _ i _ Hon Hc1) Hrun).
    pose proof (successes_insert calls i c c1 Hi). lia.
Qed.

Lemma mongo_no_key_fresh_count (r : MongoSessionKey.sessionKeyRepo) k :
  find_one (MongoSessionKey.sel_key k) r = Err mgo_ErrNotFound -> fresh_count k r = 0%nat.
Proof.
  intros H. destruct (find_one_Err _ _ _ H) as [_ Hall]. clear H.
  unfold fresh_count. induction r as [|d r IH]; [reflexivity|].
  cbn [List.filter]. rewrite (sel_fresh_key_sel_key k d) by (apply Hall; left; reflexivity).
  apply IH. intros d' Hd'. apply Hall. right. exact Hd'.
Qed.

Lemma fresh_count_app k (r r' : MongoSessionKey.sessionKeyRepo) :
  fresh_count k (r ++ r') = (fresh_count k r + fresh_count k r')%nat.
Proof. unfold fresh_count. rewrite List.filter_app, length_app. reflexivity. Qed.

Lemma successes_Called {M} k (nows : list Time) :
  successes (map (fun t => @Called M t k) nows) = 0%nat.
Proof. induction nows as [|t nows IH]; [reflexivity | exact IH]. Qed.

Lemma Forall_call_on_Called {M} k (nows : list Time) :
  Forall (call_on k) (map (fun t => @Called M t k) nows).
Proof. induction nows as [|t nows IH]; constructor; [reflexivity | exact IH]. Qed.

(** On MongoDB, of any number of callers that pop a key pushed once, under
    any schedule, at most one succeeds. *)
Lemma mongo_concurrent_Pop_one_winner (r r1 : MongoSessionKey.sessionKeyRepo)
    now sk exp sched (nows : list Time) calls' r' :
  find_one (MongoSessionKey.sel_key (session.Key sk)) r = Err mgo_ErrNotFound ->
  MongoSessionKey.Push r now sk exp = (None, r1) ->
  run mongo_pop_step sched r1 (map (fun t => Called t (session.Key sk)) nows) = (calls', r') ->
  (successes calls' <= 1)%nat.
Proof.
  intros Hfree [= <-] Hrun.
  pose proof (mongo_run_conserves _ _ _ _ _ _ (Forall_call_on_Called _ nows) Hrun) as H.
  rewrite successes_Called, fresh_count_app, (mongo_no_key_fresh_count _ _ Hfree) in H.
  assert (Hone : fresh_count (session.Key sk)
            [MongoSessionKey.marshal
               {| MongoSessionKey.Key := session.Key sk;
                  MongoSessionKey.SessionID := session.SessionID sk;
                  MongoSessionKey.ExpiresAt := Time_Add now exp;
                  MongoSessionKey.Stale := false |}] = 1%nat).
  { unfold fresh_count. cbn [List.filter].
    replace (MongoSessionKey.sel_fresh_key _ _) with true; [reflexivity|].
    symmetry. unfold MongoSessionKey.sel_fresh_key. apply andb_true_iff.
    split; apply bool_decide_eq_true; reflexivity. }
  rewrite Hone in H. lia.
Qed.

(** On etcd, two callers that have both read a fresh key both write and
    both succeed: the write asks only that the node exists. *)
Lemma etcd_interleaved_Pops_both_succeed (r : EtcdSessionKey.sessionKeyRepo)
    k sid e x now1 now2 :
  kAPI r !! EtcdSessionKey.key r k
    = Some {| EtcdSessionKey.Value :=
                {| EtcdSessionKey.Key := k; EtcdSessionKey.SessionID := sid;
                   EtcdSessionKey.ExpiresAt := e; EtcdSessionKey.Stale := false |};
              EtcdSessionKey.Expiration := x |} ->
  Time_Unix now1 <= e -> Time_Unix now2 <= e ->
  fst (run etcd_pop_step [0; 1; 0; 1]%nat r [Called now1 k; Called now2 k])
  = [Returned (Ok sid); Returned (Ok sid)].
Proof.
  intros H H1 H2.
  assert (Hread : forall now, Time_Unix now <= e ->
            EtcdSessionKey.Pop_read r now k
            = Ok {| EtcdSessionKey.Key := k; EtcdSessionKey.SessionID := sid;
                    EtcdSessionKey.ExpiresAt := e; EtcdSessionKey.Stale := true |}).
  { intros now Hle. unfold EtcdSessionKey.Pop_read, EtcdSessionKey.get, kAPI_Get.
    rewrite H. cbn [Node EtcdSessionKey.Value EtcdSessionKey.Stale EtcdSessionKey.ExpiresAt
                    EtcdSessionKey.Key EtcdSessionKey.SessionID orb].
    replace (e <? Time_Unix now) with false by (symmetry; apply Z.ltb_ge; exact Hle).
    reflexivity. }
  cbn [run lookup list_lookup etcd_pop_step].
  rewrite (Hread now1 H1). cbn [run lookup list_lookup insert list_insert etcd_pop_step].
  rewrite (Hread now2 H2). cbn [run lookup list_lookup insert list_insert etcd_pop_step].
  unfold EtcdSessionKey.Pop_write at 1, kAPI_Set. cbn [EtcdSessionKey.Key]. rewrite H.
  cbn [run lookup list_lookup insert list_insert etcd_pop_step EtcdSessionKey.SessionID].
  unfold EtcdSessionKey.Pop_write, kAPI_Set.
  cbn [EtcdSessionKey.Key EtcdSessionKey.SessionID kAPI with_kAPI].
  rewrite etcd_with_kAPI_key, lookup_insert_eq. reflexivity.
Qed.

(** C2, at the failing input.  The sample key is pushed on etcd; two
    callers pop it, each reading before the other writes.  Both calls
    return the session ID.  Served one after the other, the second call is
    refused. *)
Theorem etcd_concurrent_Pop_both_succeed :
  fst (run etcd_pop_step [0; 1; 0; 1]%nat etcd_pushed
         [Called (t0 + 10 * Second) "k1"; Called (t0 + 20 * Second) "k1"])
  = [Returned (Ok "s1"); Returned (Ok "s1")] /\
  fst (run etcd_pop_step [0; 0; 1; 1]%nat etcd_pushed
         [Called (t0 + 10 * Second) "k1"; Called (t0 + 20 * Second) "k1"])
  = [Returned (Ok "s1"); Returned (Err InvalidSessionKey)].
Proof. split; vm_compute; reflexivity. Qed.

(** ** Sessions *)

Lemma with_kAPI_same {V} (d : EtcdDriver V) : with_kAPI d (kAPI d) = d.
Proof. destruct d. reflexivity. Qed.

Section SessionFacts.
Context {SC : SessionCodec}.

Lemma etcd_Get_absent (r : EtcdSession.sessionRepo) now id :
  kAPI r !! EtcdSession.key r id = None ->
  EtcdSession.Get r now id = Err (etcdclient_Error ErrorCodeKeyNotFound).
Proof.
  intros H. unfold EtcdSession.Get, EtcdSession.get, kAPI_Get. rewrite H. reflexivity.
Qed.

Lemma etcd_Get_stored (r : EtcdSession.sessionRepo) now id sm ses :
  kAPI r !! EtcdSession.key r id = Some sm ->
  EtcdSession.sessionModel_session sm = Ok ses ->
  EtcdSession.Get r now id
  = if session.ExpiresAt ses <? now then Err SessionDoesNotExist else Ok ses.
Proof.
  intros H Hs. unfold EtcdSession.Get, EtcdSession.get, kAPI_Get.
  rewrite H. cbn [Node]. rewrite Hs. reflexivity.
Qed.

Lemma mongo_Get_absent (r : MongoSession.sessionRepo) now id :
  find_one (MongoSession.sel_id id) r = Err mgo_ErrNotFound ->
  MongoSession.Get r now id = Err mgo_ErrNotFound.
Proof. intros H. unfold MongoSession.Get. rewrite H. reflexivity. Qed.

Lemma mongo_Get_stored (r : MongoSession.sessionRepo) now id sm ses :
  find_one (MongoSession.sel_id id) r = Ok sm ->
  MongoSession.sessionModel_session sm = Ok ses ->
  MongoSession.Get r now id
  = if session.ExpiresAt ses <? now then Err SessionDoesNotExist else Ok ses.
Proof.
  intros H Hs. unfold MongoSession.Get. rewrite H, Hs. reflexivity.
Qed.

(** On etcd [Update] is [Create]: it refuses a session that is stored. *)
Lemma etcd_Update_existing_fails (r : EtcdSession.sessionRepo) s sm old :
  EtcdSession.newSessionModel s = Ok sm ->
  kAPI r !! EtcdSession.key r (EtcdSession.ID sm) = Some old ->
  EtcdSession.Update r s = (Some (etcdclient_Error ErrorCodeNodeExist), r).
Proof.
  intros Hsm Hold. unfold EtcdSession.Update, EtcdSession.insert, kAPI_Create, kAPI_Set.
  rewrite Hsm, Hold. rewrite with_kAPI_same. reflexivity.
Qed.

(** On etcd [Update] of a session that is not stored creates it. *)
Lemma etcd_Update_is_Create (r : EtcdSession.sessionRepo) s :
  EtcdSession.Update r s = EtcdSession.Create r s.
Proof. reflexivity. Qed.

(** On MongoDB [Update] replaces the stored document. *)
Lemma mongo_Update_existing (r : MongoSession.sessionRepo) s sm old :
  MongoSession.newSessionModel s = Ok sm ->
  find_one (MongoSession.sel_id (session.ID s)) r = Ok old ->
  exists r', MongoSession.Update r s = (None, r') /\
    find_one (MongoSession.sel_id (session.ID s)) r' = Ok (MongoSession.marshal sm).
Proof.
  intros Hsm Hold. unfold MongoSession.Update. rewrite Hsm.
  assert (Hid : MongoSession.sel_id (session.ID s) (MongoSession.marshal sm) = true).
  { apply bool_decide_eq_true. unfold MongoSession.newSessionModel in Hsm.
    destruct (json_Marshal_Identity _); [|discriminate].
    injection Hsm as <-. reflexivity. }
  clear Hsm. induction r as [|d r IH]; simpl in *; [discriminate|].
  destruct (MongoSession.sel_id (session.ID s) d) eqn:Hd.
  - eexists. split; [reflexivity|]. simpl. rewrite Hid. reflexivity.
  - destruct (IH Hold) as (r' & Hu & Hf). rewrite Hu.
    eexists. split; [reflexivity|]. simpl. rewrite Hd. exact Hf.
Qed.

End SessionFacts.

(** ** Claim C6 *)




(** ** Claim C7 *)

(** C7, at the failing input.  The sample session is created on etcd; the
    update that records the identified user is refused with "node exists",
    the store is unchanged, and [Get] still returns the session as it was
    created.  On MongoDB the same update succeeds and is read back. *)
Theorem etcd_Update_of_stored_session_fails :
  @EtcdSession.Create text_codec etcd_empty sample_session = (None, etcd_created) /\
  @EtcdSession.Update text_codec etcd_created sample_session_identified
    = (Some (etcdclient_Error ErrorCodeNodeExist), etcd_created) /\
  @EtcdSession.Get text_codec etcd_created (t0 + 1) "sess1" = Ok sample_session /\
  @MongoSession.Get text_codec
     (snd (@MongoSession.Update text_codec mongo_created sample_session_identified))
     (t0 + 1) "sess1" = Ok sample_session_identified.
Proof.
  split; [vm_compute; reflexivity|].
  split; [|split; vm_compute; reflexivity].
  eapply (@etcd_Update_existing_fails text_codec) with (old := etcd_sample_model).
  - reflexivity.
  - vm_compute. reflexivity.
Qed.

(** ** Claim C10: the constructors of the key store *)

Lemma check_secrets_None i secrets :
  check_secrets i secrets = None <-> Forall (fun s : bytes => length s = 32%nat) secrets.
Proof.
  revert i. induction secrets as [|s secrets IH]; intros i; simpl.
  - split; [constructor | reflexivity].
  - destruct (Nat.eqb_spec (length s) 32) as [Hs | Hs]; simpl.
    + rewrite IH. split; [intros H; constructor; assumption | intros H; inversion H; assumption].
    + split; [discriminate | intros H; inversion H; contradiction].
Qed.

(** The etcd constructor succeeds exactly on a list of secrets that is not
    empty and holds 32-byte secrets only. *)
Lemma etcd_NewPrivateKeySetRepo_ok d old secrets :
  is_ok (EtcdKey.NewPrivateKeySetRepo d old secrets) = true
  <-> secrets <> [] /\ Forall (fun s : bytes => length s = 32%nat) secrets.
Proof.
  unfold EtcdKey.NewPrivateKeySetRepo. destruct secrets as [|s secrets].
  - simpl. split; [discriminate | intros [H _]; congruence].
  - cbn [length Nat.eqb]. rewrite <- (check_secrets_None 0).
    destruct (check_secrets 0 (s :: secrets)); simpl.
    + split; [discriminate | intros [_ H]; discriminate].
    + split; [intros _; split; [discriminate | reflexivity] | reflexivity].
Qed.

(** The MongoDB constructor succeeds on every list of 32-byte secrets, the
    empty list among them. *)
Lemma mongo_NewPrivateKeySetRepo_ok d old secrets :
  is_ok (MongoKey.NewPrivateKeySetRepo d old secrets) = true
  <-> Forall (fun s : bytes => length s = 32%nat) secrets.
Proof.
  unfold MongoKey.NewPrivateKeySetRepo. rewrite <- (check_secrets_None 0).
  destruct (check_secrets 0 secrets); simpl; split; congruence.
Qed.

(** C10, at the failing input, the second call of
    [TestNewPrivateKeySetRepoInvalidKey]: without any secret the MongoDB
    constructor returns a repository and no error.  The first call of the
    test, with the 6-byte secret, is refused, and etcd refuses both. *)
Theorem mongo_NewPrivateKeySetRepo_accepts_no_secret :
  MongoKey.NewPrivateKeySetRepo [] false []
    = Ok {| MongoKey.driver := []; MongoKey.useOldFormat := false; MongoKey.secrets := [] |} /\
  MongoKey.NewPrivateKeySetRepo [] false [list_byte_of_string "sharks"]
    = Err (errors_New "key secret 0: expected 32-byte secret") /\
  EtcdKey.NewPrivateKeySetRepo etcd_empty false []
    = Err (errors_New "must provide at least one key secret") /\
  EtcdKey.NewPrivateKeySetRepo etcd_empty false [list_byte_of_string "sharks"]
    = Err (errors_New "key secret 0: expected 32-byte secret").
Proof. repeat split; vm_compute; reflexivity. Qed.

(** ** Claim C8: [Authenticate] *)

Section ClientFacts.
Context {B : Bcrypt}.

(** With a secret that cannot be used, the comparison of the hash is not
    reached. *)
Lemma unusable_secret_refused (creds : oidc.ClientCredentials) (hash : bytes) :
  unusable_secret creds ->
  match base64_DecodeString (oidc.Secret creds) with
  | None => (false, @None error)
  | Some dec =>
      if (maxSecretLength <? length dec)%nat then (false, None)
      else (bool_decide (bcrypt_CompareHashAndPassword hash dec = None), None)
  end = (false, None).
Proof.
  intros [Hnone | (dec & Hdec & Hlen)].
  - rewrite Hnone. reflexivity.
  - rewrite Hdec. apply Nat.ltb_lt in Hlen. rewrite Hlen. reflexivity.
Qed.

Lemma etcd_Authenticate_unknown (r : EtcdClient.clientIdentityRepo) creds :
  kAPI r !! EtcdClient.key r (oidc.ID creds) = None ->
  EtcdClient.Authenticate r None creds = (false, None).
Proof.
  intros H. unfold EtcdClient.Authenticate, EtcdClient.get, request, kAPI_Get.
  rewrite H. reflexivity.
Qed.

Lemma etcd_Authenticate_unusable (r : EtcdClient.clientIdentityRepo) creds cim :
  kAPI r !! EtcdClient.key r (oidc.ID creds) = Some (EtcdClient.identity_node cim) ->
  unusable_secret creds ->
  EtcdClient.Authenticate r None creds = (false, None).
Proof.
  intros H Hbad. unfold EtcdClient.Authenticate, EtcdClient.get, request, kAPI_Get.
  rewrite H. cbn [Node EtcdClient.json_Unmarshal].
  apply unusable_secret_refused. exact Hbad.
Qed.

(** The node at the path of the ID is no identity: the error of
    [json.Unmarshal] comes back, whatever the secret. *)
Lemma etcd_Authenticate_no_identity (r : EtcdClient.clientIdentityRepo) creds n :
  kAPI r !! EtcdClient.key r (oidc.ID creds) = Some n ->
  (forall cim, n <> EtcdClient.identity_node cim) ->
  exists e, EtcdClient.json_Unmarshal n = Err e /\
            EtcdClient.Authenticate r None creds = (false, Some e).
Proof.
  intros H Hn. unfold EtcdClient.Authenticate, EtcdClient.get, request, kAPI_Get.
  rewrite H. cbn [Node].
  destruct n as [cim | isAdmin | ]; [exfalso; eapply Hn; reflexivity | |];
    eexists; split; reflexivity.
Qed.

(** The request fails on its way: the failure comes back, whatever the
    secret. *)
Lemma etcd_Authenticate_fault (r : EtcdClient.clientIdentityRepo) creds e :
  e <> etcdclient_Error ErrorCodeKeyNotFound -> e <> client_ErrorNotFound ->
  EtcdClient.Authenticate r (Some e) creds = (false, Some e).
Proof.
  intros H1 H2. unfold EtcdClient.Authenticate, EtcdClient.get, request.
  destruct e as [ | | c | | | | | | | | | | | | | | | ]; try reflexivity.
  - destruct c; try reflexivity. congruence.
  - congruence.
Qed.

Lemma etcd_Authenticate_no_match (r : EtcdClient.clientIdentityRepo) fault creds :
  unusable_secret creds ->
  fst (EtcdClient.Authenticate r fault creds) = false.
Proof.
  intros Hbad. unfold EtcdClient.Authenticate.
  destruct (EtcdClient.get r fault (oidc.ID creds)) as [cim | e].
  - rewrite (unusable_secret_refused creds _ Hbad). reflexivity.
  - destruct e; reflexivity.
Qed.

Lemma mongo_Authenticate_unknown (r : MongoClient.clientIdentityRepo) creds :
  find_one (MongoClient.sel_id (oidc.ID creds)) r = Err mgo_ErrNotFound ->
  MongoClient.Authenticate r None creds = (false, None).
Proof. intros H. unfold MongoClient.Authenticate, request. rewrite H. reflexivity. Qed.

Lemma mongo_Authenticate_unusable (r : MongoClient.clientIdentityRepo) creds cim :
  find_one (MongoClient.sel_id (oidc.ID creds)) r = Ok cim ->
  unusable_secret creds ->
  MongoClient.Authenticate r None creds = (false, None).
Proof.
  intros H Hbad. unfold MongoClient.Authenticate, request. rewrite H.
  apply unusable_secret_refused. exact Hbad.
Qed.

Lemma mongo_Authenticate_fault (r : MongoClient.clientIdentityRepo) creds e :
  e <> mgo_ErrNotFound ->
  MongoClient.Authenticate r (Some e) creds = (false, Some e).
Proof.
  intros H. unfold MongoClient.Authenticate, request.
  destruct e; try reflexivity. congruence.
Qed.

Lemma mongo_Authenticate_no_match (r : MongoClient.clientIdentityRepo) fault creds :
  unusable_secret creds ->
  fst (MongoClient.Authenticate r fault creds) = false.
Proof.
  intros Hbad. unfold MongoClient.Authenticate.
  destruct (request fault _) as [cim | e].
  - rewrite (unusable_secret_refused creds _ Hbad). reflexivity.
  - destruct e; reflexivity.
Qed.

End ClientFacts.




(** ** Users *)

Section CollectionSplit.
Context {D : Type}.
Implicit Types (sel : D -> bool) (c : list D).

Lemma find_one_split sel c d :
  find_one sel c = Ok d ->
  exists pre post, c = pre ++ d :: post /\ sel d = true /\
                   forall x, In x pre -> sel x = false.
Proof.
  induction c as [|x c IH]; simpl; [discriminate|].
  destruct (sel x) eqn:Hx.
  - intros [= <-]. exists [], c. repeat split; [assumption | contradiction].
  - intros H. destruct (IH H) as (pre & post & -> & Hd & Hpre).
    exists (x :: pre), post. repeat split; [assumption|].
    intros y [<- | Hy]; auto.
Qed.

Lemma update_one_split sel doc c c' :
  update_one sel doc c = (None, c') ->
  exists pre d post, c = pre ++ d :: post /\ find_one sel c = Ok d /\
                     c' = pre ++ doc d :: post.
Proof.
  revert c'. induction c as [|x c IH]; intros c'; simpl; [discriminate|].
  destruct (sel x) eqn:Hx.
  - intros [= <-]. exists [], x, c. auto.
  - destruct (update_one sel doc c) as [e c0] eqn:Hu. intros [= -> <-].
    destruct (IH _ eq_refl) as (pre & d & post & -> & Hf & ->).
    exists (x :: pre), d, post. auto.
Qed.

Lemma update_one_Some sel doc c e c' :
  update_one sel doc c = (Some e, c') -> c' = c.
Proof.
  revert c'. induction c as [|x c IH]; intros c'; simpl.
  - intros [= _ <-]. reflexivity.
  - destruct (sel x); [discriminate|].
    destruct (update_one sel doc c) as [e0 c0] eqn:Hu. intros [= -> <-].
    f_equal. apply IH. reflexivity.
Qed.

Lemma NoDup_map_same {A} (f : D -> A) c x y :
  NoDup (map f c) -> In x c -> In y c -> f x = f y -> x = y.
Proof.
  induction c as [|z c IH]; simpl; [contradiction|].
  intros Hnd [-> | Hx] [-> | Hy] Hf; auto.
  - apply NoDup_cons_1_1 in Hnd. exfalso. apply Hnd. rewrite Hf.
    apply list_elem_of_In, in_map, Hy.
  - apply NoDup_cons_1_1 in Hnd. exfalso. apply Hnd. rewrite <- Hf.
    apply list_elem_of_In, in_map, Hx.
  - apply IH; auto. apply NoDup_cons_1_2 in Hnd. exact Hnd.
Qed.

End CollectionSplit.

Lemma mongo_user_no_id (m : MongoUser.userRepo) id :
  (forall d, In d m -> MongoUser.ID d <> id) ->
  find_one (MongoUser.sel_id id) m = Err mgo_ErrNotFound.
Proof.
  intros H. apply find_one_none. intros d Hd.
  apply bool_decide_eq_false. apply H. exact Hd.
Qed.

Lemma mongo_user_no_email (m : MongoUser.userRepo) email :
  (forall d, In d m -> MongoUser.Email d <> email) ->
  find_one (MongoUser.sel_email email) m = Err mgo_ErrNotFound.
Proof.
  intros H. apply find_one_none. intros d Hd.
  apply bool_decide_eq_false. apply H. exact Hd.
Qed.

Lemma mongo_user_has_id (m : MongoUser.userRepo) id d :
  In d m -> MongoUser.ID d = id ->
  exists d', find_one (MongoUser.sel_id id) m = Ok d' /\ In d' m /\ MongoUser.ID d' = id.
Proof.
  intros Hd Hid. destruct (find_one (MongoUser.sel_id id) m) as [d' | e] eqn:Hf.
  - destruct (find_one_Ok _ _ _ Hf) as [Hs Hin]. apply bool_decide_eq_true in Hs. eauto.
  - destruct (find_one_Err _ _ _ Hf) as [_ Hall].
    specialize (Hall d Hd). apply bool_decide_eq_false in Hall. contradiction.
Qed.

Lemma mongo_user_has_email (m : MongoUser.userRepo) email d :
  In d m -> MongoUser.Email d = email ->
  exists d', find_one (MongoUser.sel_email email) m = Ok d' /\ In d' m /\
             MongoUser.Email d' = email.
Proof.
  intros Hd Hid. destruct (find_one (MongoUser.sel_email email) m) as [d' | e] eqn:Hf.
  - destruct (find_one_Ok _ _ _ Hf) as [Hs Hin]. apply bool_decide_eq_true in Hs. eauto.
  - destruct (find_one_Err _ _ _ Hf) as [_ Hall].
    specialize (Hall d Hd). apply bool_decide_eq_false in Hall. contradiction.
Qed.

Lemma marshal_newUserModel_ID usr :
  MongoUser.ID (MongoUser.marshal (MongoUser.newUserModel usr)) = user.ID usr.
Proof. reflexivity. Qed.

Lemma marshal_newUserModel_Email usr :
  MongoUser.Email (MongoUser.marshal (MongoUser.newUserModel usr)) = user.Email usr.
Proof. reflexivity. Qed.

Section UserFacts.
Context {U : UserPkg}.

Lemma Create_DuplicateID (m : MongoUser.userRepo) usr :
  user.ID usr <> "" ->
  (exists d, In d m /\ MongoUser.ID d = user.ID usr) ->
  MongoUser.Create m usr = (Some user_ErrorDuplicateID, m).
Proof.
  intros Hne (d & Hd & Hid). unfold MongoUser.Create.
  apply String.eqb_neq in Hne. rewrite Hne.
  destruct (mongo_user_has_id _ _ _ Hd Hid) as (d' & -> & _). reflexivity.
Qed.

Lemma Create_InvalidEmail (m : MongoUser.userRepo) usr :
  user.ID usr <> "" ->
  (forall d, In d m -> MongoUser.ID d <> user.ID usr) ->
  user_ValidEmail (user.Email usr) = false ->
  MongoUser.Create m usr = (Some user_ErrorInvalidEmail, m).
Proof.
  intros Hne Hfresh Hbad. unfold MongoUser.Create.
  apply String.eqb_neq in Hne. rewrite Hne, (mongo_user_no_id _ _ Hfresh), Hbad.
  reflexivity.
Qed.

Lemma Create_DuplicateEmail (m : MongoUser.userRepo) usr :
  user.ID usr <> "" ->
  (forall d, In d m -> MongoUser.ID d <> user.ID usr) ->
  user_ValidEmail (user.Email usr) = true ->
  (exists d, In d m /\ MongoUser.Email d = user.Email usr) ->
  MongoUser.Create m usr = (Some user_ErrorDuplicateEmail, m).
Proof.
  intros Hne Hfresh Hgood (d & Hd & Hmail). unfold MongoUser.Create, MongoUser.GetByEmail.
  apply String.eqb_neq in Hne. rewrite Hne, (mongo_user_no_id _ _ Hfresh), Hgood.
  destruct (mongo_user_has_email _ _ _ Hd Hmail) as (d' & -> & _). reflexivity.
Qed.

(** [Create] stores the user exactly when the ID is not empty and not
    taken, the email is valid and no stored user holds it. *)
Lemma Create_None (m m' : MongoUser.userRepo) usr :
  MongoUser.Create m usr = (None, m') ->
  m' = m ++ [MongoUser.marshal (MongoUser.newUserModel usr)] /\
  (forall d, In d m -> MongoUser.ID d <> user.ID usr) /\
  (forall d, In d m -> MongoUser.Email d <> user.Email usr) /\
  user_ValidEmail (user.Email usr) = true.
Proof.
  unfold MongoUser.Create, MongoUser.GetByEmail, insert_one.
  destruct (String.eqb (user.ID usr) ""); [discriminate|].
  assert (Hsel : (fun d' : MongoUser.userModel =>
                    bool_decide (MongoUser.ID d'
                      = MongoUser.ID (MongoUser.marshal (MongoUser.newUserModel usr))))
                 = MongoUser.sel_id (user.ID usr)) by reflexivity.
  rewrite Hsel.
  destruct (find_one (MongoUser.sel_id (user.ID usr)) m) as [d | e] eqn:Hid; [discriminate|].
  destruct (find_one_Err _ _ _ Hid) as [-> Hids].
  destruct (user_ValidEmail (user.Email usr)) eqn:Hv; [|discriminate]. cbn [negb].
  destruct (find_one (MongoUser.sel_email (user.Email usr)) m) as [d | e] eqn:Hmail;
    [discriminate|].
  destruct (find_one_Err _ _ _ Hmail) as [-> Hmails].
  intros [= <-]. repeat split.
  - intros d Hd. specialize (Hids d Hd). apply bool_decide_eq_false in Hids. exact Hids.
  - intros d Hd. specialize (Hmails d Hd). apply bool_decide_eq_false in Hmails. exact Hmails.
Qed.

Lemma Create_Some (m m' : MongoUser.userRepo) usr e :
  MongoUser.Create m usr = (Some e, m') -> m' = m.
Proof.
  unfold MongoUser.Create, MongoUser.GetByEmail, insert_one.
  destruct (String.eqb (user.ID usr) ""); [intros [= _ <-]; reflexivity|].
  assert (Hsel : (fun d' : MongoUser.userModel =>
                    bool_decide (MongoUser.ID d'
                      = MongoUser.ID (MongoUser.marshal (MongoUser.newUserModel usr))))
                 = MongoUser.sel_id (user.ID usr)) by reflexivity.
  rewrite Hsel.
  destruct (find_one (MongoUser.sel_id (user.ID usr)) m) as [d | e0] eqn:Hid;
    [intros [= _ <-]; reflexivity|].
  destruct (find_one_Err _ _ _ Hid) as [-> _].
  destruct (negb _); [intros [= _ <-]; reflexivity|].
  destruct (find_one (MongoUser.sel_email (user.Email usr)) m) as [d | e0] eqn:Hmail;
    [intros [= _ <-]; reflexivity|].
  destruct (find_one_Err _ _ _ Hmail) as [-> _]. discriminate.
Qed.

End UserFacts.

Lemma NoDup_replace {A} (l l' : list A) a b :
  NoDup (l ++ a :: l') -> ~ In b (l ++ l') -> NoDup (l ++ b :: l').
Proof.
  rewrite !NoDup_app, !NoDup_cons. intros (Hl & Hdisj & Ha & Hl') Hb.
  split; [exact Hl|]. split.
  - intros x Hx [-> | Hx']%elem_of_cons.
    + apply Hb. apply in_or_app. left. apply list_elem_of_In. exact Hx.
    + apply (Hdisj x Hx). apply elem_of_cons. right. exact Hx'.
  - split; [|exact Hl'].
    intros Hin. apply Hb. apply in_or_app. right. apply list_elem_of_In. exact Hin.
Qed.

Section UserUpdateFacts.
Context {U : UserPkg}.

Lemma Update_DuplicateEmail (m : MongoUser.userRepo) usr :
  unique_emails m ->
  user.ID usr <> "" ->
  user_ValidEmail (user.Email usr) = true ->
  (exists d, In d m /\ MongoUser.ID d = user.ID usr) ->
  (exists d, In d m /\ MongoUser.Email d = user.Email usr /\
             MongoUser.ID d <> user.ID usr) ->
  MongoUser.Update m usr = (Some user_ErrorDuplicateEmail, m).
Proof.
  intros Huniq Hne Hgood (d0 & Hd0 & Hid0) (d & Hd & Hmail & Hother).
  unfold MongoUser.Update. apply String.eqb_neq in Hne. rewrite Hne, Hgood. cbn [negb].
  destruct (mongo_user_has_id _ _ _ Hd0 Hid0) as (d0' & -> & _).
  destruct (mongo_user_has_email _ _ _ Hd Hmail) as (d' & -> & Hd' & Hmail').
  assert (d' = d) as ->.
  { apply (NoDup_map_same MongoUser.Email m); auto. congruence. }
  apply String.eqb_neq in Hother. rewrite Hother. reflexivity.
Qed.

Lemma Update_Some (m m' : MongoUser.userRepo) usr e :
  MongoUser.Update m usr = (Some e, m') -> m' = m.
Proof.
  unfold MongoUser.Update.
  destruct (String.eqb (user.ID usr) ""); [intros [= _ <-]; reflexivity|].
  destruct (negb _); [intros [= _ <-]; reflexivity|].
  destruct (find_one (MongoUser.sel_id (user.ID usr)) m) as [d | e0] eqn:Hid.
  - destruct (find_one (MongoUser.sel_email (user.Email usr)) m) as [d2 | e0] eqn:Hmail.
    + destruct (negb _); [intros [= _ <-]; reflexivity|]. apply update_one_Some.
    + destruct (find_one_Err _ _ _ Hmail) as [-> _]. apply update_one_Some.
  - destruct (find_one_Err _ _ _ Hid) as [-> _]. intros [= _ <-]. reflexivity.
Qed.

(** A successful [Update] replaces the document of the user's ID, and the
    new email is held by no other document or by one with the same ID. *)
Lemma Update_None (m m' : MongoUser.userRepo) usr :
  MongoUser.Update m usr = (None, m') ->
  exists pre d post,
    m = pre ++ d :: post /\ MongoUser.ID d = user.ID usr /\
    m' = pre ++ MongoUser.marshal (MongoUser.newUserModel usr) :: post /\
    ((forall x, In x m -> MongoUser.Email x <> user.Email usr) \/
     (exists d2, In d2 m /\ MongoUser.Email d2 = user.Email usr /\
                 MongoUser.ID d2 = user.ID usr)).
Proof.
  unfold MongoUser.Update.
  destruct (String.eqb (user.ID usr) ""); [discriminate|].
  destruct (negb _); [discriminate|].
  destruct (find_one (MongoUser.sel_id (user.ID usr)) m) as [d0 | e0] eqn:Hid.
  2:{ destruct (find_one_Err _ _ _ Hid) as [-> _]. discriminate. }
  assert (Hsplit : forall m',
            update_one (MongoUser.sel_id (user.ID usr))
              (fun _ => MongoUser.marshal (MongoUser.newUserModel usr)) m = (None, m') ->
            exists pre d post, m = pre ++ d :: post /\ MongoUser.ID d = user.ID usr /\
              m' = pre ++ MongoUser.marshal (MongoUser.newUserModel usr) :: post).
  { intros m0 Hu. destruct (update_one_split _ _ _ _ Hu) as (pre & d & post & Hm & Hf & ->).
    exists pre, d, post. repeat split; [exact Hm|].
    destruct (find_one_Ok _ _ _ Hf) as [Hs _]. apply bool_decide_eq_true in Hs. exact Hs. }
  destruct (find_one (MongoUser.sel_email (user.Email usr)) m) as [d2 | e0] eqn:Hmail.
  - destruct (String.eqb (MongoUser.ID d2) (user.ID usr)) eqn:Hd2; [|discriminate].
    cbn [negb]. intros Hu. destruct (Hsplit _ Hu) as (pre & d & post & Hm & Hd & ->).
    exists pre, d, post. repeat split; try assumption. right.
    destruct (find_one_Ok _ _ _ Hmail) as [Hs Hin]. apply bool_decide_eq_true in Hs.
    apply String.eqb_eq in Hd2. eauto.
  - destruct (find_one_Err _ _ _ Hmail) as [-> Hall].
    intros Hu. destruct (Hsplit _ Hu) as (pre & d & post & Hm & Hd & ->).
    exists pre, d, post. repeat split; try assumption. left.
    intros x Hx. specialize (Hall x Hx). apply bool_decide_eq_false in Hall. exact Hall.
Qed.

(** [Create] keeps IDs and emails unique. *)
Lemma Create_preserves_uniqueness (m m' : MongoUser.userRepo) usr e :
  unique_ids m -> unique_emails m ->
  MongoUser.Create m usr = (e, m') ->
  unique_ids m' /\ unique_emails m'.
Proof.
  intros Hids Hmails HC. destruct e as [e|].
  - rewrite (Create_Some _ _ _ _ HC). auto.
  - destruct (Create_None _ _ _ HC) as (-> & Hfid & Hfmail & _).
    unfold unique_ids, unique_emails in *. rewrite !map_app. cbn [map].
    rewrite marshal_newUserModel_ID, marshal_newUserModel_Email.
    split.
    + rewrite NoDup_app. split; [exact Hids|]. split; [|apply NoDup_singleton].
      intros x Hx [-> | []%elem_of_nil]%elem_of_cons.
      apply list_elem_of_In, in_map_iff in Hx. destruct Hx as (d & Hd & Hin).
      apply (Hfid d Hin Hd).
    + rewrite NoDup_app. split; [exact Hmails|]. split; [|apply NoDup_singleton].
      intros x Hx [-> | []%elem_of_nil]%elem_of_cons.
      apply list_elem_of_In, in_map_iff in Hx. destruct Hx as (d & Hd & Hin).
      apply (Hfmail d Hin Hd).
Qed.

(** [Update] keeps IDs and emails unique. *)
Lemma Update_preserves_uniqueness (m m' : MongoUser.userRepo) usr e :
  unique_ids m -> unique_emails m ->
  MongoUser.Update m usr = (e, m') ->
  unique_ids m' /\ unique_emails m'.
Proof.
  intros Hids Hmails HU. destruct e as [e|].
  - rewrite (Update_Some _ _ _ _ HU). auto.
  - destruct (Update_None _ _ _ HU) as (pre & d & post & -> & Hd & -> & Hmail).
    unfold unique_ids, unique_emails in *. rewrite !map_app in *. cbn [map] in *.
    rewrite marshal_newUserModel_ID, marshal_newUserModel_Email.
    split; [rewrite <- Hd; exact Hids|].
    destruct Hmail as [Hnone | (d2 & Hin2 & Hmail2 & Hid2)].
    + eapply NoDup_replace; [exact Hmails|].
      rewrite <- map_app. intros (x & Hx & Hin)%in_map_iff.
      apply (Hnone x); [|exact Hx].
      apply in_app_or in Hin. apply in_or_app. destruct Hin; [left | right; right]; auto.
    + assert (d2 = d) as ->.
      { apply (NoDup_map_same MongoUser.ID (pre ++ d :: post)).
        - rewrite map_app. exact Hids.
        - exact Hin2.
        - apply in_or_app. right. left. reflexivity.
        - congruence. }
      rewrite <- Hmail2. exact Hmails.
Qed.

End UserUpdateFacts.

(** ** Claim C9 *)

(** C9.  On a user collection whose IDs and emails are unique:
    - [Create] and [Update], whatever they return, leave IDs and emails
      unique;
    - [Create] fails with [DuplicateID] when a stored user has the ID, with
      [InvalidEmail] when the ID is free and the email is not valid, with
      [DuplicateEmail] when the ID is free, the email valid and held by a
      stored user;
    - [Update] of a stored user fails with [DuplicateEmail] when the new
      email is held by a user with another ID;
    - after a successful [Create], a second [Create] with the same email
      and another ID fails with [DuplicateEmail]. *)
Theorem user_store_keeps_ids_and_emails_unique {U : UserPkg} (m : MongoUser.userRepo)
    (Hids : unique_ids m) (Hmails : unique_emails m) :
  (forall usr e m', MongoUser.Create m usr = (e, m') -> unique_ids m' /\ unique_emails m') /\
  (forall usr e m', MongoUser.Update m usr = (e, m') -> unique_ids m' /\ unique_emails m') /\
  (forall usr,
      user.ID usr <> "" ->
      (exists d, In d m /\ MongoUser.ID d = user.ID usr) ->
      MongoUser.Create m usr = (Some user_ErrorDuplicateID, m)) /\
  (forall usr,
      user.ID usr <> "" ->
      (forall d, In d m -> MongoUser.ID d <> user.ID usr) ->
      user_ValidEmail (user.Email usr) = false ->
      MongoUser.Create m usr = (Some user_ErrorInvalidEmail, m)) /\
  (forall usr,
      user.ID usr <> "" ->
      (forall d, In d m -> MongoUser.ID d <> user.ID usr) ->
      user_ValidEmail (user.Email usr) = true ->
      (exists d, In d m /\ MongoUser.Email d = user.Email usr) ->
      MongoUser.Create m usr = (Some user_ErrorDuplicateEmail, m)) /\
  (forall usr,
      user.ID usr <> "" ->
      user_ValidEmail (user.Email usr) = true ->
      (exists d, In d m /\ MongoUser.ID d = user.ID usr) ->
      (exists d, In d m /\ MongoUser.Email d = user.Email usr /\
                 MongoUser.ID d <> user.ID usr) ->
      MongoUser.Update m usr = (Some user_ErrorDuplicateEmail, m)) /\
  (forall u1 u2 m1,
      MongoUser.Create m u1 = (None, m1) ->
      user.Email u2 = user.Email u1 ->
      user.ID u2 <> "" -> user.ID u2 <> user.ID u1 ->
      (forall d, In d m -> MongoUser.ID d <> user.ID u2) ->
      MongoUser.Create m1 u2 = (Some user_ErrorDuplicateEmail, m1)).
Proof.
  split; [intros usr e m'; apply Create_preserves_uniqueness; assumption|].
  split; [intros usr e m'; apply Update_preserves_uniqueness; assumption|].
  split; [intros usr; apply Create_DuplicateID|].
  split; [intros usr; apply Create_InvalidEmail|].
  split; [intros usr; apply Create_DuplicateEmail|].
  split; [intros usr; apply Update_DuplicateEmail; assumption|].
  intros u1 u2 m1 HC Hmail Hne Hother Hfresh.
  destruct (Create_None _ _ _ HC) as (-> & _ & _ & Hvalid).
  apply Create_DuplicateEmail.
  - exact Hne.
  - intros d [Hd | [<- | []]]%in_app_or.
    + apply Hfresh. exact Hd.
    + rewrite marshal_newUserModel_ID. congruence.
  - rewrite Hmail. exact Hvalid.
  - exists (MongoUser.marshal (MongoUser.newUserModel u1)). split.
    + apply in_or_app. right. left. reflexivity.
    + rewrite marshal_newUserModel_Email. congruence.
Qed.

(** The theorem at the collection of Alice and Bob: Mallory, who claims
    Alice's address under a new ID, is refused; so is Bob when he changes
    his address to Alice's. *)
Lemma user_store_keeps_ids_and_emails_unique_witness :
  unique_ids mongo_users /\ unique_emails mongo_users /\
  @MongoUser.Create at_sign_email mongo_users mallory
    = (Some user_ErrorDuplicateEmail, mongo_users) /\
  @MongoUser.Update at_sign_email mongo_users
      {| user.ID := "u3"; user.DisplayName := "Bob"; user.Email := "alice@example.com";
         user.EmailVerified := false; user.Admin := false; user.Disabled := false;
         user.CreatedAt := t0 |}
    = (Some user_ErrorDuplicateEmail, mongo_users).
Proof.
  assert (H1 : unique_ids mongo_users)
    by (apply (bool_decide_unpack _); vm_compute; exact I).
  assert (H2 : unique_emails mongo_users)
    by (apply (bool_decide_unpack _); vm_compute; exact I).
  destruct (@user_store_keeps_ids_and_emails_unique at_sign_email mongo_users H1 H2)
    as (_ & _ & _ & _ & HC & HU & _).
  split; [exact H1|]. split; [exact H2|]. split.
  - apply HC.
    + discriminate.
    + intros d Hd. vm_compute in Hd. destruct Hd as [<- | [<- | []]]; discriminate.
    + vm_compute. reflexivity.
    + eexists. split; [left; reflexivity | reflexivity].
  - apply HU.
    + discriminate.
    + vm_compute. reflexivity.
    + eexists. split; [right; left; reflexivity | reflexivity].
    + eexists. split; [left; reflexivity | split; [reflexivity | discriminate]].
Defined.

(** ** Private key sets *)

Section KeyFacts.
Context {K : KeyPkg} {P : Pcrypto}.

(** One turn of the loop of [Get] is one attempt. *)
Lemma Get_loop_cons useOldFormat value secret rest pks err :
  Get_loop useOldFormat value (secret :: rest) pks err
  = match attempt useOldFormat value secret with
    | Ok p => (Some p, None)
    | Err e =>
        Get_loop useOldFormat value rest
          (match (if useOldFormat then pcrypto_AESDecrypt value secret
                  else pcrypto_Decrypt value secret) with
           | Ok j => match json_Unmarshal_privateKeySetModel j with
                     | Ok _ => None
                     | Err _ => pks
                     end
           | Err _ => pks
           end) (Some e)
    end.
Proof.
  cbn [Get_loop]. unfold attempt.
  destruct (if useOldFormat then _ else _) as [j | e]; [|reflexivity].
  destruct (json_Unmarshal_privateKeySetModel j) as [m | e]; [|reflexivity].
  destruct (privateKeySetModel_PrivateKeySet m); reflexivity.
Qed.

(** The loop returns the first success of the secrets, in their order. *)
Lemma Get_loop_first_success useOldFormat value secrets p :
  first_success useOldFormat value secrets = Some p ->
  forall pks err, Get_loop useOldFormat value secrets pks err = (Some p, None).
Proof.
  induction secrets as [|secret rest IH]; [discriminate|].
  cbn [first_success]. intros H pks err. rewrite Get_loop_cons.
  destruct (attempt useOldFormat value secret) as [p' | e].
  - injection H as ->. reflexivity.
  - apply IH. exact H.
Qed.

(** When no secret succeeds, and there is one at least, the loop ends with
    an error. *)
Lemma Get_loop_no_success useOldFormat value secrets :
  first_success useOldFormat value secrets = None ->
  secrets <> [] ->
  forall pks err, exists pks' e, Get_loop useOldFormat value secrets pks err = (pks', Some e).
Proof.
  induction secrets as [|secret rest IH]; [congruence|].
  cbn [first_success]. intros H _ pks err. rewrite Get_loop_cons.
  destruct (attempt useOldFormat value secret) as [p' | e]; [discriminate|].
  destruct rest as [|secret' rest'].
  - cbn [Get_loop]. eauto.
  - apply IH; [exact H | discriminate].
Qed.

(** [Get], on etcd, once the key file is read. *)
Lemma etcd_Get_stored_blob (r : EtcdKey.PrivateKeySetRepo) value :
  kAPI (EtcdKey.driver r) !! EtcdKey.path r = Some value ->
  EtcdKey.Get r
  = match first_success (EtcdKey.useOldFormat r) value (EtcdKey.secrets r) with
    | Some p => Ok (KeySet_Private (Some p))
    | None =>
        match EtcdKey.secrets r with
        | [] => Ok (KeySet_Private None)
        | _ :: _ => Err db_ErrorCannotDecryptKeys
        end
    end.
Proof.
  intros H. unfold EtcdKey.Get, kAPI_Get. rewrite H. cbn [Node].
  destruct (first_success _ value _) as [p|] eqn:Hf.
  - rewrite (Get_loop_first_success _ _ _ _ Hf). reflexivity.
  - destruct (EtcdKey.secrets r) as [|s rest] eqn:Hs; [reflexivity|].
    destruct (Get_loop_no_success _ _ _ Hf ltac:(discriminate) None None) as (pks' & e & ->).
    reflexivity.
Qed.

Lemma etcd_Get_empty (r : EtcdKey.PrivateKeySetRepo) :
  kAPI (EtcdKey.driver r) !! EtcdKey.path r = None ->
  EtcdKey.Get r = Err key_ErrorNoKeys.
Proof. intros H. unfold EtcdKey.Get, kAPI_Get. rewrite H. reflexivity. Qed.

(** [Get], on MongoDB, once the first blob is read. *)
Lemma mongo_Get_stored_blob (r : MongoKey.mongoPrivateKeySetRepo) b rest :
  MongoKey.driver r = b :: rest ->
  MongoKey.Get r
  = match first_success (MongoKey.useOldFormat r) (MongoKey.Value b) (MongoKey.secrets r) with
    | Some p => Ok (KeySet_Private (Some p))
    | None =>
        match MongoKey.secrets r with
        | [] => Ok (KeySet_Private None)
        | _ :: _ => Err db_ErrorCannotDecryptKeys
        end
    end.
Proof.
  intros H. unfold MongoKey.Get. rewrite H.
  destruct (first_success _ _ _) as [p|] eqn:Hf.
  - rewrite (Get_loop_first_success _ _ _ _ Hf). reflexivity.
  - destruct (MongoKey.secrets r) as [|s rest'] eqn:Hs; [reflexivity|].
    destruct (Get_loop_no_success _ _ _ Hf ltac:(discriminate) None None) as (pks' & e & ->).
    reflexivity.
Qed.

Lemma mongo_Get_empty (r : MongoKey.mongoPrivateKeySetRepo) :
  MongoKey.driver r = [] -> MongoKey.Get r = Err key_ErrorNoKeys.
Proof. intros H. unfold MongoKey.Get. rewrite H. reflexivity. Qed.

End KeyFacts.

Section KeyRotationFacts.
Context {K : KeyPkg} {P : Pcrypto}.

(** A successful [Set] on etcd leaves, in the key file, the persisted form
    of the key set sealed under the first secret. *)
Lemma etcd_Set_stores (r r' : EtcdKey.PrivateKeySetRepo) nonce pks :
  EtcdKey.Set_ r nonce (KeySet_Private (Some pks)) = (None, r') ->
  exists j secret v,
    json_Marshal_privateKeySetModel (newPrivateKeySetModel pks) = Ok j /\
    active (EtcdKey.secrets r) = Ok secret /\
    seal (EtcdKey.useOldFormat r) nonce j secret = Ok v /\
    kAPI (EtcdKey.driver r') !! EtcdKey.path r = Some v /\
    EtcdKey.path r' = EtcdKey.path r /\
    EtcdKey.useOldFormat r' = EtcdKey.useOldFormat r /\
    EtcdKey.secrets r' = EtcdKey.secrets r.
Proof.
  unfold EtcdKey.Set_. cbv zeta.
  destruct (json_Marshal_privateKeySetModel _) as [j | e]; [|discriminate].
  cbn [EtcdKey.secrets EtcdKey.with_driver EtcdKey.useOldFormat].
  destruct (active (EtcdKey.secrets r)) as [secret | e]; [|discriminate].
  fold (seal (EtcdKey.useOldFormat r) nonce j secret).
  destruct (seal (EtcdKey.useOldFormat r) nonce j secret) as [v | e] eqn:Hseal;
    [|discriminate].
  unfold kAPI_Set. cbn [EtcdKey.driver EtcdKey.with_driver kAPI with_kAPI].
  set (p := EtcdKey.path (EtcdKey.with_driver r _)).
  assert (Hp : p = EtcdKey.path r) by reflexivity.
  intros [= <-]. exists j, secret, v.
  cbn [EtcdKey.driver EtcdKey.with_driver kAPI with_kAPI].
  rewrite <- Hp. repeat split; [exact Hseal|]. apply lookup_insert_eq.
Qed.

(** A successful [Set] on MongoDB leaves that blob as the only document. *)
Lemma mongo_Set_stores (r r' : MongoKey.mongoPrivateKeySetRepo) nonce pks :
  MongoKey.Set_ r nonce (KeySet_Private (Some pks)) = (None, r') ->
  exists j secret v,
    json_Marshal_privateKeySetModel (newPrivateKeySetModel pks) = Ok j /\
    active (MongoKey.secrets r) = Ok secret /\
    seal (MongoKey.useOldFormat r) nonce j secret = Ok v /\
    MongoKey.driver r' = [{| MongoKey.Value := v |}] /\
    MongoKey.useOldFormat r' = MongoKey.useOldFormat r /\
    MongoKey.secrets r' = MongoKey.secrets r.
Proof.
  unfold MongoKey.Set_. cbv zeta.
  destruct (json_Marshal_privateKeySetModel _) as [j | e]; [|discriminate].
  cbn [MongoKey.secrets MongoKey.with_driver MongoKey.useOldFormat MongoKey.driver].
  destruct (active (MongoKey.secrets r)) as [secret | e]; [|discriminate].
  fold (seal (MongoKey.useOldFormat r) nonce j secret).
  destruct (seal (MongoKey.useOldFormat r) nonce j secret) as [v | e] eqn:Hseal;
    [|discriminate].
  intros [= <-]. exists j, secret, v. repeat split. exact Hseal.
Qed.

(** The attempt under the secret of encryption gives the key set back. *)
Lemma attempt_right_secret useOldFormat nonce j secret v pks :
  cipher_sound -> survives_serialization pks ->
  json_Marshal_privateKeySetModel (newPrivateKeySetModel pks) = Ok j ->
  seal useOldFormat nonce j secret = Ok v ->
  attempt useOldFormat v secret = Ok pks.
Proof.
  intros Hsound Hpks Hj Hv. unfold attempt. rewrite (Hsound _ _ _ _ _ Hv).
  destruct (Hpks j Hj) as (m & -> & Hm). exact Hm.
Qed.

(** Written under [A], the blob opens under the list [B; A]. *)
Lemma first_success_rotated useOldFormat (nonce j A B v : bytes) pks :
  cipher_sound -> cipher_authentic -> survives_serialization pks ->
  length A = 32%nat -> length B = 32%nat ->
  json_Marshal_privateKeySetModel (newPrivateKeySetModel pks) = Ok j ->
  seal useOldFormat nonce j A = Ok v ->
  first_success useOldFormat v [B; A] = Some pks.
Proof.
  intros Hsound Hauth Hpks HA HB Hj Hv. cbn [first_success].
  pose proof (attempt_right_secret _ _ _ _ _ _ Hsound Hpks Hj Hv) as HattA.
  destruct (decide (B = A)) as [-> | Hne].
  - rewrite HattA. reflexivity.
  - destruct (Hauth _ _ _ _ _ _ HA HB Hne Hv) as [e ->]. rewrite HattA. reflexivity.
Qed.

(** Under the list [C] alone, [C] another secret, it does not open. *)
Lemma first_success_foreign useOldFormat (nonce j A C v : bytes) :
  cipher_authentic ->
  length A = 32%nat -> length C = 32%nat -> C <> A ->
  seal useOldFormat nonce j A = Ok v ->
  first_success useOldFormat v [C] = None.
Proof.
  intros Hauth HA HC Hne Hv. cbn [first_success].
  destruct (Hauth _ _ _ _ _ _ HA HC Hne Hv) as [e ->]. reflexivity.
Qed.

End KeyRotationFacts.

(** ** Claim C5 *)


(** The stand-in cipher has the two properties. *)
Lemma envelope_cipher_sound : @cipher_sound envelope_cipher.
Proof.
  intros useOldFormat nonce j secret v. unfold seal.
  destruct useOldFormat; cbn; intros [= <-]; unfold envelope_open;
    rewrite take_app_length, drop_app_length, bool_decide_eq_true_2; reflexivity.
Qed.

Lemma envelope_cipher_authentic {K : KeyPkg} : @cipher_authentic K envelope_cipher.
Proof.
  intros useOldFormat nonce j secret secret' v Hs Hs' Hne. unfold seal, attempt.
  assert (Hopen : envelope_open (secret ++ j) secret'
                  = Err (errors_New "cipher: message authentication failed")).
  { unfold envelope_open. rewrite bool_decide_eq_false_2; [reflexivity|].
    rewrite Hs', <- Hs, take_app_length. congruence. }
  destruct useOldFormat; cbn; intros [= <-]; rewrite Hopen; eauto.
Qed.


(** ** Refresh tokens *)

Section RefreshFacts.
Context {B : Bcrypt} {TF : TokenFormat}.

(** On MongoDB, when the insertion fails, [Create] returns the empty token
    and no error; the store is as it was. *)
Lemma mongo_Create_insert_fails (r : MongoRefresh.refreshTokenRepo)
    userID clientID payload salt newID hash old :
  userID <> "" -> clientID <> "" ->
  bcrypt_GenerateFromPassword salt payload bcrypt_DefaultCost = Ok hash ->
  find_one (MongoRefresh.sel_id newID) r = Ok old ->
  MongoRefresh.Create r userID clientID (Ok payload) salt newID = (Ok "", r).
Proof.
  intros Hu Hc Hh Hold. unfold MongoRefresh.Create, insert_one.
  apply String.eqb_neq in Hu, Hc. rewrite Hu, Hc, Hh.
  cbn [MongoRefresh.ID].
  change (fun d' : MongoRefresh.refreshTokenModel => bool_decide (MongoRefresh.ID d' = newID))
    with (MongoRefresh.sel_id newID).
  rewrite Hold. reflexivity.
Qed.

(** On etcd the same failure is returned as an error. *)
Lemma etcd_Create_insert_fails (r : EtcdRefresh.refreshTokenRepo)
    userID clientID payload salt newID hash old :
  userID <> "" -> clientID <> "" ->
  bcrypt_GenerateFromPassword salt payload bcrypt_DefaultCost = Ok hash ->
  kAPI r !! EtcdRefresh.key r newID = Some old ->
  EtcdRefresh.Create r userID clientID (Ok payload) salt newID
  = (Err (etcdclient_Error ErrorCodeNodeExist), r).
Proof.
  intros Hu Hc Hh Hold. unfold EtcdRefresh.Create, EtcdRefresh.insert, kAPI_Create, kAPI_Set.
  apply String.eqb_neq in Hu, Hc. rewrite Hu, Hc, Hh.
  cbn [EtcdRefresh.ID]. rewrite Hold, with_kAPI_same. reflexivity.
Qed.

(** The empty token is no token: it has no delimiter, whatever the
    delimiter is. *)
Lemma mongo_parseToken_empty :
  refresh_TokenDelimer <> "" ->
  MongoRefresh.parseToken "" = Err refresh_ErrorInvalidToken.
Proof.
  intros Hd. unfold MongoRefresh.parseToken, strings_SplitN2.
  destruct refresh_TokenDelimer; [congruence | reflexivity].
Qed.

Lemma mongo_Verify_empty (r : MongoRefresh.refreshTokenRepo) clientID :
  refresh_TokenDelimer <> "" ->
  MongoRefresh.Verify r clientID "" = Err refresh_ErrorInvalidToken.
Proof. intros Hd. unfold MongoRefresh.Verify. rewrite (mongo_parseToken_empty Hd). reflexivity. Qed.

Lemma mongo_Revoke_empty (r : MongoRefresh.refreshTokenRepo) userID :
  refresh_TokenDelimer <> "" ->
  MongoRefresh.Revoke r userID "" = (Some refresh_ErrorInvalidToken, r).
Proof. intros Hd. unfold MongoRefresh.Revoke. rewrite (mongo_parseToken_empty Hd). reflexivity. Qed.

End RefreshFacts.

(** ** Claim C3 *)

(** C3, at the failing input.  On MongoDB, [Create] for user [u1] and
    client [client1] draws an object ID that the collection already holds:
    the insertion fails, and [Create] returns the empty token with a nil
    error.  [Verify] of that token for the client returns [InvalidToken],
    not [u1].  On etcd the same collision makes [Create] fail. *)
Theorem mongo_Create_returns_unverifiable_token :
  @MongoRefresh.Create clear_bcrypt hex_tokens mongo_tokens "u1" "client1"
      (Ok sample_payload) sample_salt sample_token_id = (Ok "", mongo_tokens) /\
  @MongoRefresh.Verify clear_bcrypt hex_tokens mongo_tokens "client1" ""
    = Err refresh_ErrorInvalidToken /\
  @EtcdRefresh.Create clear_bcrypt hex_tokens etcd_tokens "u1" "client1"
      (Ok sample_payload) sample_salt sample_token_id
    = (Err (etcdclient_Error ErrorCodeNodeExist), etcd_tokens).
Proof. repeat split; vm_compute; reflexivity. Qed.

(** ** Claim C4 *)

(** C4, at the failing input: the token of the same call of [Create].
    [Revoke] of it by its user fails with [InvalidToken] the first time
    already, and by another user it fails with [InvalidToken] instead of
    [InvalidUserID]. *)
Theorem mongo_Revoke_of_created_token_fails :
  fst (@MongoRefresh.Create clear_bcrypt hex_tokens mongo_tokens "u1" "client1"
         (Ok sample_payload) sample_salt sample_token_id) = Ok "" /\
  @MongoRefresh.Revoke clear_bcrypt hex_tokens mongo_tokens "u1" ""
    = (Some refresh_ErrorInvalidToken, mongo_tokens) /\
  @MongoRefresh.Revoke clear_bcrypt hex_tokens mongo_tokens "u2" ""
    = (Some refresh_ErrorInvalidToken, mongo_tokens).
Proof. repeat split; vm_compute; reflexivity. Qed.

(** ** [base64.URLEncoding]: decoding an encoding *)

(** The 64 characters of the alphabet decode to their index, and none is
    the padding or a line break. *)
Lemma b64_char_value_table :
  forallb (fun i => let n := N.of_nat i in
             match b64_value (b64_char n) with
             | Some m => N.eqb m n
             | None => false
             end && negb (Ascii.eqb (b64_char n) b64_pad) && negb (is_newline (b64_char n)))
          (seq 0 64) = true.
Proof. vm_compute. reflexivity. Qed.

Lemma b64_char_facts (n : N) :
  (n < 64)%N ->
  b64_value (b64_char n) = Some n /\
  Ascii.eqb (b64_char n) b64_pad = false /\
  is_newline (b64_char n) = false.
Proof.
  intros Hn. pose proof b64_char_value_table as H.
  rewrite forallb_forall in H.
  specialize (H (N.to_nat n)). rewrite N2Nat.id in H.
  assert (Hin : In (N.to_nat n) (seq 0 64)) by (apply in_seq; lia).
  specialize (H Hin). cbv zeta in H.
  apply andb_true_iff in H. destruct H as [H Hnl].
  apply andb_true_iff in H. destruct H as [Hv Hp].
  destruct (b64_value (b64_char n)) as [m|]; [|discriminate].
  apply N.eqb_eq in Hv. subst m.
  apply negb_true_iff in Hp, Hnl. auto.
Qed.

Lemma byte_of_to_N (x : byte) : byte_of_N (Byte.to_N x) = x.
Proof.
  unfold byte_of_N. pose proof (Byte.to_N_bounded x).
  rewrite N.mod_small by lia. rewrite Byte.of_to_N. reflexivity.
Qed.


Lemma sextets (n m k : N) :
  (n < 256 -> m < 256 -> k < 256 ->
   n / 4 < 64 /\ n mod 4 * 16 + m / 16 < 64 /\ m mod 16 * 4 + k / 64 < 64 /\ k mod 64 < 64 /\
   n mod 4 * 16 < 64 /\ m mod 16 * 4 < 64 /\
   n / 4 * 4 + (n mod 4 * 16 + m / 16) / 16 = n /\
   (n mod 4 * 16 + m / 16) mod 16 * 16 + (m mod 16 * 4 + k / 64) / 4 = m /\
   (m mod 16 * 4 + k / 64) mod 4 * 64 + k mod 64 = k /\
   n / 4 * 4 + (n mod 4 * 16) / 16 = n /\
   (n mod 4 * 16 + m / 16) mod 16 * 16 + (m mod 16 * 4) / 4 = m)%N.
Proof. intros. repeat split; zify; Z.to_euclidean_division_equations; lia. Qed.

Lemma b64_decode_encode_le (n : nat) :
  forall b : bytes, (length b <= n)%nat -> b64_decode (b64_encode b) = Some b.
Proof.
  induction n as [|n IH]; intros b Hlen.
  - destruct b; [reflexivity | simpl in Hlen; lia].
  - destruct b as [|x [|y [|z rest]]].
    + reflexivity.
    + pose proof (Byte.to_N_bounded x) as Hx.
      destruct (sextets (Byte.to_N x) 0 0) as (H1 & _ & _ & _ & H2 & _ & _ & _ & _ & Hb1 & _);
        [lia | lia | lia |].
      destruct (b64_char_facts _ H1) as (V1 & P1 & _).
      destruct (b64_char_facts _ H2) as (V2 & P2 & _).
      cbn [b64_encode b64_decode]. rewrite V1, V2, !Ascii.eqb_refl, Hb1, byte_of_to_N.
      reflexivity.
    + pose proof (Byte.to_N_bounded x) as Hx. pose proof (Byte.to_N_bounded y) as Hy.
      destruct (sextets (Byte.to_N x) (Byte.to_N y) 0)
        as (H1 & H2 & _ & _ & _ & H3 & Hb1 & _ & _ & _ & Hb2); [lia | lia | lia |].
      destruct (b64_char_facts _ H1) as (V1 & P1 & _).
      destruct (b64_char_facts _ H2) as (V2 & P2 & _).
      destruct (b64_char_facts _ H3) as (V3 & P3 & _).
      cbn [b64_encode b64_decode]. rewrite V1, V2, P3, V3, Ascii.eqb_refl, Hb1, Hb2.
      rewrite !byte_of_to_N. reflexivity.
    + pose proof (Byte.to_N_bounded x) as Hx. pose proof (Byte.to_N_bounded y) as Hy.
      pose proof (Byte.to_N_bounded z) as Hz.
      destruct (sextets (Byte.to_N x) (Byte.to_N y) (Byte.to_N z))
        as (H1 & H2 & H3 & H4 & _ & _ & Hb1 & Hb2 & Hb3 & _ & _); [lia | lia | lia |].
      destruct (b64_char_facts _ H1) as (V1 & P1 & _).
      destruct (b64_char_facts _ H2) as (V2 & P2 & _).
      destruct (b64_char_facts _ H3) as (V3 & P3 & _).
      destruct (b64_char_facts _ H4) as (V4 & P4 & _).
      cbn [b64_encode]. cbn [app b64_decode].
      rewrite V1, V2, P3, V3, P4, V4, Hb1, Hb2, Hb3, !byte_of_to_N.
      rewrite IH by (simpl in Hlen; lia). reflexivity.
Qed.

Lemma b64_encode_no_newline (b : bytes) :
  List.filter (fun c => negb (is_newline c)) (b64_encode b) = b64_encode b.
Proof.
  assert (Hpad : is_newline b64_pad = false) by reflexivity.
  assert (Hlt : forall n : nat, forall b : bytes, (length b <= n)%nat ->
            List.filter (fun c => negb (is_newline c)) (b64_encode b) = b64_encode b).
  { clear b. induction n as [|n IH]; intros b Hlen.
    - destruct b; [reflexivity | simpl in Hlen; lia].
    - destruct b as [|x [|y [|z rest]]].
      + reflexivity.
      + pose proof (Byte.to_N_bounded x) as Hx.
        destruct (sextets (Byte.to_N x) 0 0) as (H1 & _ & _ & _ & H2 & _); [lia | lia | lia |].
        destruct (b64_char_facts _ H1) as (_ & _ & N1).
        destruct (b64_char_facts _ H2) as (_ & _ & N2).
        cbn [b64_encode List.filter]. rewrite N1, N2, Hpad. reflexivity.
      + pose proof (Byte.to_N_bounded x) as Hx. pose proof (Byte.to_N_bounded y) as Hy.
        destruct (sextets (Byte.to_N x) (Byte.to_N y) 0)
          as (H1 & H2 & _ & _ & _ & H3 & _); [lia | lia | lia |].
        destruct (b64_char_facts _ H1) as (_ & _ & N1).
        destruct (b64_char_facts _ H2) as (_ & _ & N2).
        destruct (b64_char_facts _ H3) as (_ & _ & N3).
        cbn [b64_encode List.filter]. rewrite N1, N2, N3, Hpad. reflexivity.
      + pose proof (Byte.to_N_bounded x) as Hx. pose proof (Byte.to_N_bounded y) as Hy.
        pose proof (Byte.to_N_bounded z) as Hz.
        destruct (sextets (Byte.to_N x) (Byte.to_N y) (Byte.to_N z))
          as (H1 & H2 & H3 & H4 & _); [lia | lia | lia |].
        destruct (b64_char_facts _ H1) as (_ & _ & N1).
        destruct (b64_char_facts _ H2) as (_ & _ & N2).
        destruct (b64_char_facts _ H3) as (_ & _ & N3).
        destruct (b64_char_facts _ H4) as (_ & _ & N4).
        cbn [b64_encode]. cbn [app List.filter]. rewrite N1, N2, N3, N4. cbn [negb].
        rewrite IH by (simpl in Hlen; lia). reflexivity. }
  apply (Hlt (length b)). lia.
Qed.

(** Decoding the encoding of a byte slice gives the slice back. *)
Lemma base64_round_trip (b : bytes) :
  base64_DecodeString (base64_EncodeToString b) = Some b.
Proof.
  unfold base64_DecodeString, base64_EncodeToString.
  rewrite list_ascii_of_string_of_list_ascii, b64_encode_no_newline.
  apply (b64_decode_encode_le (length b)). lia.
Qed.

(** ** Refresh tokens: what holds when the record is stored *)

Lemma strings_Cut_delimiter id d enc :
  ~ In d (list_ascii_of_string id) ->
  strings_Cut (id +:+ String d EmptyString +:+ enc) (String d EmptyString)
  = Some (id, enc).
Proof.
  induction id as [|a id IH]; intros Hd.
  - change (strings_Cut (String d enc) (String d EmptyString) = Some (EmptyString, enc)).
    cbn [strings_Cut strip_prefix]. rewrite Ascii.eqb_refl.
    destruct enc; reflexivity.
  - cbn [list_ascii_of_string In] in Hd.
    change ((String a id) +:+ String d EmptyString +:+ enc)
      with (String a (id +:+ String d EmptyString +:+ enc)).
    cbn [strings_Cut strip_prefix].
    destruct (Ascii.eqb_spec d a) as [-> | Hne]; [exfalso; apply Hd; left; reflexivity|].
    rewrite IH by (intros H; apply Hd; right; exact H). reflexivity.
Qed.

Section RefreshRoundTrip.
Context {B : Bcrypt} {TF : TokenFormat}.

Lemma etcd_parseToken_buildToken id enc :
  delimiter_free id ->
  EtcdRefresh.parseToken (id +:+ refresh_TokenDelimer +:+ enc)
  = match base64_DecodeString enc with
    | Some p => Ok (id, p)
    | None => Err refresh_ErrorInvalidToken
    end.
Proof.
  intros (d & Hdel & Hfree). unfold EtcdRefresh.parseToken, strings_SplitN2.
  rewrite Hdel, (strings_Cut_delimiter _ _ _ Hfree). reflexivity.
Qed.

Lemma mongo_parseToken_buildToken (id : ObjectId) enc :
  delimiter_free (ObjectId_Hex id) ->
  bson_IsObjectIdHex (ObjectId_Hex id) = true ->
  bson_ObjectIdHex (ObjectId_Hex id) = id ->
  MongoRefresh.parseToken (ObjectId_Hex id +:+ refresh_TokenDelimer +:+ enc)
  = match base64_DecodeString enc with
    | Some p => Ok (id, p)
    | None => Err refresh_ErrorInvalidToken
    end.
Proof.
  intros (d & Hdel & Hfree) Hhex Hid. unfold MongoRefresh.parseToken, strings_SplitN2.
  rewrite Hdel, (strings_Cut_delimiter _ _ _ Hfree), Hhex, Hid. reflexivity.
Qed.

Lemma etcd_checkTokenPayload_same salt payload hash :
  bcrypt_sound ->
  bcrypt_GenerateFromPassword salt payload bcrypt_DefaultCost = Ok hash ->
  EtcdRefresh.checkTokenPayload hash payload = None.
Proof.
  intros Hs Hh. unfold EtcdRefresh.checkTokenPayload. rewrite (Hs _ _ _ _ Hh). reflexivity.
Qed.

Lemma etcd_checkTokenPayload_other salt payload hash payload' :
  bcrypt_binding ->
  bcrypt_GenerateFromPassword salt payload bcrypt_DefaultCost = Ok hash ->
  (length payload <= 72)%nat -> (length payload' <= 72)%nat -> payload' <> payload ->
  EtcdRefresh.checkTokenPayload hash payload' = Some refresh_ErrorInvalidToken.
Proof.
  intros Hb Hh Hl Hl' Hne. unfold EtcdRefresh.checkTokenPayload.
  rewrite (Hb _ _ _ _ _ Hh Hl Hl' Hne). reflexivity.
Qed.

End RefreshRoundTrip.

Section EtcdRefreshFacts.
Context {B : Bcrypt} {TF : TokenFormat}.

Lemma etcd_refresh_with_kAPI_key (r : EtcdRefresh.refreshTokenRepo) ks id :
  EtcdRefresh.key (with_kAPI r ks) id = EtcdRefresh.key r id.
Proof. reflexivity. Qed.

(** What a successful [Create] on etcd has done. *)
Lemma etcd_Create_stores (r r' : EtcdRefresh.refreshTokenRepo)
    userID clientID payload salt newID t :
  EtcdRefresh.Create r userID clientID (Ok payload) salt newID = (Ok t, r') ->
  exists hash,
    bcrypt_GenerateFromPassword salt payload bcrypt_DefaultCost = Ok hash /\
    t = EtcdRefresh.buildToken newID payload /\
    r' = with_kAPI r
           (<[EtcdRefresh.key r newID :=
                {| EtcdRefresh.ID := newID; EtcdRefresh.PayloadHash := hash;
                   EtcdRefresh.UserID := userID; EtcdRefresh.ClientID := clientID |}]>
              (kAPI r)).
Proof.
  unfold EtcdRefresh.Create, EtcdRefresh.insert, kAPI_Create, kAPI_Set.
  destruct (String.eqb userID ""); [discriminate|].
  destruct (String.eqb clientID ""); [discriminate|].
  destruct (bcrypt_GenerateFromPassword _ _ _) as [hash | e]; [|discriminate].
  cbn [EtcdRefresh.ID].
  destruct (kAPI r !! EtcdRefresh.key r newID); [discriminate|].
  intros [= <- <-]. exists hash. auto.
Qed.

Lemma etcd_get_stored (r : EtcdRefresh.refreshTokenRepo) id record :
  kAPI r !! EtcdRefresh.key r id = Some record -> EtcdRefresh.get r id = Ok record.
Proof. intros H. unfold EtcdRefresh.get, kAPI_Get. rewrite H. reflexivity. Qed.

Lemma etcd_get_absent (r : EtcdRefresh.refreshTokenRepo) id :
  kAPI r !! EtcdRefresh.key r id = None ->
  EtcdRefresh.get r id = Err refresh_ErrorInvalidToken.
Proof. intros H. unfold EtcdRefresh.get, kAPI_Get. rewrite H. reflexivity. Qed.

(** On etcd, the token of a successful [Create] verifies for its client
    and for no other, and not with a foreign payload. *)
Lemma etcd_Create_Verify (r r' : EtcdRefresh.refreshTokenRepo)
    userID clientID (payload salt : bytes) newID t :
  bcrypt_sound -> bcrypt_binding -> delimiter_free newID ->
  (length payload <= 72)%nat ->
  EtcdRefresh.Create r userID clientID (Ok payload) salt newID = (Ok t, r') ->
  EtcdRefresh.Verify r' clientID t = Ok userID /\
  (forall clientID', clientID' <> clientID ->
     EtcdRefresh.Verify r' clientID' t = Err refresh_ErrorInvalidClientID) /\
  (forall enc, foreign_payload payload enc ->
     EtcdRefresh.Verify r' clientID (newID +:+ refresh_TokenDelimer +:+ enc)
     = Err refresh_ErrorInvalidToken).
Proof.
  intros Hs Hb Hfree Hlen HC. pose proof (base64_round_trip payload) as H64.
  destruct (etcd_Create_stores _ _ _ _ _ _ _ _ HC) as (hash & Hh & -> & ->).
  set (record := {| EtcdRefresh.ID := newID |}).
  assert (Hget : EtcdRefresh.get (with_kAPI r (<[EtcdRefresh.key r newID := record]> (kAPI r)))
                   newID = Ok record).
  { apply etcd_get_stored. cbn [kAPI with_kAPI]. rewrite etcd_refresh_with_kAPI_key.
    apply lookup_insert_eq. }
  unfold EtcdRefresh.Verify, EtcdRefresh.buildToken.
  split; [|split].
  - rewrite (etcd_parseToken_buildToken _ _ Hfree), H64, Hget.
    cbn [EtcdRefresh.ClientID EtcdRefresh.PayloadHash EtcdRefresh.UserID record].
    rewrite String.eqb_refl. cbn [negb].
    rewrite (etcd_checkTokenPayload_same _ _ _ Hs Hh). reflexivity.
  - intros clientID' Hne.
    rewrite (etcd_parseToken_buildToken _ _ Hfree), H64, Hget.
    cbn [EtcdRefresh.ClientID record].
    apply not_eq_sym, String.eqb_neq in Hne. rewrite Hne. reflexivity.
  - intros enc Hforeign. unfold foreign_payload in Hforeign.
    rewrite (etcd_parseToken_buildToken _ _ Hfree).
    destruct (base64_DecodeString enc) as [payload'|]; [|reflexivity].
    destruct Hforeign as [Hne Hlen']. rewrite Hget.
    cbn [EtcdRefresh.ClientID EtcdRefresh.PayloadHash record].
    rewrite String.eqb_refl. cbn [negb].
    rewrite (etcd_checkTokenPayload_other _ _ _ _ Hb Hh Hlen Hlen' Hne). reflexivity.
Qed.

(** On etcd, the token of a successful [Create] is revoked by its user
    only, and once. *)
Lemma etcd_Create_Revoke (r r' : EtcdRefresh.refreshTokenRepo)
    userID clientID (payload salt : bytes) newID t :
  bcrypt_sound -> delimiter_free newID ->
  EtcdRefresh.Create r userID clientID (Ok payload) salt newID = (Ok t, r') ->
  (forall userID', userID' <> userID ->
     EtcdRefresh.Revoke r' userID' t = (Some refresh_ErrorInvalidUserID, r')) /\
  exists r'',
    EtcdRefresh.Revoke r' userID t = (None, r'') /\
    kAPI r'' !! EtcdRefresh.key r'' newID = None /\
    forall userID'', EtcdRefresh.Revoke r'' userID'' t = (Some refresh_ErrorInvalidToken, r'').
Proof.
  intros Hs Hfree HC. pose proof (base64_round_trip payload) as H64.
  destruct (etcd_Create_stores _ _ _ _ _ _ _ _ HC) as (hash & Hh & -> & ->).
  set (record := {| EtcdRefresh.ID := newID |}).
  set (r1 := with_kAPI r (<[EtcdRefresh.key r newID := record]> (kAPI r))).
  assert (Hlook : kAPI r1 !! EtcdRefresh.key r1 newID = Some record)
    by apply lookup_insert_eq.
  pose proof (etcd_get_stored _ _ _ Hlook) as Hget.
  unfold EtcdRefresh.Revoke, EtcdRefresh.buildToken.
  rewrite (etcd_parseToken_buildToken _ _ Hfree), H64. split.
  - intros userID' Hne. rewrite Hget. cbn [EtcdRefresh.UserID record].
    apply not_eq_sym, String.eqb_neq in Hne. rewrite Hne. reflexivity.
  - rewrite Hget. cbn [EtcdRefresh.UserID EtcdRefresh.PayloadHash EtcdRefresh.ID record].
    rewrite String.eqb_refl. cbn [negb].
    rewrite (etcd_checkTokenPayload_same _ _ _ Hs Hh).
    unfold kAPI_Delete. rewrite Hlook. eexists. split; [reflexivity|].
    assert (Hgone : kAPI (with_kAPI r1 (delete (EtcdRefresh.key r1 newID) (kAPI r1)))
                      !! EtcdRefresh.key (with_kAPI r1 (delete (EtcdRefresh.key r1 newID)
                                                           (kAPI r1))) newID = None)
      by apply lookup_delete_eq.
    split; [exact Hgone|].
    intros userID''. rewrite (etcd_get_absent _ _ Hgone). reflexivity.
Qed.

End EtcdRefreshFacts.

Section MongoRefreshFacts.
Context {B : Bcrypt} {TF : TokenFormat}.

Lemma mongo_checkTokenPayload_same salt payload hash :
  bcrypt_sound ->
  bcrypt_GenerateFromPassword salt payload bcrypt_DefaultCost = Ok hash ->
  MongoRefresh.checkTokenPayload hash payload = None.
Proof.
  intros Hs Hh. unfold MongoRefresh.checkTokenPayload. rewrite (Hs _ _ _ _ Hh). reflexivity.
Qed.

Lemma mongo_checkTokenPayload_other salt payload hash payload' :
  bcrypt_binding ->
  bcrypt_GenerateFromPassword salt payload bcrypt_DefaultCost = Ok hash ->
  (length payload <= 72)%nat -> (length payload' <= 72)%nat -> payload' <> payload ->
  MongoRefresh.checkTokenPayload hash payload' = Some refresh_ErrorInvalidToken.
Proof.
  intros Hb Hh Hl Hl' Hne. unfold MongoRefresh.checkTokenPayload.
  rewrite (Hb _ _ _ _ _ Hh Hl Hl' Hne). reflexivity.
Qed.

(** What [Create] on MongoDB does when the object ID is new to the
    collection. *)
Lemma mongo_Create_stores (r : MongoRefresh.refreshTokenRepo)
    userID clientID payload salt newID hash :
  userID <> "" -> clientID <> "" ->
  bcrypt_GenerateFromPassword salt payload bcrypt_DefaultCost = Ok hash ->
  find_one (MongoRefresh.sel_id newID) r = Err mgo_ErrNotFound ->
  MongoRefresh.Create r userID clientID (Ok payload) salt newID
  = (Ok (MongoRefresh.buildToken newID payload),
     r ++ [{| MongoRefresh.ID := newID; MongoRefresh.PayloadHash := hash;
              MongoRefresh.UserID := userID; MongoRefresh.ClientID := clientID |}]).
Proof.
  intros Hu Hc Hh Hnew. unfold MongoRefresh.Create, insert_one.
  apply String.eqb_neq in Hu, Hc. rewrite Hu, Hc, Hh.
  cbn [MongoRefresh.ID].
  change (fun d' : MongoRefresh.refreshTokenModel => bool_decide (MongoRefresh.ID d' = newID))
    with (MongoRefresh.sel_id newID).
  rewrite Hnew. reflexivity.
Qed.

Lemma mongo_sel_id_self (record : MongoRefresh.refreshTokenModel) :
  MongoRefresh.sel_id (MongoRefresh.ID record) record = true.
Proof. apply bool_decide_eq_true. reflexivity. Qed.

Lemma remove_one_app_miss {D} (sel : D -> bool) c d :
  find_one sel c = Err mgo_ErrNotFound -> sel d = true ->
  remove_one sel (c ++ [d]) = (None, c).
Proof.
  induction c as [|x c IH]; simpl; intros Hc Hd.
  - rewrite Hd. reflexivity.
  - destruct (sel x); [discriminate|]. rewrite (IH Hc Hd). reflexivity.
Qed.

(** On MongoDB, when the record is stored, the token verifies for its
    client and for no other, and not with a foreign payload. *)
Lemma mongo_Create_Verify (r : MongoRefresh.refreshTokenRepo)
    userID clientID (payload salt : bytes) newID hash :
  bcrypt_sound -> bcrypt_binding ->
  delimiter_free (ObjectId_Hex newID) ->
  bson_IsObjectIdHex (ObjectId_Hex newID) = true ->
  bson_ObjectIdHex (ObjectId_Hex newID) = newID ->
  (length payload <= 72)%nat ->
  userID <> "" -> clientID <> "" ->
  bcrypt_GenerateFromPassword salt payload bcrypt_DefaultCost = Ok hash ->
  find_one (MongoRefresh.sel_id newID) r = Err mgo_ErrNotFound ->
  let t := MongoRefresh.buildToken newID payload in
  let r' := snd (MongoRefresh.Create r userID clientID (Ok payload) salt newID) in
  MongoRefresh.Verify r' clientID t = Ok userID /\
  (forall clientID', clientID' <> clientID ->
     MongoRefresh.Verify r' clientID' t = Err refresh_ErrorInvalidClientID) /\
  (forall enc, foreign_payload payload enc ->
     MongoRefresh.Verify r' clientID (ObjectId_Hex newID +:+ refresh_TokenDelimer +:+ enc)
     = Err refresh_ErrorInvalidToken).
Proof.
  intros Hs Hb Hfree Hhex Hid Hlen Hu Hc Hh Hnew t r'. subst t r'.
  pose proof (base64_round_trip payload) as H64.
  rewrite (mongo_Create_stores _ _ _ _ _ _ _ Hu Hc Hh Hnew). cbn [snd].
  set (record := {| MongoRefresh.ID := newID |}).
  assert (Hfind : find_one (MongoRefresh.sel_id newID) (r ++ [record]) = Ok record).
  { rewrite (find_one_app_miss _ _ _ Hnew).
    replace (MongoRefresh.sel_id newID record) with true
      by (symmetry; apply (mongo_sel_id_self record)).
    reflexivity. }
  unfold MongoRefresh.Verify, MongoRefresh.buildToken.
  split; [|split].
  - rewrite (mongo_parseToken_buildToken _ _ Hfree Hhex Hid), H64, Hfind.
    cbn [MongoRefresh.ClientID MongoRefresh.PayloadHash MongoRefresh.UserID record].
    rewrite String.eqb_refl. cbn [negb].
    rewrite (mongo_checkTokenPayload_same _ _ _ Hs Hh). reflexivity.
  - intros clientID' Hne.
    rewrite (mongo_parseToken_buildToken _ _ Hfree Hhex Hid), H64, Hfind.
    cbn [MongoRefresh.ClientID record].
    apply not_eq_sym, String.eqb_neq in Hne. rewrite Hne. reflexivity.
  - intros enc Hforeign. unfold foreign_payload in Hforeign.
    rewrite (mongo_parseToken_buildToken _ _ Hfree Hhex Hid).
    destruct (base64_DecodeString enc) as [payload'|]; [|reflexivity].
    destruct Hforeign as [Hne Hlen']. rewrite Hfind.
    cbn [MongoRefresh.ClientID MongoRefresh.PayloadHash record].
    rewrite String.eqb_refl. cbn [negb].
    rewrite (mongo_checkTokenPayload_other _ _ _ _ Hb Hh Hlen Hlen' Hne). reflexivity.
Qed.

(** On MongoDB, when the record is stored, the token is revoked by its
    user only, and once. *)
Lemma mongo_Create_Revoke (r : MongoRefresh.refreshTokenRepo)
    userID clientID (payload salt : bytes) newID hash :
  bcrypt_sound ->
  delimiter_free (ObjectId_Hex newID) ->
  bson_IsObjectIdHex (ObjectId_Hex newID) = true ->
  bson_ObjectIdHex (ObjectId_Hex newID) = newID ->
  userID <> "" -> clientID <> "" ->
  bcrypt_GenerateFromPassword salt payload bcrypt_DefaultCost = Ok hash ->
  find_one (MongoRefresh.sel_id newID) r = Err mgo_ErrNotFound ->
  let t := MongoRefresh.buildToken newID payload in
  let r' := snd (MongoRefresh.Create r userID clientID (Ok payload) salt newID) in
  (forall userID', userID' <> userID ->
     MongoRefresh.Revoke r' userID' t = (Some refresh_ErrorInvalidUserID, r')) /\
  MongoRefresh.Revoke r' userID t = (None, r) /\
  (forall userID'', MongoRefresh.Revoke r userID'' t = (Some refresh_ErrorInvalidToken, r)).
Proof.
  intros Hs Hfree Hhex Hid Hu Hc Hh Hnew t r'. subst t r'.
  pose proof (base64_round_trip payload) as H64.
  rewrite (mongo_Create_stores _ _ _ _ _ _ _ Hu Hc Hh Hnew). cbn [snd].
  set (record := {| MongoRefresh.ID := newID |}).
  assert (Hfind : find_one (MongoRefresh.sel_id newID) (r ++ [record]) = Ok record).
  { rewrite (find_one_app_miss _ _ _ Hnew).
    replace (MongoRefresh.sel_id newID record) with true
      by (symmetry; apply (mongo_sel_id_self record)).
    reflexivity. }
  unfold MongoRefresh.Revoke, MongoRefresh.buildToken.
  rewrite (mongo_parseToken_buildToken _ _ Hfree Hhex Hid), H64.
  split; [|split].
  - intros userID' Hne. rewrite Hfind. cbn [MongoRefresh.UserID record].
    apply not_eq_sym, String.eqb_neq in Hne. rewrite Hne. reflexivity.
  - rewrite Hfind.
    cbn [MongoRefresh.UserID MongoRefresh.PayloadHash MongoRefresh.ID record].
    rewrite String.eqb_refl. cbn [negb].
    rewrite (mongo_checkTokenPayload_same _ _ _ Hs Hh).
    apply (remove_one_app_miss _ _ record Hnew). apply (mongo_sel_id_self record).
  - intros userID''. rewrite Hnew. reflexivity.
Qed.

End MongoRefreshFacts.

(** The lenient decoder lets one token be written in several ways: the last
    character before the padding of the sample token may be [g] or [h], and
    both texts verify. *)
Lemma Verify_accepts_both_spellings :
  let r := snd (@MongoRefresh.Create clear_bcrypt hex_tokens [] "u1" "client1"
                  (Ok sample_payload) sample_salt sample_token_id) in
  fst (@MongoRefresh.Create clear_bcrypt hex_tokens [] "u1" "client1"
         (Ok sample_payload) sample_salt sample_token_id)
    = Ok "56a1f3d2e4b0c9a8d7e6f5a4/MDEyMzQ1Njc4OWFiY2RlZg==" /\
  @MongoRefresh.Verify clear_bcrypt hex_tokens r "client1"
      "56a1f3d2e4b0c9a8d7e6f5a4/MDEyMzQ1Njc4OWFiY2RlZg==" = Ok "u1" /\
  @MongoRefresh.Verify clear_bcrypt hex_tokens r "client1"
      "56a1f3d2e4b0c9a8d7e6f5a4/MDEyMzQ1Njc4OWFiY2RlZh==" = Ok "u1".
Proof. repeat split; vm_compute; reflexivity. Qed.

(** ** Sessions: what is read back *)

Lemma etcd_time_round_trip (t : Time) :
  whole_seconds t ->
  (if negb ((if negb (Time_IsZero t) then Time_Unix t else 0) =? 0)
   then Time_UTC (time_Unix (if negb (Time_IsZero t) then Time_Unix t else 0))
   else zeroTime) = t.
Proof.
  unfold whole_seconds, Time_IsZero, Time_UTC, time_Unix, Time_Unix.
  intros [-> | [Hmod Hq]].
  - rewrite Z.eqb_refl. reflexivity.
  - destruct (Z.eqb_spec t zeroTime) as [-> | Hne]; [reflexivity|]. cbn [negb].
    destruct (Z.eqb_spec (t / Second) 0) as [H0 | _]; [contradiction|]. cbn [negb].
    pose proof (Z.div_mod t Second ltac:(discriminate)). lia.
Qed.

Lemma mongo_time_round_trip (t : Time) :
  whole_milliseconds t ->
  (if negb (Time_IsZero (bson_Time (if negb (Time_IsZero t) then Time_UTC t else zeroTime)))
   then Time_UTC (bson_Time (if negb (Time_IsZero t) then Time_UTC t else zeroTime))
   else zeroTime) = t.
Proof.
  unfold whole_milliseconds, Time_IsZero, Time_UTC, bson_Time. intros Hmod.
  assert (Hb : t / Millisecond * Millisecond = t).
  { pose proof (Z.div_mod t Millisecond ltac:(discriminate)). lia. }
  destruct (Z.eqb_spec t zeroTime) as [-> | Hne]; [reflexivity|]. cbn [negb].
  rewrite Hb. destruct (Z.eqb_spec t zeroTime); [contradiction | reflexivity].
Qed.

Section SessionRoundTrip.
Context {SC : SessionCodec}.

(** On etcd a session that [Create] stored is read back as it was. *)
Lemma etcd_Create_Get (r r' : EtcdSession.sessionRepo) (s : session.Session) now :
  survives_text s ->
  whole_seconds (session.CreatedAt s) -> whole_seconds (session.ExpiresAt s) ->
  EtcdSession.Create r s = (None, r') ->
  now <= session.ExpiresAt s ->
  EtcdSession.Get r' now (session.ID s) = Ok s.
Proof.
  intros (Hurl & Hident & Hnorm) Hc He. unfold EtcdSession.Create.
  destruct (EtcdSession.newSessionModel s) as [sm | e] eqn:Hsm; [|intros [= ]].
  unfold EtcdSession.insert, kAPI_Create, kAPI_Set.
  destruct (kAPI r !! EtcdSession.key r (EtcdSession.ID sm)) eqn:Hk; [intros [= ]|].
  intros [= <-] Hlive.
  unfold EtcdSession.newSessionModel in Hsm.
  destruct (json_Marshal_Identity (session.Identity s)) as [b | e] eqn:Hb; [|discriminate].
  injection Hsm as <-. cbn [EtcdSession.ID] in *.
  unfold EtcdSession.Get, EtcdSession.get, kAPI_Get.
  cbn [kAPI with_kAPI].
  change (EtcdSession.key (with_kAPI r _) (session.ID s))
    with (EtcdSession.key r (session.ID s)).
  rewrite lookup_insert_eq. cbn [Node].
  unfold EtcdSession.sessionModel_session.
  cbn [EtcdSession.RedirectURL EtcdSession.Identity EtcdSession.CreatedAt
       EtcdSession.ExpiresAt EtcdSession.ID EtcdSession.State EtcdSession.ClientID
       EtcdSession.ClientState EtcdSession.ConnectorID EtcdSession.UserID
       EtcdSession.Register EtcdSession.Nonce EtcdSession.Scope].
  rewrite Hurl, (Hident b eq_refl). cbv zeta.
  rewrite (etcd_time_round_trip _ Hc), (etcd_time_round_trip _ He).
  assert (Hid : (if Time_IsZero (Identity_ExpiresAt (session.Identity s))
                 then Identity_with_ExpiresAt (session.Identity s) zeroTime
                 else session.Identity s) = session.Identity s).
  { destruct (Time_IsZero _) eqn:Hz; [apply Hnorm; reflexivity | reflexivity]. }
  rewrite Hid. cbn [session.ExpiresAt]. unfold Time_Before.
  replace (session.ExpiresAt s <? now) with false
    by (symmetry; apply Z.ltb_ge; exact Hlive).
  destruct s. reflexivity.
Qed.

(** On MongoDB a session that [Create] stored, or that [Update] wrote over
    a stored one, is read back as it was. *)
Lemma mongo_written_Get (r : MongoSession.sessionRepo) (s : session.Session) sm now :
  survives_text s ->
  whole_milliseconds (session.CreatedAt s) -> whole_milliseconds (session.ExpiresAt s) ->
  MongoSession.newSessionModel s = Ok sm ->
  find_one (MongoSession.sel_id (session.ID s)) r = Ok (MongoSession.marshal sm) ->
  now <= session.ExpiresAt s ->
  MongoSession.Get r now (session.ID s) = Ok s.
Proof.
  intros (Hurl & Hident & Hnorm) Hc He Hsm Hfind Hlive.
  unfold MongoSession.newSessionModel in Hsm.
  destruct (json_Marshal_Identity (session.Identity s)) as [b | e] eqn:Hb; [|discriminate].
  injection Hsm as <-.
  unfold MongoSession.Get. rewrite Hfind.
  unfold MongoSession.sessionModel_session, MongoSession.marshal.
  cbn [MongoSession.RedirectURL MongoSession.Identity MongoSession.CreatedAt
       MongoSession.ExpiresAt MongoSession.ID MongoSession.State MongoSession.ClientID
       MongoSession.ClientState MongoSession.ConnectorID MongoSession.UserID
       MongoSession.Register MongoSession.Nonce MongoSession.Scope].
  rewrite Hurl, (Hident b eq_refl). cbv zeta.
  rewrite (mongo_time_round_trip _ Hc), (mongo_time_round_trip _ He).
  assert (Hid : (if Time_IsZero (Identity_ExpiresAt (session.Identity s))
                 then Identity_with_ExpiresAt (session.Identity s) zeroTime
                 else session.Identity s) = session.Identity s).
  { destruct (Time_IsZero _) eqn:Hz; [apply Hnorm; reflexivity | reflexivity]. }
  rewrite Hid. cbn [session.ExpiresAt]. unfold Time_Before.
  replace (session.ExpiresAt s <? now) with false
    by (symmetry; apply Z.ltb_ge; exact Hlive).
  destruct s. reflexivity.
Qed.

Lemma mongo_Create_Get (r r' : MongoSession.sessionRepo) (s : session.Session) now :
  survives_text s ->
  whole_milliseconds (session.CreatedAt s) -> whole_milliseconds (session.ExpiresAt s) ->
  MongoSession.Create r s = (None, r') ->
  now <= session.ExpiresAt s ->
  MongoSession.Get r' now (session.ID s) = Ok s.
Proof.
  intros Ht Hc He HC Hlive. unfold MongoSession.Create in HC.
  destruct (MongoSession.newSessionModel s) as [sm | e] eqn:Hsm; [|discriminate].
  assert (Hid : MongoSession.ID (MongoSession.marshal sm) = session.ID s).
  { unfold MongoSession.newSessionModel in Hsm.
    destruct (json_Marshal_Identity _); [|discriminate]. injection Hsm as <-. reflexivity. }
  unfold insert_one in HC. rewrite Hid in HC.
  change (fun d' : MongoSession.sessionModel => bool_decide (MongoSession.ID d' = session.ID s))
    with (MongoSession.sel_id (session.ID s)) in HC.
  destruct (find_one (MongoSession.sel_id (session.ID s)) r) as [d | e] eqn:Hf;
    [discriminate|].
  destruct (find_one_Err _ _ _ Hf) as [-> _]. injection HC as <-.
  apply (mongo_written_Get _ _ sm); try assumption.
  rewrite (find_one_app_miss _ _ _ Hf).
  replace (MongoSession.sel_id (session.ID s) (MongoSession.marshal sm)) with true
    by (symmetry; apply bool_decide_eq_true; exact Hid).
  reflexivity.
Qed.

Lemma mongo_Update_Get (r r' : MongoSession.sessionRepo) (s : session.Session) now old :
  survives_text s ->
  whole_milliseconds (session.CreatedAt s) -> whole_milliseconds (session.ExpiresAt s) ->
  find_one (MongoSession.sel_id (session.ID s)) r = Ok old ->
  (forall b, json_Marshal_Identity (session.Identity s) <> Ok b) \/
  (exists r', MongoSession.Update r s = (None, r') /\
              (now <= session.ExpiresAt s -> MongoSession.Get r' now (session.ID s) = Ok s)).
Proof.
  intros Ht Hc He Hold.
  destruct (MongoSession.newSessionModel s) as [sm | e] eqn:Hsm.
  - right. destruct (mongo_Update_existing _ _ _ _ Hsm Hold) as (r1 & HU & Hf).
    exists r1. split; [exact HU|]. intros Hlive.
    apply (mongo_written_Get _ _ sm); assumption.
  - left. intros b Hb. unfold MongoSession.newSessionModel in Hsm.
    rewrite Hb in Hsm. discriminate.
Qed.

End SessionRoundTrip.
